(** * Verification of [app.py]: transcript segmenter and session workflow

    The development embeds the pure helpers of [app.py]
    ([seconds_to_hms], [format_transcript]) and the state-changing part of
    [main] (the handlers that touch [st.session_state]) and proves or
    refutes the properties stated about them.

    Conventions of the embedding:
    - a Python [str] is held as its UTF-8 encoding, a [string] of bytes;
      [len], slicing and [strip] work on code points ([str_len],
      [str_take], [whitespace]), while concatenation, comparison and
      splitting at an ASCII character are the same on bytes and on code
      points;
    - a Python [int] is a [Z]; a finite Python [float] denotes a rational
      number and is a [Q] (only [int(...)] is ever applied to it, which is
      exact on the denoted rational);
    - [st.session_state] is a finite map from attribute names to Python
      values ([gmap string value]);
    - an exception is a value of [exn]; code that can raise runs in a
      state-and-exception monad in which the session state survives the
      exception, as it does in Streamlit. *)

From Stdlib Require Import ZArith QArith String Ascii List.
From stdpp Require Import base tactics option list numbers strings pretty gmap.

Local Open Scope string_scope.
Local Open Scope Z_scope.
Local Open Scope list_scope.

(** ** Python preliminaries *)

Module Py.

(** Exceptions that the embedded code can raise. *)
Inductive exn : Type :=
| AttributeError
| KeyError
| IndexError
| TypeError
| OverflowError
| StreamlitAPIException.

(** Outcome of a computation that may raise. *)
Inductive res (A : Type) : Type :=
| Ok (a : A)
| Raise (e : exn).
Arguments Ok {A} a.
Arguments Raise {A} e.

Definition rbind {A B} (r : res A) (k : A -> res B) : res B :=
  match r with
  | Ok a => k a
  | Raise e => Raise e
  end.

(** [sep.join(l)] *)
Fixpoint join (sep : string) (l : list string) : string :=
  match l with
  | [] => EmptyString
  | [s] => s
  | s :: rest => s +:+ sep +:+ join sep rest
  end.

(** [s.split(c)] for a one-character separator [c]. *)
Fixpoint split (c : ascii) (s : string) : list string :=
  match s with
  | EmptyString => [EmptyString]
  | String a rest =>
      if Ascii.eqb a c then EmptyString :: split c rest
      else match split c rest with
           | [] => [String a EmptyString]
           | piece :: pieces => String a piece :: pieces
           end
  end.

(** *** Code points

    In UTF-8 a byte of the form [10xxxxxx] continues a code point and every
    other byte starts one. *)
Definition continuation (a : ascii) : bool :=
  let n := nat_of_ascii a in (128 <=? n)%nat && (n <? 192)%nat.

(** [len(s)]: the number of code points. *)
Fixpoint str_len (s : string) : nat :=
  match s with
  | EmptyString => 0%nat
  | String a rest => if continuation a then str_len rest else S (str_len rest)
  end.

(** [s[:n]]: the first [n] code points. *)
Fixpoint str_take (n : nat) (s : string) : string :=
  match s with
  | EmptyString => EmptyString
  | String a rest =>
      if continuation a then String a (str_take n rest)
      else match n with
           | O => EmptyString
           | S m => String a (str_take m rest)
           end
  end.

(** [str.isspace] on one ASCII character: U+0009 to U+000D, U+001C to
    U+001F and the space. *)
Definition isspace (a : ascii) : bool :=
  let n := nat_of_ascii a in
  ((9 <=? n)%nat && (n <=? 13)%nat) || ((28 <=? n)%nat && (n <=? 32)%nat).

(** The white space outside ASCII, as encoded bytes: U+0085 and U+00A0
    (two bytes); U+1680, U+2000 to U+200A, U+2028, U+2029, U+202F, U+205F
    and U+3000 (three bytes). *)
Definition isspace2 (a b : ascii) : bool :=
  (nat_of_ascii a =? 194)%nat
  && ((nat_of_ascii b =? 133)%nat || (nat_of_ascii b =? 160)%nat).

Definition isspace3 (a b c : ascii) : bool :=
  let x := nat_of_ascii a in
  let y := nat_of_ascii b in
  let z := nat_of_ascii c in
  ((x =? 225) && (y =? 154) && (z =? 128))%nat
  || ((x =? 226) && (y =? 128)
      && (((128 <=? z) && (z <=? 138)) || (z =? 168) || (z =? 169)
          || (z =? 175)))%nat
  || ((x =? 226) && (y =? 129) && (z =? 159))%nat
  || ((x =? 227) && (y =? 128) && (z =? 128))%nat.

(** The text is exactly one white-space code point. *)
Definition whitespace (s : string) : bool :=
  match s with
  | String a EmptyString => isspace a
  | String a (String b EmptyString) => isspace2 a b
  | String a (String b (String c EmptyString)) => isspace3 a b c
  | _ => false
  end.

Fixpoint lstrip (s : string) : string :=
  match s with
  | EmptyString => EmptyString
  | String a rest =>
      if isspace a then lstrip rest
      else match rest with
           | String b rest2 =>
               if isspace2 a b then lstrip rest2
               else match rest2 with
                    | String c rest3 =>
                        if isspace3 a b c then lstrip rest3 else s
                    | EmptyString => s
                    end
           | EmptyString => s
           end
  end.

Fixpoint rstrip (s : string) : string :=
  match s with
  | EmptyString => EmptyString
  | String a rest =>
      let kept := String a (rstrip rest) in
      if whitespace kept then EmptyString else kept
  end.

(** [s.strip()] *)
Definition strip (s : string) : string := rstrip (lstrip s).

(** Truth value of a [str]: non-empty. *)
Definition str_truthy (s : string) : bool :=
  match s with
  | EmptyString => false
  | String _ _ => true
  end.

(** [int(x)] on a float: truncation toward zero. *)
Definition int_of_float (x : Q) : Z := Z.quot (Qnum x) (Z.pos (Qden x)).

(** ["%02d" % n] *)
Definition fmt_02d (n : Z) : string :=
  if (0 <=? n) && (n <? 10) then "0" +:+ pretty n else pretty n.

(** *** [datetime.timedelta]

    [timedelta(seconds=n)] for an integer [n] normalises to days and
    seconds with [divmod(n, 86400)], seconds in [0, 86400); the constructor
    raises [OverflowError] when the day count leaves
    [-999999999, 999999999]. *)
Record timedelta : Type := mk_timedelta {
  td_days : Z;
  td_seconds : Z;
  td_microseconds : Z
}.

Definition max_days : Z := 999999999.

Definition timedelta_of_seconds (n : Z) : res timedelta :=
  let d := n `div` 86400 in
  let s := n `mod` 86400 in
  if (Z.abs d >? max_days) then Raise OverflowError
  else Ok (mk_timedelta d s 0).

(** [str(td)]: ["%d:%02d:%02d"] of hours, minutes and seconds, preceded by
    ["%d day%s, "] when the day count is not zero. The microseconds part
    is never present for an integer number of seconds. *)
Definition timedelta_str (td : timedelta) : string :=
  let mm := td_seconds td `div` 60 in
  let ss := td_seconds td `mod` 60 in
  let hh := mm `div` 60 in
  let mm := mm `mod` 60 in
  let s := pretty hh +:+ ":" +:+ fmt_02d mm +:+ ":" +:+ fmt_02d ss in
  if td_days td =? 0 then s
  else pretty (td_days td) +:+ " day"
       +:+ (if Z.abs (td_days td) =? 1 then EmptyString else "s") +:+ ", " +:+ s.

End Py.

Import Py.

Notation "'let?' x ':=' r 'in' k" := (rbind r (fun x => k))
  (at level 10, x name, k at level 200).

(** ** The transcript segmenter *)

(** [seconds_to_hms(seconds)] *)
Definition seconds_to_hms (seconds : Q) : res string :=
  let? t := timedelta_of_seconds (int_of_float seconds) in
  let td := timedelta_str t in
  let td := if (length (split ":" td) =? 2)%nat then "00:" +:+ td else td in
  Ok ("[" +:+ td +:+ "]").

(** One element of the transcription collaborator's word list: the keys
    ["word"], ["start"] and ["speaker"]. *)
Record Word : Type := mk_word {
  word : string;
  start : Q;
  speaker : Z
}.

(** The transcription result as [format_transcript] navigates it:
    [result["results"]["channels"][0]["alternatives"][0]["words"]]. *)
Record Alternative : Type := mk_alternative { words : list Word }.
Record Channel : Type := mk_channel { alternatives : list Alternative }.
Record Results : Type := mk_results { channels : list Channel }.

(** The top-level dictionary: the value under ["results"] when the key is
    present, and the names of its other keys. *)
Record Response : Type := mk_response {
  results : option Results;
  other_keys : list string
}.

(** Truth value of the object returned by [transcribe_audio]: [None] and
    the empty dictionary are false. *)
Definition response_truthy (r : option Response) : bool :=
  match r with
  | None => false
  | Some d =>
      match results d, other_keys d with
      | None, [] => false
      | _, _ => true
      end
  end.

(** The local variables of the loop of [format_transcript]. *)
Record loop_state : Type := mk_loop {
  current_speaker : option string;
  current_start : option Q;
  current_text : list string;
  formatted_transcript : list string
}.

Definition dquote : string := String (ascii_of_nat 34) EmptyString.

(** The f-string appended to [formatted_transcript]: the rendered start
    time, a space, the speaker label, a colon and a space, and the words
    joined by single spaces between double quotes. *)
Definition render_block (lp : loop_state) : res string :=
  match current_start lp with
  | None => Raise TypeError
  | Some t =>
      let? hms := seconds_to_hms t in
      let who := match current_speaker lp with
                 | Some s => s
                 | None => "None"
                 end in
      Ok (hms +:+ " " +:+ who +:+ ": " +:+ dquote
          +:+ join " " (current_text lp) +:+ dquote)
  end.

(** One iteration of [for word in words]. *)
Definition loop_body (lp : loop_state) (w : Word) : res loop_state :=
  let speaker := "Speaker " +:+ pretty (speaker w + 1) in
  if bool_decide (Some speaker <> current_speaker lp) then
    let? out := (match current_speaker lp with
            | Some _ =>
                let? line := render_block lp in
                Ok (formatted_transcript lp ++ [line])
            | None => Ok (formatted_transcript lp)
            end) in
    Ok (mk_loop (Some speaker) (Some (start w)) [word w] out)
  else
    Ok (mk_loop (current_speaker lp) (current_start lp)
          (current_text lp ++ [word w]) (formatted_transcript lp)).

Fixpoint run_loop (lp : loop_state) (ws : list Word) : res loop_state :=
  match ws with
  | [] => Ok lp
  | w :: rest => let? lp' := loop_body lp w in run_loop lp' rest
  end.

Definition newline : string := String (ascii_of_nat 10) EmptyString.

Definition no_transcription : string := "No transcription available".

(** The statement after the loop: [if current_text:] emit the last
    block. *)
Definition close_block (lp : loop_state) : res (list string) :=
  match current_text lp with
  | [] => Ok (formatted_transcript lp)
  | _ :: _ =>
      let? line := render_block lp in
      Ok (formatted_transcript lp ++ [line])
  end.

(** The body of [format_transcript] after the word list has been read:
    the grouping loop and the last block. *)
Definition format_words (ws : list Word) : res (list string) :=
  let? lp := run_loop (mk_loop None None [] []) ws in
  close_block lp.

(** [x[0]] on a list. *)
Definition index0 {A} (l : list A) : res A :=
  match l with
  | [] => Raise IndexError
  | x :: _ => Ok x
  end.

(** [format_transcript(result)] *)
Definition format_transcript (result : option Response) : res string :=
  if negb (response_truthy result) then Ok no_transcription
  else match result with
       | None => Ok no_transcription
       | Some d =>
           match results d with
           | None => Ok no_transcription
           | Some r =>
               let? ch := index0 (channels r) in
               let? alt := index0 (alternatives ch) in
               let? lines := format_words (words alt) in
               Ok (join newline lines)
           end
       end.

(** ** The session state *)

(** Python values stored in [st.session_state]. A [datetime] is kept as an
    opaque clock reading. *)
#[warnings="-register-all"] Inductive value : Type :=
| VNone
| VBool (b : bool)
| VInt (n : Z)
| VStr (s : string)
| VTime (t : Z)
| VList (l : list value)
| VDict (d : list (string * value)).

(** Truth value of a Python object. *)
Definition truthy (v : value) : bool :=
  match v with
  | VNone => false
  | VBool b => b
  | VInt n => negb (n =? 0)
  | VStr s => str_truthy s
  | VTime _ => true
  | VList l => match l with [] => false | _ :: _ => true end
  | VDict d => match d with [] => false | _ :: _ => true end
  end.

(** [d[k]] on a dictionary literal, kept in insertion order. *)
Fixpoint dict_get (k : string) (d : list (string * value)) : option value :=
  match d with
  | [] => None
  | (k', v) :: rest => if String.eqb k k' then Some v else dict_get k rest
  end.

Abbreviation session := (gmap string value).

(** Computations over the session state that may raise; the state reached
    when the exception is raised is kept. *)
Definition M (A : Type) : Type := session -> res A * session.

Definition ret {A} (a : A) : M A := fun st => (Ok a, st).

Definition raise {A} (e : exn) : M A := fun st => (Raise e, st).

Definition bind {A B} (m : M A) (k : A -> M B) : M B :=
  fun st =>
    match m st with
    | (Ok a, st') => k a st'
    | (Raise e, st') => (Raise e, st')
    end.

Definition lift {A} (r : res A) : M A := fun st => (r, st).

Notation "'let*' x ':=' m 'in' k" := (bind m (fun x => k))
  (at level 10, x name, k at level 200).

(** The state in which a computation ends. *)
Definition exec {A} (m : M A) (st : session) : session := snd (m st).

(** [st.session_state.k] *)
Definition getattr (k : string) : M value :=
  fun st =>
    match st !! k with
    | Some v => (Ok v, st)
    | None => (Raise AttributeError, st)
    end.

(** [st.session_state.k = v] *)
Definition setattr (k : string) (v : value) : M unit :=
  fun st => (Ok tt, <[k := v]> st).

(** [k in st.session_state] *)
Definition hasattr (k : string) : M bool :=
  fun st => (Ok (bool_decide (is_Some (st !! k))), st).

(** [del st.session_state[k]] *)
Definition delattr (k : string) : M unit :=
  fun st =>
    match st !! k with
    | Some _ => (Ok tt, delete k st)
    | None => (Raise KeyError, st)
    end.

(** [st.session_state.k.append(x)] *)
Definition append_attr (k : string) (x : value) : M unit :=
  let* v := getattr k in
  match v with
  | VList l => setattr k (VList (l ++ [x]))
  | _ => raise AttributeError
  end.

(** [len(v)] *)
Definition len (v : value) : M Z :=
  match v with
  | VStr s => ret (Z.of_nat (str_len s))
  | VList l => ret (Z.of_nat (length l))
  | VDict d => ret (Z.of_nat (length d))
  | _ => raise TypeError
  end.

(** *** Initialisation (module level, executed at the start of every run) *)

Definition init_default (k : string) (v : value) : M unit :=
  let* found := hasattr k in
  if found then ret tt else setattr k v.

Definition init_session_state : M unit :=
  let* _ := init_default "primary_prompt" VNone in
  let* _ := init_default "master_prompt" VNone in
  let* _ := init_default "call_insights" (VList []) in
  let* _ := init_default "transcriptions" (VList []) in
  let* _ := init_default "api_configured" (VBool false) in
  let* _ := init_default "current_phase" (VInt 1) in
  let* _ := init_default "agent_details" (VDict []) in
  let* _ := init_default "refinement_history" (VList []) in
  init_default "refinement_chat" (VList []).

(** *** What the operator and the collaborators supply to one run *)

(** An uploaded recording together with what the two collaborators answer
    for it: the return value of [transcribe_audio] ([None] on a failed
    call), the return value of [extract_call_insights] ([None] on a failed
    call), and the two readings of [datetime.now()]. *)
Record audio_file : Type := mk_audio {
  name : string;
  transcription_result : option Response;
  insights : option string;
  transcribed_at : Z;
  analysed_at : Z
}.

Inductive process_mode : Type :=
| ProcessAllAtOnce
| ProcessOneByOne (selected_file_index : nat).

(** The button pressed in a run, with the contents of the widgets it reads
    and the answer of the generative model where it calls one. *)
Inductive button : Type :=
| NoButton
| ResetAllProgress
| SaveAgentDetails (agent_name company_name agent_language prompt_category : string)
| GeneratePrimaryPrompt (script_content template_content : string)
    (primary_prompt : option string)
| AnalyzeCalls (uploaded_audios : list audio_file) (mode : process_mode)
| ProceedToPhase3
| GenerateMasterPrompt (master_prompt : option string)
| RegenerateMasterPrompt
| RefinePrompt (user_feedback : string) (refined_prompt : option string) (now : Z)
| SuggestFeedback (suggestion : string).

Record run_input : Type := mk_input {
  gemini_key : bool;       (* a key was typed in the sidebar *)
  gemini_ok : bool;        (* [configure_gemini] did not raise *)
  deepgram_key : bool;     (* a key was typed in the sidebar *)
  clicked : button
}.

(** What a run reports back. *)
Inductive report : Type :=
| NoReport
| ErrorShown
| SuccessShown
| BatchReport (successful_analyses failed_analyses : nat).

(** Truth value of the [str | None] returned by a generation helper. *)
Definition text_truthy (o : option string) : bool :=
  match o with
  | Some s => str_truthy s
  | None => false
  end.

Definition value_of_text (o : option string) : value :=
  match o with
  | Some s => VStr s
  | None => VNone
  end.

(** *** The handlers of [main] *)

Definition reset_keys : list string :=
  ["primary_prompt"; "master_prompt"; "call_insights"; "transcriptions";
   "agent_details"; "refinement_history"; "refinement_chat"].

Fixpoint delete_present (keys : list string) : M unit :=
  match keys with
  | [] => ret tt
  | key :: rest =>
      let* found := hasattr key in
      let* _ := (if found then delattr key else ret tt) in
      delete_present rest
  end.

(** The body of the reset button. *)
Definition reset_all_progress : M report :=
  let* _ := delete_present reset_keys in
  let* _ := setattr "current_phase" (VInt 1) in
  ret NoReport.

(** The [Save Agent Details] button (shown while no primary prompt exists). *)
Definition save_agent_details
    (agent_name company_name agent_language prompt_category : string) : M report :=
  let* primary := getattr "primary_prompt" in
  if truthy primary then ret NoReport
  else if str_truthy agent_name && str_truthy company_name
          && str_truthy agent_language && str_truthy prompt_category then
    let* _ := setattr "agent_details"
                (VDict [("name", VStr agent_name); ("company", VStr company_name);
                        ("language", VStr agent_language);
                        ("category", VStr prompt_category)]) in
    ret SuccessShown
  else ret ErrorShown.

(** The [Generate Primary Prompt] button (shown while no primary prompt
    exists). *)
Definition generate_primary
    (script_content template_content : string) (primary_prompt : option string)
    : M report :=
  let* primary := getattr "primary_prompt" in
  if truthy primary then ret NoReport
  else
    let* agent := getattr "agent_details" in
    if negb (truthy agent) then ret ErrorShown
    else if negb (str_truthy (strip script_content)) then ret ErrorShown
    else if negb (str_truthy (strip template_content)) then ret ErrorShown
    else
      let* api := getattr "api_configured" in
      if negb (truthy api) then ret ErrorShown
      else if text_truthy primary_prompt then
        let* _ := setattr "primary_prompt" (value_of_text primary_prompt) in
        let* _ := setattr "current_phase" (VInt 2) in
        ret SuccessShown
      else ret NoReport.

(** The loop [for i, audio_file in enumerate(files_to_process)] with its two
    counters. The transcript is stored as soon as it is formatted; the
    insight record only after a successful analysis. *)
Fixpoint process_files (files_to_process : list audio_file)
    (successful_analyses failed_analyses : nat) : M (nat * nat) :=
  match files_to_process with
  | [] => ret (successful_analyses, failed_analyses)
  | audio_file :: rest =>
      if response_truthy (transcription_result audio_file) then
        let* formatted_transcript :=
          lift (format_transcript (transcription_result audio_file)) in
        let* _ := append_attr "transcriptions"
                    (VDict [("filename", VStr (name audio_file));
                            ("transcript", VStr formatted_transcript);
                            ("timestamp", VTime (transcribed_at audio_file))]) in
        let* _ := getattr "primary_prompt" in
        if text_truthy (insights audio_file) then
          let* _ := append_attr "call_insights"
                      (VDict [("filename", VStr (name audio_file));
                              ("insights", value_of_text (insights audio_file));
                              ("transcript", VStr formatted_transcript);
                              ("timestamp", VTime (analysed_at audio_file))]) in
          process_files rest (S successful_analyses) failed_analyses
        else process_files rest successful_analyses (S failed_analyses)
      else process_files rest successful_analyses (S failed_analyses)
  end.

(** The analysis button of the second tab (shown when a primary prompt
    exists and at least one file is uploaded). *)
Definition analyze_calls (deepgram_key : bool)
    (uploaded_audios : list audio_file) (mode : process_mode) : M report :=
  let* primary := getattr "primary_prompt" in
  if negb (truthy primary) then ret NoReport
  else
    match uploaded_audios with
    | [] => ret NoReport
    | _ :: _ =>
        if negb deepgram_key then ret ErrorShown
        else
          let* api := getattr "api_configured" in
          if negb (truthy api) then ret ErrorShown
          else
            let* files_to_process :=
              match mode with
              | ProcessAllAtOnce => ret uploaded_audios
              | ProcessOneByOne selected_file_index =>
                  match uploaded_audios !! selected_file_index with
                  | Some f => ret [f]
                  | None => raise IndexError
                  end
              end in
            let* counts := process_files files_to_process 0 0 in
            ret (BatchReport (fst counts) (snd counts))
    end.

(** The [Proceed to Phase 3] button (shown in the second tab when a primary
    prompt and at least one insight exist). *)
Definition proceed_to_phase3 : M report :=
  let* primary := getattr "primary_prompt" in
  if negb (truthy primary) then ret NoReport
  else
    let* calls := getattr "call_insights" in
    let* n := len calls in
    if n >? 0 then
      let* _ := setattr "current_phase" (VInt 3) in
      ret NoReport
    else ret NoReport.

(** The [Generate Master Prompt] button (shown when a primary prompt and at
    least one insight exist and no master prompt does). The text sent to
    the model is built from reads of the state only; the answer of the
    model is the argument [master_prompt]. *)
Definition generate_master (master_prompt : option string) : M report :=
  let* primary := getattr "primary_prompt" in
  if negb (truthy primary) then ret NoReport
  else
    let* calls := getattr "call_insights" in
    let* n := len calls in
    if n =? 0 then ret NoReport
    else
      let* master := getattr "master_prompt" in
      if truthy master then ret NoReport
      else
        let* api := getattr "api_configured" in
        if negb (truthy api) then ret ErrorShown
        else if text_truthy master_prompt then
          let* _ := setattr "master_prompt" (value_of_text master_prompt) in
          let* _ := setattr "current_phase" (VInt 4) in
          ret SuccessShown
        else ret ErrorShown.

(** The [Regenerate Master Prompt] button (shown next to an existing master
    prompt). *)
Definition regenerate_master : M report :=
  let* primary := getattr "primary_prompt" in
  if negb (truthy primary) then ret NoReport
  else
    let* calls := getattr "call_insights" in
    let* n := len calls in
    if n =? 0 then ret NoReport
    else
      let* master := getattr "master_prompt" in
      if truthy master then
        let* _ := setattr "master_prompt" VNone in
        ret NoReport
      else ret NoReport.

(** The summary line stored with a refinement: the first hundred code
    points of the feedback, followed by an ellipsis when there are more. *)
Definition refinement_summary (user_feedback : string) : string :=
  "Updated prompt based on: " +:+ str_take 100 user_feedback
  +:+ (if (100 <? str_len user_feedback)%nat then "..." else EmptyString).

(** The [Refine Prompt] button (shown when a master prompt exists; disabled
    while the feedback is blank). *)
Definition refine_prompt (user_feedback : string) (refined_prompt : option string)
    (now : Z) : M report :=
  let* master := getattr "master_prompt" in
  if negb (truthy master) then ret NoReport
  else if negb (str_truthy (strip user_feedback)) then ret NoReport
  else
    let* api := getattr "api_configured" in
    if negb (truthy api) then ret ErrorShown
    else if negb (str_truthy (strip user_feedback)) then ret ErrorShown
    else if text_truthy refined_prompt then
      let* old := getattr "master_prompt" in
      let* _ := append_attr "refinement_history"
                  (VDict [("feedback", VStr user_feedback);
                          ("old_prompt", old);
                          ("new_prompt", value_of_text refined_prompt);
                          ("summary", VStr (refinement_summary user_feedback));
                          ("timestamp", VTime now)]) in
      let* _ := setattr "master_prompt" (value_of_text refined_prompt) in
      ret SuccessShown
    else ret ErrorShown.

(** The three buttons below the refinement form (shown when a master prompt
    exists): each assigns a fixed feedback text to the key of the feedback
    text area. The text area has been created earlier in the same run, and
    Streamlit refuses an assignment to the key of an existing widget: the
    assignment raises and nothing is stored. *)
Definition suggest_feedback (suggestion : string) : M report :=
  let* master := getattr "master_prompt" in
  if negb (truthy master) then ret NoReport
  else raise StreamlitAPIException.

(** The sidebar: [configure_gemini] runs whenever a key is present and
    records whether it succeeded. *)
Definition sidebar (inp : run_input) : M unit :=
  if gemini_key inp then setattr "api_configured" (VBool (gemini_ok inp))
  else ret tt.

(** One execution of [main]: the sidebar, then the handler of the pressed
    button. *)
Definition main (inp : run_input) : M report :=
  let* _ := sidebar inp in
  match clicked inp with
  | NoButton => ret NoReport
  | ResetAllProgress => reset_all_progress
  | SaveAgentDetails n c l g => save_agent_details n c l g
  | GeneratePrimaryPrompt s t p => generate_primary s t p
  | AnalyzeCalls fs m => analyze_calls (deepgram_key inp) fs m
  | ProceedToPhase3 => proceed_to_phase3
  | GenerateMasterPrompt m => generate_master m
  | RegenerateMasterPrompt => regenerate_master
  | RefinePrompt f r t => refine_prompt f r t
  | SuggestFeedback s => suggest_feedback s
  end.

(** *** Runs and reachable states

    A session starts with an empty [st.session_state]. Every run executes
    the initialisation block and then [main]; the state that [main] reads
    is the one left by the previous run, completed by the initialisation
    block. The states below are the states as [main] finds them. *)
Definition fresh_session : session := exec init_session_state ∅.

Definition step (inp : run_input) (st : session) : session :=
  exec init_session_state (exec (main inp) st).

Definition run_all (inps : list run_input) (st : session) : session :=
  fold_left (fun s inp => step inp s) inps st.

Inductive reachable : session -> Prop :=
| reachable_fresh : reachable fresh_session
| reachable_step inp st : reachable st -> reachable (step inp st).

(** Reads of the workflow artifacts. *)
Definition primary_prompt_of (st : session) : option value := st !! "primary_prompt".
Definition master_prompt_of (st : session) : option value := st !! "master_prompt".
Definition call_insights_of (st : session) : option value := st !! "call_insights".
Definition transcriptions_of (st : session) : option value := st !! "transcriptions".
Definition refinement_history_of (st : session) : option value :=
  st !! "refinement_history".
Definition current_phase_of (st : session) : option value := st !! "current_phase".

(** ** Notions used to state the properties *)

(** A speaker turn: the speaker id of a run of words, the start time of its
    first word, and its words. *)
Record turn : Type := mk_turn {
  turn_speaker : Z;
  turn_start : Q;
  turn_words : list string
}.

Definition speaker_label (id : Z) : string := "Speaker " +:+ pretty (id + 1).

(** Space-joined words of a turn. *)
Definition utterance (t : turn) : string := join " " (turn_words t).

(** The day count of [timedelta(seconds=int(t))] is one that the constructor
    accepts. *)
Definition timestamp_ok (t : Q) : Prop :=
  Z.abs (int_of_float t `div` 86400) <= max_days.

(** The text [seconds_to_hms] produces when the constructor accepts. *)
Definition hms_text (t : Q) : string :=
  let n := int_of_float t in
  let td := timedelta_str (mk_timedelta (n `div` 86400) (n `mod` 86400) 0) in
  let td := if (length (split ":" td) =? 2)%nat then "00:" +:+ td else td in
  "[" +:+ td +:+ "]".

(** The line emitted for a turn. *)
Definition render_turn (t : turn) : string :=
  hms_text (turn_start t) +:+ " " +:+ speaker_label (turn_speaker t) +:+ ": "
  +:+ dquote +:+ utterance t +:+ dquote.

Definition turn_of_word (w : Word) : turn :=
  mk_turn (speaker w) (start w) [word w].

(** Turns of a word sequence, given the turn that is currently open: a word
    of the same speaker extends it, a word of another speaker closes it. *)
Fixpoint absorb (cur : turn) (ws : list Word) : list turn :=
  match ws with
  | [] => [cur]
  | w :: rest =>
      if bool_decide (speaker w = turn_speaker cur) then
        absorb (mk_turn (turn_speaker cur) (turn_start cur)
                  (turn_words cur ++ [word w])) rest
      else cur :: absorb (turn_of_word w) rest
  end.

Definition turns_of (ws : list Word) : list turn :=
  match ws with
  | [] => []
  | w :: rest => absorb (turn_of_word w) rest
  end.

(** Number of maximal runs of equal consecutive elements. *)
Fixpoint count_runs (ids : list Z) : nat :=
  match ids with
  | [] => 0
  | x :: rest =>
      match rest with
      | [] => 1
      | y :: _ => if bool_decide (x = y) then count_runs rest
                  else S (count_runs rest)
      end
  end.

(** A transcription result of the documented shape around a word list. *)
Definition response_of_words (ws : list Word) : option Response :=
  Some (mk_response (Some (mk_results [mk_channel [mk_alternative ws]]))
          ["metadata"]).

(** No character of the string is a colon. *)
Fixpoint no_colon (s : string) : bool :=
  match s with
  | EmptyString => true
  | String a rest => negb (Ascii.eqb a ":") && no_colon rest
  end.

(** The word sequence of the worked example. *)
Definition three_words : list Word :=
  [mk_word "hi" 0 0; mk_word "there" (4 # 10) 0; mk_word "hello" 1 1].

(** A line that starts with an opening square bracket. *)
Definition bracketed (s : string) : Prop := exists rest, s = String "[" rest.

(** The loop variables while the turn [cur] is open and [out] has been
    emitted. *)
Definition open_block (cur : turn) (out : list string) : loop_state :=
  mk_loop (Some (speaker_label (turn_speaker cur))) (Some (turn_start cur))
    (turn_words cur) out.

(** *** Notions for the workflow *)

(** The defaults of the initialisation block, in its order. *)
Definition session_defaults : list (string * value) :=
  [("primary_prompt", VNone); ("master_prompt", VNone);
   ("call_insights", VList []); ("transcriptions", VList []);
   ("api_configured", VBool false); ("current_phase", VInt 1);
   ("agent_details", VDict []); ("refinement_history", VList []);
   ("refinement_chat", VList [])].

(** Effect of one [if k not in st.session_state: st.session_state.k = v]. *)
Definition init_state (k : string) (v : value) (st : session) : session :=
  match st !! k with
  | Some _ => st
  | None => <[k := v]> st
  end.

(** The typed contents of a session state in which every attribute of the
    initialisation block is present. *)
Record view : Type := mk_view {
  v_primary : option string;
  v_master : option string;
  v_insights : list value;
  v_transcriptions : list value;
  v_api : bool;
  v_phase : Z;
  v_agent : list (string * value);
  v_history : list value;
  v_chat : list value
}.

Definition represents (v : view) (st : session) : Prop :=
  st !! "primary_prompt" = Some (value_of_text (v_primary v))
  /\ st !! "master_prompt" = Some (value_of_text (v_master v))
  /\ st !! "call_insights" = Some (VList (v_insights v))
  /\ st !! "transcriptions" = Some (VList (v_transcriptions v))
  /\ st !! "api_configured" = Some (VBool (v_api v))
  /\ st !! "current_phase" = Some (VInt (v_phase v))
  /\ st !! "agent_details" = Some (VDict (v_agent v))
  /\ st !! "refinement_history" = Some (VList (v_history v))
  /\ st !! "refinement_chat" = Some (VList (v_chat v)).

(** What the stored phase says about the artifacts. *)
Definition phase_inv (v : view) : Prop :=
  (1 <= v_phase v <= 4)
  /\ (v_phase v = 1 <-> text_truthy (v_primary v) = false)
  /\ (text_truthy (v_primary v) = false ->
      text_truthy (v_master v) = false /\ v_insights v = [])
  /\ (3 <= v_phase v -> v_insights v <> [])
  /\ (text_truthy (v_master v) = true -> v_insights v <> []).

(** Updates of a view, one per attribute that [main] assigns. *)
Definition with_primary (p : option string) (v : view) : view :=
  mk_view p (v_master v) (v_insights v) (v_transcriptions v) (v_api v)
    (v_phase v) (v_agent v) (v_history v) (v_chat v).
Definition with_master (m : option string) (v : view) : view :=
  mk_view (v_primary v) m (v_insights v) (v_transcriptions v) (v_api v)
    (v_phase v) (v_agent v) (v_history v) (v_chat v).
Definition with_insights (l : list value) (v : view) : view :=
  mk_view (v_primary v) (v_master v) l (v_transcriptions v) (v_api v)
    (v_phase v) (v_agent v) (v_history v) (v_chat v).
Definition with_transcriptions (l : list value) (v : view) : view :=
  mk_view (v_primary v) (v_master v) (v_insights v) l (v_api v)
    (v_phase v) (v_agent v) (v_history v) (v_chat v).
Definition with_api (b : bool) (v : view) : view :=
  mk_view (v_primary v) (v_master v) (v_insights v) (v_transcriptions v) b
    (v_phase v) (v_agent v) (v_history v) (v_chat v).
Definition with_phase (n : Z) (v : view) : view :=
  mk_view (v_primary v) (v_master v) (v_insights v) (v_transcriptions v)
    (v_api v) n (v_agent v) (v_history v) (v_chat v).
Definition with_agent (d : list (string * value)) (v : view) : view :=
  mk_view (v_primary v) (v_master v) (v_insights v) (v_transcriptions v)
    (v_api v) (v_phase v) d (v_history v) (v_chat v).
Definition with_history (l : list value) (v : view) : view :=
  mk_view (v_primary v) (v_master v) (v_insights v) (v_transcriptions v)
    (v_api v) (v_phase v) (v_agent v) l (v_chat v).

(** The view of a fresh session. *)
Definition fresh_view : view :=
  mk_view None None [] [] false 1 [] [] [].

(** The records appended by the batch loop. *)
Definition transcription_record (f : audio_file) (formatted : string) : value :=
  VDict [("filename", VStr (name f)); ("transcript", VStr formatted);
         ("timestamp", VTime (transcribed_at f))].

Definition insight_record (f : audio_file) (formatted : string) : value :=
  VDict [("filename", VStr (name f)); ("insights", value_of_text (insights f));
         ("transcript", VStr formatted); ("timestamp", VTime (analysed_at f))].

(** The record appended by a refinement. *)
Definition refinement_record (user_feedback : string) (old : value)
    (refined_prompt : option string) (now : Z) : value :=
  VDict [("feedback", VStr user_feedback); ("old_prompt", old);
         ("new_prompt", value_of_text refined_prompt);
         ("summary", VStr (refinement_summary user_feedback));
         ("timestamp", VTime now)].

(** What the batch loop does to a view, and what it returns. *)
Fixpoint view_process_files (files : list audio_file) (v : view) : view :=
  match files with
  | [] => v
  | f :: rest =>
      if response_truthy (transcription_result f) then
        match format_transcript (transcription_result f) with
        | Raise _ => v
        | Ok formatted =>
            let v1 := with_transcriptions
                        (v_transcriptions v ++ [transcription_record f formatted]) v in
            if text_truthy (insights f) then
              view_process_files rest
                (with_insights (v_insights v1 ++ [insight_record f formatted]) v1)
            else view_process_files rest v1
        end
      else view_process_files rest v
  end.

Fixpoint count_process_files (files : list audio_file)
    (successful failed : nat) : res (nat * nat) :=
  match files with
  | [] => Ok (successful, failed)
  | f :: rest =>
      if response_truthy (transcription_result f) then
        match format_transcript (transcription_result f) with
        | Raise e => Raise e
        | Ok _ =>
            if text_truthy (insights f) then
              count_process_files rest (S successful) failed
            else count_process_files rest successful (S failed)
        end
      else count_process_files rest successful (S failed)
  end.

(** The files that a press of the analysis button processes. *)
Definition files_to_process (uploaded_audios : list audio_file)
    (mode : process_mode) : res (list audio_file) :=
  match mode with
  | ProcessAllAtOnce => Ok uploaded_audios
  | ProcessOneByOne i =>
      match uploaded_audios !! i with
      | Some f => Ok [f]
      | None => Raise IndexError
      end
  end.

(** What one run does to a view. *)
Definition view_sidebar (inp : run_input) (v : view) : view :=
  if gemini_key inp then with_api (gemini_ok inp) v else v.

Definition view_handler (inp : run_input) (v : view) : view :=
  match clicked inp with
  | NoButton => v
  | ResetAllProgress => with_api (v_api v) fresh_view
  | SaveAgentDetails n c l g =>
      if text_truthy (v_primary v) then v
      else if str_truthy n && str_truthy c && str_truthy l && str_truthy g then
        with_agent [("name", VStr n); ("company", VStr c);
                    ("language", VStr l); ("category", VStr g)] v
      else v
  | GeneratePrimaryPrompt s t p =>
      if text_truthy (v_primary v) then v
      else if negb (truthy (VDict (v_agent v))) then v
      else if negb (str_truthy (strip s)) then v
      else if negb (str_truthy (strip t)) then v
      else if negb (v_api v) then v
      else if text_truthy p then with_phase 2 (with_primary p v)
      else v
  | AnalyzeCalls fs m =>
      if negb (text_truthy (v_primary v)) then v
      else match fs with
           | [] => v
           | _ :: _ =>
               if negb (deepgram_key inp) then v
               else if negb (v_api v) then v
               else match files_to_process fs m with
                    | Ok files => view_process_files files v
                    | Raise _ => v
                    end
           end
  | ProceedToPhase3 =>
      if negb (text_truthy (v_primary v)) then v
      else match v_insights v with
           | [] => v
           | _ :: _ => with_phase 3 v
           end
  | GenerateMasterPrompt m =>
      if negb (text_truthy (v_primary v)) then v
      else match v_insights v with
           | [] => v
           | _ :: _ =>
               if text_truthy (v_master v) then v
               else if negb (v_api v) then v
               else if text_truthy m then with_phase 4 (with_master m v)
               else v
           end
  | RegenerateMasterPrompt =>
      if negb (text_truthy (v_primary v)) then v
      else match v_insights v with
           | [] => v
           | _ :: _ =>
               if text_truthy (v_master v) then with_master None v else v
           end
  | RefinePrompt f r now =>
      if negb (text_truthy (v_master v)) then v
      else if negb (str_truthy (strip f)) then v
      else if negb (v_api v) then v
      else if text_truthy r then
        with_master r
          (with_history
             (v_history v
              ++ [refinement_record f (value_of_text (v_master v)) r now]) v)
      else v
  | SuggestFeedback _ => v
  end.

Definition view_step (inp : run_input) (v : view) : view :=
  view_handler inp (view_sidebar inp v).

(** A computation that, started in [st], returns [r] and leaves a state
    with the contents [v']. *)
Definition runs {A} (m : M A) (st : session) (r : res A) (v' : view) : Prop :=
  fst (m st) = r /\ represents v' (snd (m st)).

(** Truth value of the result of reading an attribute. *)
Definition present (o : option value) : bool :=
  match o with
  | Some v => truthy v
  | None => false
  end.

(** The phase as the specification derives it from the artifacts: 4 once a
    master prompt exists, otherwise 3 once an insight exists, otherwise 2
    once a primary prompt exists, otherwise 1. *)
Definition derived_phase (st : session) : Z :=
  if present (master_prompt_of st) then 4
  else if present (call_insights_of st) then 3
  else if present (primary_prompt_of st) then 2
  else 1.

(** [r[k]] on a stored record. *)
Definition record_field (k : string) (r : value) : option value :=
  match r with
  | VDict d => dict_get k d
  | _ => None
  end.


(** A file for which both collaborators answer and the transcript can be
    formatted. *)
Definition file_succeeds (f : audio_file) : Prop :=
  response_truthy (transcription_result f) = true
  /\ (exists formatted, format_transcript (transcription_result f) = Ok formatted)
  /\ text_truthy (insights f) = true.

(** The formatted transcript of a file, when formatting does not raise. *)
Definition formatted_of (f : audio_file) : string :=
  match format_transcript (transcription_result f) with
  | Ok formatted => formatted
  | Raise _ => EmptyString
  end.

(** The records stored for a file whose transcript can be formatted. *)
Definition stored_transcript (f : audio_file) : value :=
  transcription_record f (formatted_of f).

Definition stored_insight (f : audio_file) : value :=
  insight_record f (formatted_of f).

(** The run inputs used in the worked examples. *)
Definition press (b : button) : run_input := mk_input true true true b.

Definition example_call : audio_file :=
  mk_audio "call1.mp3" (response_of_words three_words) (Some "insights 1") 10 11.

Definition example_failed_call : audio_file :=
  mk_audio "call2.mp3" None None 12 13.

Definition example_unanalysed_call : audio_file :=
  mk_audio "call3.mp3" (response_of_words three_words) None 14 15.

Definition setup_inputs : list run_input :=
  [press (SaveAgentDetails "Riya" "Acme" "English" "Survey & Feedback");
   press (GeneratePrimaryPrompt "script" "template" (Some "PRIMARY"))].

(** A session in which a primary prompt has been generated. *)
Definition primary_state : session := run_all setup_inputs fresh_session.

(** A session in which, in addition, one call has been analysed. *)
Definition analysed_state : session :=
  step (press (AnalyzeCalls [example_call] ProcessAllAtOnce)) primary_state.

(** A session in which, in addition, a master prompt has been generated. *)
Definition master_state : session :=
  step (press (GenerateMasterPrompt (Some "MASTER"))) analysed_state.



(** A session with two refinements and a regeneration of the master prompt
    between them. *)
Definition regenerated_inputs : list run_input :=
  [press (RefinePrompt "be less pushy" (Some "MASTER v2") 20);
   press RegenerateMasterPrompt;
   press (GenerateMasterPrompt (Some "MASTER again"));
   press (RefinePrompt "add empathy" (Some "MASTER again v2") 30)].




(** A feedback outside ASCII: 57 times the Devanagari letter NA (U+0928,
    three bytes in UTF-8). *)
Definition devanagari_na : string :=
  String (ascii_of_nat 224)
    (String (ascii_of_nat 164) (String (ascii_of_nat 168) EmptyString)).

Fixpoint str_repeat (n : nat) (s : string) : string :=
  match n with
  | O => EmptyString
  | S m => s +:+ str_repeat m s
  end.

Definition example_hindi_feedback : string := str_repeat 57 devanagari_na.

(** The no-break space U+00A0, two bytes in UTF-8. *)
Definition no_break_space : string :=
  String (ascii_of_nat 194) (String (ascii_of_nat 160) EmptyString).

(** *** Further notions for the segmenter *)

(** The speaker of the last word, or [id] when there is no word. *)
Definition last_speaker (id : Z) (ws : list Word) : Z :=
  match last ws with
  | Some w => speaker w
  | None => id
  end.

(** Every number below [bound] renders with [digits] characters. *)
Definition renders_with (f : Z -> string) (digits bound : nat) : bool :=
  forallb (fun k => (String.length (f (Z.of_nat k)) =? digits)%nat) (seq 0 bound).

(** *** Further notions for the workflow *)

(** The dictionary stored by the [Save Agent Details] button. *)
Definition agent_dict (n c l g : string) : list (string * value) :=
  [("name", VStr n); ("company", VStr c); ("language", VStr l);
   ("category", VStr g)].

(** Agent details are empty, or hold four non-empty strings. *)
Definition agent_wf (d : list (string * value)) : Prop :=
  d = []
  \/ exists n c l g : string,
       d = agent_dict n c l g
       /\ str_truthy n = true /\ str_truthy c = true
       /\ str_truthy l = true /\ str_truthy g = true.

(** An insight record: four keys, a non-empty insight text. *)
Definition insight_wf (r : value) : Prop :=
  exists (fn ins tr : string) (ts : Z),
    r = VDict [("filename", VStr fn); ("insights", VStr ins);
               ("transcript", VStr tr); ("timestamp", VTime ts)]
    /\ str_truthy ins = true.

(** A transcription record: three keys. *)
Definition transcript_wf (r : value) : Prop :=
  exists (fn tr : string) (ts : Z),
    r = VDict [("filename", VStr fn); ("transcript", VStr tr);
               ("timestamp", VTime ts)].

(** A refinement record: non-blank feedback, non-empty prompts. *)
Definition refinement_wf (r : value) : Prop :=
  exists (f o n : string) (ts : Z),
    r = refinement_record f (VStr o) (Some n) ts
    /\ str_truthy (strip f) = true
    /\ str_truthy o = true /\ str_truthy n = true.

(** Two records are about the same call: same file name, same transcript. *)
Definition same_call (r t : value) : Prop :=
  record_field "filename" r = record_field "filename" t
  /\ record_field "transcript" r = record_field "transcript" t.

(** A stored prompt is [None] or a non-empty string. *)
Definition text_ok (o : option string) : Prop :=
  o = None \/ text_truthy o = true.

(** What the stored records look like in every reachable state. *)
Record records_inv (v : view) : Prop := mk_records_inv {
  ri_primary : text_ok (v_primary v);
  ri_master : text_ok (v_master v);
  ri_agent : agent_wf (v_agent v);
  ri_agent_primary : text_truthy (v_primary v) = true -> v_agent v <> [];
  ri_insights : Forall insight_wf (v_insights v);
  ri_transcripts : Forall transcript_wf (v_transcriptions v);
  ri_history : Forall refinement_wf (v_history v);
  ri_matching :
    Forall (fun r => Exists (same_call r) (v_transcriptions v)) (v_insights v);
  ri_count : (length (v_insights v) <= length (v_transcriptions v))%nat;
  ri_history_insights : v_history v <> [] -> v_insights v <> [];
  ri_transcripts_primary :
    v_transcriptions v <> [] -> text_truthy (v_primary v) = true
}.

(** [v[k]] *)
Definition subscript (k : string) (v : value) : res value :=
  match v with
  | VDict d =>
      match dict_get k d with
      | Some x => Ok x
      | None => Raise KeyError
      end
  | _ => Raise TypeError
  end.

(** [d.get(k, default)] *)
Definition dict_get_default (k : string) (default : value)
    (d : list (string * value)) : value :=
  match dict_get k d with
  | Some x => x
  | None => default
  end.

(** The list comprehension [[call['insights'] for call in call_insights]]
    evaluated before the master prompt is generated. *)
Fixpoint all_insights (calls : list value) : res (list value) :=
  match calls with
  | [] => Ok []
  | call :: rest =>
      let? x := subscript "insights" call in
      let? xs := all_insights rest in
      Ok (x :: xs)
  end.

(** The strings of a list of values, as [str.join] requires them. *)
Fixpoint strings_of (l : list value) : res (list string) :=
  match l with
  | [] => Ok []
  | VStr s :: rest => let? ss := strings_of rest in Ok (s :: ss)
  | _ :: _ => Raise TypeError
  end.

Definition insights_separator : string :=
  newline +:+ newline +:+ "---" +:+ newline +:+ newline.

(** The first statement of [generate_master_prompt]:
    the insights joined by a rule between blank lines. *)
Definition combined_insights (all_insights : list value) : res string :=
  let? texts := strings_of all_insights in
  Ok (join insights_separator texts).

(** The four boxes drawn by [display_workflow_progress]. *)
Inductive step_box : Type :=
| Completed
| CurrentStep
| PlainStep
| Waiting.

(** [v == n] for an integer literal [n]. *)
Definition equals_int (v : value) (n : Z) : bool :=
  match v with
  | VInt m => m =? n
  | VBool b => (if b then 1 else 0) =? n
  | _ => false
  end.

(** The class of a box that is not completed: highlighted when the stored
    phase is [n]. *)
Definition step_class (phase : value) (n : Z) : step_box :=
  if equals_int phase n then CurrentStep else PlainStep.

(** [display_workflow_progress()]: the state of the four boxes. *)
Definition display_workflow_progress
    : M (step_box * step_box * step_box * step_box) :=
  let* primary := getattr "primary_prompt" in
  let* col1 :=
    (if truthy primary then ret Completed
     else let* phase := getattr "current_phase" in ret (step_class phase 1)) in
  let* calls := getattr "call_insights" in
  let* n := len calls in
  let* col2 :=
    (if n >? 0 then ret Completed
     else
       let* primary := getattr "primary_prompt" in
       if truthy primary then
         let* phase := getattr "current_phase" in ret (step_class phase 2)
       else ret Waiting) in
  let* master := getattr "master_prompt" in
  let* col3 :=
    (if truthy master then ret Completed
     else
       let* calls := getattr "call_insights" in
       let* n := len calls in
       if n >? 0 then
         let* phase := getattr "current_phase" in ret (step_class phase 3)
       else ret Waiting) in
  let* master := getattr "master_prompt" in
  let* col4 :=
    (if truthy master then
       let* phase := getattr "current_phase" in ret (step_class phase 4)
     else ret Waiting) in
  ret (col1, col2, col3, col4).

(** The number of boxes that are highlighted. *)
Definition highlighted (b : step_box) : nat :=
  match b with
  | CurrentStep => 1
  | _ => 0
  end.

(** Two more sessions of the worked examples: one with an uploaded file
    whose transcription result has no channel, and the files of a mixed
    batch. *)
Definition example_malformed_call : audio_file :=
  mk_audio "call4.mp3" (Some (mk_response (Some (mk_results [])) ["metadata"]))
    (Some "insights 4") 16 17.

Definition refined_state : session :=
  step (press (RefinePrompt "be less pushy" (Some "MASTER v2") 20)) master_state.

(** The boxes as a function of the typed contents. *)
Definition view_boxes (v : view) : step_box * step_box * step_box * step_box :=
  let phase := VInt (v_phase v) in
  let has_insights := match v_insights v with [] => false | _ :: _ => true end in
  (if text_truthy (v_primary v) then Completed else step_class phase 1,
   if has_insights then Completed
   else if text_truthy (v_primary v) then step_class phase 2 else Waiting,
   if text_truthy (v_master v) then Completed
   else if has_insights then step_class phase 3 else Waiting,
   if text_truthy (v_master v) then step_class phase 4 else Waiting).

(** The files of a batch whose transcription succeeded, and those for
    which the analysis succeeded as well. *)
Definition transcribed (f : audio_file) : bool :=
  response_truthy (transcription_result f).

Definition analysed (f : audio_file) : bool :=
  response_truthy (transcription_result f) && text_truthy (insights f).

(** *** The agent form and the numbering of the refinements *)

Definition language_options : list string :=
  ["Hinglish"; "English"; "Hindi"; "Tamil"; "Telugu"; "Gujarati"; "Marathi"].

Definition category_options : list string :=
  ["Lead Qualification"; "EMI Reminder"; "Property Sales"; "Loan Collection";
   "Insurance Sales"; "Customer Support"; "Appointment Booking";
   "Survey & Feedback"].

(** [x == o] for a string [o]. *)
Definition equals_str (x : value) (o : string) : bool :=
  match x with
  | VStr s => String.eqb s o
  | _ => false
  end.

(** [options.index(x)]; [None] stands for the [ValueError] raised when [x]
    is not in the list. *)
Fixpoint list_index (x : value) (options : list string) : option nat :=
  match options with
  | [] => None
  | o :: rest =>
      if equals_str x o then Some 0%nat
      else match list_index x rest with
           | Some i => Some (S i)
           | None => None
           end
  end.

(** The [index] argument of the two select boxes of the agent form:
    [0 if not agent_details.get(key) else options.index(agent_details.get(key, default))]. *)
Definition selectbox_index (options : list string) (key default : string)
    (agent_details : list (string * value)) : option nat :=
  if negb (truthy (dict_get_default key VNone agent_details)) then Some 0%nat
  else list_index (dict_get_default key (VStr default) agent_details) options.

(** [enumerate(l, start)] *)
Fixpoint enumerate {A} (start : Z) (l : list A) : list (Z * A) :=
  match l with
  | [] => []
  | x :: rest => (start, x) :: enumerate (start + 1) rest
  end.

(** The numbers under which the fifth tab lists the refinements, newest
    first: [len(history) - i + 1] for [i, refinement] in
    [enumerate(reversed(history), 1)]. *)
Definition refinement_numbers_newest_first (history : list value)
    : list (Z * value) :=
  map (fun p => (Z.of_nat (length history) - fst p + 1, snd p))
    (enumerate 1 (reverse history)).

(** The numbers under which the sixth tab and its timeline list them:
    [enumerate(history, 1)]. *)
Definition refinement_numbers (history : list value) : list (Z * value) :=
  enumerate 1 history.

(** ** Properties of the segmenter *)

Section Strings.

Lemma append_assoc (a b c : string) : (a +:+ b) +:+ c = a +:+ (b +:+ c).
Proof.
  induction a as [|x a IH]; [reflexivity|].
  change (String x ((a +:+ b) +:+ c) = String x (a +:+ (b +:+ c))).
  by rewrite IH.
Qed.

Lemma append_empty_r (a : string) : a +:+ EmptyString = a.
Proof.
  induction a as [|x a IH]; [reflexivity|].
  change (String x (a +:+ EmptyString) = String x a). by rewrite IH.
Qed.

Lemma join_cons (sep s : string) (l : list string) :
  l <> [] -> join sep (s :: l) = s +:+ sep +:+ join sep l.
Proof. destruct l; [congruence | reflexivity]. Qed.

Lemma join_app (sep : string) (l1 l2 : list string) :
  l1 <> [] -> l2 <> [] ->
  join sep (l1 ++ l2) = join sep l1 +:+ sep +:+ join sep l2.
Proof.
  intros H1 H2. induction l1 as [|s l1 IH]; [congruence|].
  destruct l1 as [|s' l1].
  - simpl app. by rewrite join_cons.
  - change ((s :: s' :: l1) ++ l2) with (s :: ((s' :: l1) ++ l2)).
    rewrite (join_cons sep s ((s' :: l1) ++ l2)) by (simpl; congruence).
    rewrite (join_cons sep s (s' :: l1)) by congruence.
    rewrite IH by congruence. by rewrite !append_assoc.
Qed.

(** Joining the joined groups is joining their concatenation. *)
Lemma join_concat (sep : string) (groups : list (list string)) :
  Forall (fun g => g <> []) groups ->
  join sep (map (join sep) groups) = join sep (concat groups).
Proof.
  induction 1 as [|g groups Hg Hall IH]; [reflexivity|].
  destruct groups as [|g' groups].
  - simpl. by rewrite app_nil_r.
  - change (concat (g :: g' :: groups)) with (g ++ concat (g' :: groups)).
    change (map (join sep) (g :: g' :: groups))
      with (join sep g :: map (join sep) (g' :: groups)).
    rewrite join_cons by (simpl; congruence).
    rewrite IH. rewrite join_app; [reflexivity | assumption |].
    inversion Hall; subst. destruct g'; simpl; congruence.
Qed.

End Strings.

Section Segmenter.

Lemma seconds_to_hms_ok (t : Q) :
  timestamp_ok t -> seconds_to_hms t = Ok (hms_text t).
Proof.
  unfold timestamp_ok, seconds_to_hms, timedelta_of_seconds, hms_text.
  intros Hok. cbv zeta.
  destruct (Z.abs (int_of_float t `div` 86400) >? max_days) eqn:Hgt.
  - apply Z.gtb_lt in Hgt. lia.
  - reflexivity.
Qed.

Lemma seconds_to_hms_bracket (t : Q) (s : string) :
  seconds_to_hms t = Ok s -> exists rest, s = String "[" rest.
Proof.
  unfold seconds_to_hms, timedelta_of_seconds. cbv zeta.
  destruct (_ >? _); simpl; [discriminate|].
  intros [= <-]. eexists. reflexivity.
Qed.

Lemma speaker_label_inj (a b : Z) : speaker_label a = speaker_label b -> a = b.
Proof.
  unfold speaker_label. intros H.
  apply String.app_inj in H. apply pretty_Z_inj in H. lia.
Qed.

Lemma render_open_block (cur : turn) (out : list string) :
  timestamp_ok (turn_start cur) ->
  render_block (open_block cur out) = Ok (render_turn cur).
Proof.
  intros Hok. unfold render_block, open_block. simpl.
  by rewrite seconds_to_hms_ok.
Qed.

Lemma loop_body_same (cur : turn) (out : list string) (w : Word) :
  speaker w = turn_speaker cur ->
  loop_body (open_block cur out) w
  = Ok (open_block (mk_turn (turn_speaker cur) (turn_start cur)
                      (turn_words cur ++ [word w])) out).
Proof.
  intros Heq. unfold loop_body, open_block. simpl.
  rewrite bool_decide_eq_false_2; [reflexivity|].
  intros Hne. apply Hne. unfold speaker_label. by rewrite Heq.
Qed.

Lemma loop_body_other (cur : turn) (out : list string) (w : Word) :
  speaker w <> turn_speaker cur ->
  timestamp_ok (turn_start cur) ->
  loop_body (open_block cur out) w
  = Ok (open_block (turn_of_word w) (out ++ [render_turn cur])).
Proof.
  intros Hne Hok. unfold loop_body.
  rewrite bool_decide_eq_true_2.
  - change (current_speaker (open_block cur out))
      with (Some (speaker_label (turn_speaker cur))).
    cbv iota beta. rewrite render_open_block by assumption. reflexivity.
  - change (Some (speaker_label (speaker w))
            <> Some (speaker_label (turn_speaker cur))).
    intros Heq. apply Hne, speaker_label_inj. congruence.
Qed.

(** The loop followed by the emission of the open block renders exactly the
    turns that [absorb] computes. *)
Lemma run_loop_absorb (ws : list Word) : forall (cur : turn) (out : list string),
  turn_words cur <> [] ->
  timestamp_ok (turn_start cur) ->
  Forall (fun w => timestamp_ok (start w)) ws ->
  (let? lp := run_loop (open_block cur out) ws in close_block lp)
  = Ok (out ++ map render_turn (absorb cur ws)).
Proof.
  induction ws as [|w ws IH]; intros cur out Hne Hok Hall.
  - simpl. unfold close_block.
    change (current_text (open_block cur out)) with (turn_words cur).
    destruct (turn_words cur) eqn:Hw; [congruence|].
    rewrite render_open_block by assumption. reflexivity.
  - inversion Hall as [|? ? Hw Hws]; subst. simpl run_loop. simpl absorb.
    case_bool_decide as Hsp.
    + rewrite loop_body_same by assumption. simpl rbind.
      apply IH; simpl; auto. by destruct (turn_words cur).
    + rewrite loop_body_other by assumption. simpl rbind.
      rewrite IH; simpl; auto; try congruence.
      by rewrite <- app_assoc.
Qed.

Lemma format_words_turns (ws : list Word) :
  Forall (fun w => timestamp_ok (start w)) ws ->
  format_words ws = Ok (map render_turn (turns_of ws)).
Proof.
  intros Hall. destruct ws as [|w ws]; [reflexivity|].
  inversion Hall as [|? ? Hw Hws]; subst.
  change (format_words (w :: ws))
    with (let? lp := run_loop (open_block (turn_of_word w) []) ws in
          close_block lp).
  rewrite run_loop_absorb; simpl; auto; congruence.
Qed.

Lemma seconds_to_hms_inv (t : Q) (s : string) :
  seconds_to_hms t = Ok s -> timestamp_ok t /\ s = hms_text t.
Proof.
  unfold timestamp_ok, seconds_to_hms, timedelta_of_seconds, hms_text.
  cbv zeta.
  destruct (Z.abs (int_of_float t `div` 86400) >? max_days) eqn:Hgt;
    simpl; [discriminate|].
  intros [= <-]. split; [|reflexivity].
  destruct (Z.gtb_spec (Z.abs (int_of_float t `div` 86400)) max_days);
    [discriminate | lia].
Qed.

Lemma render_open_block_inv (cur : turn) (out : list string) (line : string) :
  render_block (open_block cur out) = Ok line ->
  timestamp_ok (turn_start cur) /\ line = render_turn cur.
Proof.
  unfold render_block, open_block. simpl.
  destruct (seconds_to_hms (turn_start cur)) as [hms|] eqn:Hhms;
    simpl; [|discriminate].
  apply seconds_to_hms_inv in Hhms as [Hok ->].
  intros [= <-]. by split.
Qed.

(** Whenever the loop and the emission of the open block return, they
    return the rendering of the turns that [absorb] computes. *)
Lemma run_loop_absorb_inv (ws : list Word) :
  forall (cur : turn) (out lines : list string),
  turn_words cur <> [] ->
  (let? lp := run_loop (open_block cur out) ws in close_block lp) = Ok lines ->
  lines = out ++ map render_turn (absorb cur ws).
Proof.
  induction ws as [|w ws IH]; intros cur out lines Hne.
  - simpl. unfold close_block.
    change (current_text (open_block cur out)) with (turn_words cur).
    destruct (turn_words cur) eqn:Hw; [congruence|].
    destruct (render_block (open_block cur out)) as [line|] eqn:Hline;
      simpl; [|discriminate].
    apply render_open_block_inv in Hline as [_ ->]. by intros [= <-].
  - simpl run_loop. simpl absorb. case_bool_decide as Hsp.
    + rewrite loop_body_same by assumption. simpl rbind.
      apply IH. simpl. by destruct (turn_words cur).
    + destruct (render_block (open_block cur out)) as [line|] eqn:Hline.
      * apply render_open_block_inv in Hline as [Hok _].
        rewrite loop_body_other by assumption. simpl rbind.
        intros Hrun. apply IH in Hrun; [|simpl; congruence].
        rewrite Hrun. simpl. by rewrite <- app_assoc.
      * unfold loop_body. rewrite bool_decide_eq_true_2.
        -- change (current_speaker (open_block cur out))
             with (Some (speaker_label (turn_speaker cur))).
           cbv iota beta. rewrite Hline. discriminate.
        -- change (Some (speaker_label (speaker w))
                   <> Some (speaker_label (turn_speaker cur))).
           intros Heq. apply Hsp, speaker_label_inj. congruence.
Qed.

(** Whenever [format_words] returns, it returns one line per turn. *)
Lemma format_words_inv (ws : list Word) (lines : list string) :
  format_words ws = Ok lines -> lines = map render_turn (turns_of ws).
Proof.
  destruct ws as [|w ws]; [by intros [= <-]|].
  change (format_words (w :: ws))
    with (let? lp := run_loop (open_block (turn_of_word w) []) ws in
          close_block lp).
  intros H. apply run_loop_absorb_inv in H; [exact H | simpl; congruence].
Qed.

Lemma absorb_length (ws : list Word) : forall cur : turn,
  length (absorb cur ws) = count_runs (turn_speaker cur :: map speaker ws).
Proof.
  induction ws as [|w ws IH]; intros cur; [reflexivity|].
  simpl absorb. change (map speaker (w :: ws)) with (speaker w :: map speaker ws).
  change (count_runs (turn_speaker cur :: speaker w :: map speaker ws))
    with (if bool_decide (turn_speaker cur = speaker w)
          then count_runs (speaker w :: map speaker ws)
          else S (count_runs (speaker w :: map speaker ws))).
  repeat case_bool_decide; try congruence.
  - rewrite IH. simpl turn_speaker. congruence.
  - simpl length. by rewrite IH.
Qed.

Lemma absorb_words (ws : list Word) : forall cur : turn,
  concat (map turn_words (absorb cur ws)) = (turn_words cur ++ map word ws).
Proof.
  induction ws as [|w ws IH]; intros cur.
  - simpl. by rewrite app_nil_r.
  - simpl absorb. case_bool_decide.
    + rewrite IH. simpl. by rewrite <- app_assoc.
    + simpl. by rewrite IH.
Qed.

Lemma absorb_nonempty (ws : list Word) : forall cur : turn,
  turn_words cur <> [] ->
  Forall (fun t => turn_words t <> []) (absorb cur ws).
Proof.
  induction ws as [|w ws IH]; intros cur Hne.
  - by constructor.
  - simpl absorb. case_bool_decide.
    + apply IH. simpl. by destruct (turn_words cur).
    + constructor; [assumption|]. apply IH. simpl. congruence.
Qed.

Lemma turns_of_utterances (ws : list Word) :
  join " " (map utterance (turns_of ws)) = join " " (map word ws).
Proof.
  destruct ws as [|w ws]; [reflexivity|].
  unfold turns_of.
  replace (map utterance (absorb (turn_of_word w) ws))
    with (map (join " ") (map turn_words (absorb (turn_of_word w) ws)))
    by (by rewrite map_map).
  rewrite join_concat.
  - by rewrite absorb_words.
  - apply Forall_map. apply absorb_nonempty. simpl. congruence.
Qed.

End Segmenter.

Section Sentinel.

(** Every emitted line starts with the opening bracket of its timestamp. *)
Lemma render_block_bracket (lp : loop_state) (line : string) :
  render_block lp = Ok line -> bracketed line.
Proof.
  unfold render_block. destruct (current_start lp) as [t|]; [|discriminate].
  destruct (seconds_to_hms t) as [hms|] eqn:Hhms; [|discriminate].
  apply seconds_to_hms_bracket in Hhms as [rest ->].
  simpl. intros [= <-]. eexists. reflexivity.
Qed.

Lemma loop_body_bracket (lp lp' : loop_state) (w : Word) :
  Forall bracketed (formatted_transcript lp) ->
  loop_body lp w = Ok lp' ->
  Forall bracketed (formatted_transcript lp').
Proof.
  intros Hall. unfold loop_body. case_bool_decide.
  - destruct (current_speaker lp).
    + destruct (render_block lp) as [line|] eqn:Hline; [|discriminate].
      simpl. intros [= <-]. simpl.
      apply Forall_app. split; [assumption|].
      constructor; [|constructor]. by eapply render_block_bracket.
    + simpl. by intros [= <-].
  - by intros [= <-].
Qed.

Lemma run_loop_bracket (ws : list Word) : forall lp lp' : loop_state,
  Forall bracketed (formatted_transcript lp) ->
  run_loop lp ws = Ok lp' ->
  Forall bracketed (formatted_transcript lp').
Proof.
  induction ws as [|w ws IH]; intros lp lp' Hall; simpl.
  - by intros [= <-].
  - destruct (loop_body lp w) as [lp1|] eqn:Hbody; [|discriminate].
    simpl. apply IH. by eapply loop_body_bracket.
Qed.

Lemma format_words_bracket (ws : list Word) (lines : list string) :
  format_words ws = Ok lines -> Forall bracketed lines.
Proof.
  unfold format_words.
  destruct (run_loop _ ws) as [lp|] eqn:Hrun; [|discriminate].
  apply run_loop_bracket in Hrun; [|constructor].
  simpl. unfold close_block. destruct (current_text lp).
  - by intros [= <-].
  - destruct (render_block lp) as [line|] eqn:Hline; [|discriminate].
    simpl. intros [= <-]. apply Forall_app. split; [assumption|].
    constructor; [|constructor]. by eapply render_block_bracket.
Qed.

Lemma join_bracket (lines : list string) :
  Forall bracketed lines -> join newline lines <> no_transcription.
Proof.
  destruct 1 as [|line rest [tl ->] _]; [discriminate|].
  destruct rest; discriminate.
Qed.

End Sentinel.

Section Padding.

Lemma no_colon_app (a b : string) :
  no_colon a = true -> no_colon b = true -> no_colon (a +:+ b) = true.
Proof.
  intros Ha Hb. induction a as [|x a IH]; [exact Hb|].
  change (no_colon (String x (a +:+ b)) = true).
  simpl in *. apply andb_true_iff in Ha as [Hx Ha].
  by rewrite Hx, IH.
Qed.

Lemma split_no_colon (s : string) :
  no_colon s = true -> split ":" s = [s].
Proof.
  induction s as [|x s IH]; [reflexivity|].
  simpl. intros H. apply andb_true_iff in H as [Hx Hs].
  apply negb_true_iff in Hx. rewrite Hx, IH by assumption. reflexivity.
Qed.

Lemma split_colon (a b : string) :
  no_colon a = true -> split ":" (a +:+ String ":" b) = a :: split ":" b.
Proof.
  induction a as [|x a IH]; [reflexivity|].
  intros H. simpl in H. apply andb_true_iff in H as [Hx Ha].
  apply negb_true_iff in Hx.
  change (split ":" (String x (a +:+ String ":" b)) = String x a :: split ":" b).
  simpl. rewrite Hx, IH by assumption. reflexivity.
Qed.

Lemma pretty_N_char_no_colon (x : N) :
  negb (Ascii.eqb (pretty_N_char x) ":") = true.
Proof. unfold pretty_N_char. by repeat case_match. Qed.

Lemma pretty_N_go_no_colon (x : N) : forall s : string,
  no_colon s = true -> no_colon (pretty_N_go x s) = true.
Proof.
  induction (N.lt_wf_0 x) as [x _ IH]. intros s Hs.
  destruct (decide (x = 0%N)) as [->|Hx]; [by rewrite pretty_N_go_0|].
  rewrite pretty_N_go_step by lia.
  apply IH; [apply N.div_lt; lia|].
  simpl. by rewrite pretty_N_char_no_colon.
Qed.

Lemma pretty_Z_no_colon (z : Z) : no_colon (pretty z) = true.
Proof.
  assert (Hpos : forall p : positive, no_colon (pretty p) = true).
  { intros p. unfold pretty, pretty_positive, pretty, pretty_N.
    case_decide; [reflexivity|]. by apply pretty_N_go_no_colon. }
  destruct z as [|p|p]; [reflexivity | apply Hpos |].
  apply (no_colon_app "-"); [reflexivity | apply Hpos].
Qed.

Lemma fmt_02d_no_colon (n : Z) : no_colon (fmt_02d n) = true.
Proof.
  unfold fmt_02d. case_match; [|apply pretty_Z_no_colon].
  apply (no_colon_app "0"); [reflexivity | apply pretty_Z_no_colon].
Qed.

(** The text of a [timedelta] always splits into three parts at its
    colons. *)
Lemma timedelta_str_three_parts (td : timedelta) :
  length (split ":" (timedelta_str td)) = 3%nat.
Proof.
  unfold timedelta_str. cbv zeta.
  set (hh := pretty ((td_seconds td `div` 60) `div` 60)).
  set (mm := fmt_02d ((td_seconds td `div` 60) `mod` 60)).
  set (ss := fmt_02d (td_seconds td `mod` 60)).
  assert (Hhh : no_colon hh = true) by apply pretty_Z_no_colon.
  assert (Hmm : no_colon mm = true) by apply fmt_02d_no_colon.
  assert (Hss : no_colon ss = true) by apply fmt_02d_no_colon.
  assert (Hbody : forall pre : string, no_colon pre = true ->
            length (split ":" (pre +:+ hh +:+ ":" +:+ mm +:+ ":" +:+ ss)) = 3%nat).
  { intros pre Hpre.
    rewrite <- append_assoc.
    change (":" +:+ (mm +:+ (":" +:+ ss)))
      with (String ":" (mm +:+ (":" +:+ ss))).
    rewrite split_colon by (by apply no_colon_app).
    change (":" +:+ ss) with (String ":" ss).
    rewrite split_colon by assumption.
    by rewrite split_no_colon. }
  case_match.
  - apply (Hbody EmptyString). reflexivity.
  - set (pre := pretty (td_days td) +:+ " day"
                +:+ (if Z.abs (td_days td) =? 1 then EmptyString else "s")
                +:+ ", ").
    transitivity
      (length (split ":" (pre +:+ hh +:+ ":" +:+ mm +:+ ":" +:+ ss))).
    { unfold pre. by rewrite !append_assoc. }
    apply Hbody. unfold pre.
    repeat apply no_colon_app; try reflexivity; try apply pretty_Z_no_colon.
    by case_match.
Qed.

(** The branch of [seconds_to_hms] that prepends two zeros is never taken:
    the hour field is printed as [timedelta] prints it, without padding. *)
Lemma hms_text_unpadded (t : Q) :
  hms_text t
  = "[" +:+ timedelta_str
              (mk_timedelta (int_of_float t `div` 86400)
                 (int_of_float t `mod` 86400) 0) +:+ "]".
Proof.
  unfold hms_text. cbv zeta. by rewrite timedelta_str_three_parts.
Qed.

End Padding.

(** The rendering only depends on the whole seconds of its argument:
    [int] discards the fractional part. *)
Lemma seconds_to_hms_truncates (t : Q) :
  seconds_to_hms t = seconds_to_hms (inject_Z (int_of_float t)).
Proof.
  unfold seconds_to_hms. f_equal. f_equal.
  unfold int_of_float, inject_Z. simpl. by rewrite Z.quot_1_r.
Qed.

(** C1. [seconds_to_hms] truncates to whole seconds, but the hours are not
    zero-padded: 3661 seconds render as [1:01:01] and 59.9 seconds as
    [0:00:59], with a one-digit hour field. *)
Theorem seconds_to_hms_hours_not_padded :
  seconds_to_hms (3661 # 1) = Ok "[1:01:01]"
  /\ seconds_to_hms (599 # 10) = Ok "[0:00:59]"
  /\ seconds_to_hms (3661 # 1) <> Ok "[01:01:01]"
  /\ seconds_to_hms (599 # 10) <> Ok "[00:00:59]".
Proof.
  repeat split; try (vm_compute; reflexivity);
    intros H; vm_compute in H; discriminate H.
Qed.

(** C3. For every word sequence whose timestamps [timedelta] accepts, the
    segmenter emits one line per maximal run of words of the same speaker,
    each line rendering one turn, and the turns' utterances joined by single
    spaces are the words of the sequence joined by single spaces, in their
    original order. *)
Theorem segmenter_runs_and_roundtrip (ws : list Word) :
  Forall (fun w => timestamp_ok (start w)) ws ->
  format_words ws = Ok (map render_turn (turns_of ws))
  /\ format_transcript (response_of_words ws)
     = Ok (join newline (map render_turn (turns_of ws)))
  /\ length (map render_turn (turns_of ws)) = count_runs (map speaker ws)
  /\ concat (map turn_words (turns_of ws)) = map word ws
  /\ join " " (map utterance (turns_of ws)) = join " " (map word ws).
Proof.
  intros Hall. pose proof (format_words_turns ws Hall) as Hfmt.
  split; [exact Hfmt|]. split.
  { unfold format_transcript, response_of_words. simpl.
    rewrite Hfmt. reflexivity. }
  split.
  { rewrite length_map. destruct ws as [|w ws]; [reflexivity|].
    unfold turns_of. by rewrite absorb_length. }
  split.
  { destruct ws as [|w ws]; [reflexivity|].
    unfold turns_of. by rewrite absorb_words. }
  apply turns_of_utterances.
Qed.

Lemma segmenter_runs_and_roundtrip_witness :
  Forall (fun w => timestamp_ok (start w)) three_words
  /\ format_words three_words = Ok (map render_turn (turns_of three_words))
  /\ format_transcript (response_of_words three_words)
     = Ok (join newline (map render_turn (turns_of three_words)))
  /\ length (map render_turn (turns_of three_words))
     = count_runs (map speaker three_words)
  /\ concat (map turn_words (turns_of three_words)) = map word three_words
  /\ join " " (map utterance (turns_of three_words))
     = join " " (map word three_words).
Proof.
  assert (H : Forall (fun w => timestamp_ok (start w)) three_words).
  { repeat constructor; intros H; vm_compute in H; discriminate H. }
  split; [exact H | exact (segmenter_runs_and_roundtrip three_words H)].
Defined.

(** C7. On the three-word example the segmenter produces two lines, for
    Speaker 1 with the utterance hi there and for Speaker 2, but the second
    line's timestamp is rendered [0:00:01], not [00:00:01]. *)
Theorem format_transcript_three_words :
  format_words three_words
  = Ok ["[0:00:00] Speaker 1: " +:+ dquote +:+ "hi there" +:+ dquote;
        "[0:00:01] Speaker 2: " +:+ dquote +:+ "hello" +:+ dquote]
  /\ format_transcript (response_of_words three_words)
     = Ok ("[0:00:00] Speaker 1: " +:+ dquote +:+ "hi there" +:+ dquote
           +:+ newline
           +:+ "[0:00:01] Speaker 2: " +:+ dquote +:+ "hello" +:+ dquote)
  /\ seconds_to_hms 1 = Ok "[0:00:01]".
Proof. repeat split; vm_compute; reflexivity. Qed.

(** C8 fails for an empty word list: the result is the empty string, not
    the sentinel. *)
Lemma empty_word_list_not_sentinel :
  format_transcript (response_of_words []) <> Ok no_transcription.
Proof. intros H. vm_compute in H. discriminate H. Qed.

(** C8, amended. An absent or empty transcription result, and a result
    without the results key, yield the sentinel string without an error; a
    result of the documented shape whose word list is empty yields the empty
    string without an error; a single word yields exactly one line. *)
Theorem segmenter_edge_cases (keys : list string) (w : Word) :
  timestamp_ok (start w) ->
  format_transcript None = Ok no_transcription
  /\ format_transcript (Some (mk_response None keys)) = Ok no_transcription
  /\ format_transcript (response_of_words []) = Ok EmptyString
  /\ format_words [w] = Ok [render_turn (turn_of_word w)]
  /\ format_transcript (response_of_words [w])
     = Ok (render_turn (turn_of_word w)).
Proof.
  intros Hok. split; [reflexivity|]. split.
  { unfold format_transcript. simpl. by destruct keys. }
  split; [reflexivity|].
  assert (Hone : format_words [w] = Ok [render_turn (turn_of_word w)]).
  { apply (format_words_turns [w]). by repeat constructor. }
  split; [exact Hone|].
  unfold format_transcript, response_of_words. simpl. by rewrite Hone.
Qed.

Lemma segmenter_edge_cases_witness :
  timestamp_ok (start (mk_word "hello" (12 # 10) 0))
  /\ format_transcript None = Ok no_transcription
  /\ format_transcript (Some (mk_response None ["err_code"])) = Ok no_transcription
  /\ format_transcript (response_of_words []) = Ok EmptyString
  /\ format_words [mk_word "hello" (12 # 10) 0]
     = Ok [render_turn (turn_of_word (mk_word "hello" (12 # 10) 0))]
  /\ format_transcript (response_of_words [mk_word "hello" (12 # 10) 0])
     = Ok (render_turn (turn_of_word (mk_word "hello" (12 # 10) 0))).
Proof.
  assert (H : timestamp_ok (start (mk_word "hello" (12 # 10) 0))).
  { intros H. vm_compute in H. discriminate H. }
  split; [exact H|].
  exact (segmenter_edge_cases ["err_code"] (mk_word "hello" (12 # 10) 0) H).
Defined.

(** C10. [format_transcript] returns the sentinel exactly when the result
    is [None], the empty dictionary, or a dictionary without the results
    key; a result of the documented shape whose word list is empty yields
    the empty string, which is not the sentinel. *)
Theorem sentinel_exactly_when_no_results :
  (forall result : option Response,
     format_transcript result = Ok no_transcription
     <-> (response_truthy result = false
          \/ exists d, result = Some d /\ results d = None))
  /\ (forall (keys : list string) (more_channels : list Channel)
        (more_alternatives : list Alternative),
        format_transcript
          (Some (mk_response
                   (Some (mk_results
                            (mk_channel (mk_alternative [] :: more_alternatives)
                             :: more_channels)))
                   keys))
        = Ok EmptyString)
  /\ EmptyString <> no_transcription.
Proof.
  split; [|split; [reflexivity | discriminate]].
  intros result. split.
  - unfold format_transcript.
    destruct (response_truthy result) eqn:Htruthy; [|by left].
    simpl. destruct result as [d|]; [|discriminate].
    destruct (results d) as [r|] eqn:Hres; [|right; by exists d].
    destruct (index0 (channels r)) as [ch|]; simpl; [|discriminate].
    destruct (index0 (alternatives ch)) as [alt|]; simpl; [|discriminate].
    destruct (format_words (words alt)) as [lines|] eqn:Hfmt;
      [|discriminate].
    simpl. intros [= Hjoin]. exfalso.
    by apply (join_bracket lines); [eapply format_words_bracket|].
  - intros [Hfalsy | (d & -> & Hnone)]; unfold format_transcript.
    + by rewrite Hfalsy.
    + destruct (response_truthy (Some d)); simpl; [|reflexivity].
      by rewrite Hnone.
Qed.

(** ** Properties of the session state *)

Section Initialisation.

Lemma init_default_run (k : string) (v : value) (st : session) :
  init_default k v st = (Ok tt, init_state k v st).
Proof.
  unfold init_default, init_state, bind, hasattr, setattr, ret.
  by destruct (st !! k).
Qed.

Lemma init_session_state_run (st : session) :
  init_session_state st
  = (Ok tt,
     init_state "refinement_chat" (VList [])
       (init_state "refinement_history" (VList [])
          (init_state "agent_details" (VDict [])
             (init_state "current_phase" (VInt 1)
                (init_state "api_configured" (VBool false)
                   (init_state "transcriptions" (VList [])
                      (init_state "call_insights" (VList [])
                         (init_state "master_prompt" VNone
                            (init_state "primary_prompt" VNone st))))))))).
Proof.
  unfold init_session_state, bind. by rewrite !init_default_run.
Qed.

Lemma lookup_init_state (k k' : string) (v : value) (st : session) :
  init_state k v st !! k'
  = match st !! k' with
    | Some x => Some x
    | None => if bool_decide (k = k') then Some v else None
    end.
Proof.
  unfold init_state. case_bool_decide as Hk.
  - subst k'. destruct (st !! k) eqn:Hst; [by rewrite Hst|].
    by rewrite lookup_insert_eq.
  - destruct (st !! k) eqn:Hst.
    + by destruct (st !! k').
    + rewrite lookup_insert_ne by done. by destruct (st !! k').
Qed.

(** The initialisation block keeps what is there. *)
Lemma init_keeps (st : session) (k : string) (x : value) :
  st !! k = Some x -> exec init_session_state st !! k = Some x.
Proof.
  intros Hk. unfold exec. rewrite init_session_state_run. simpl.
  rewrite !lookup_init_state. by rewrite Hk.
Qed.

(** The initialisation block supplies the default of an absent attribute. *)
Lemma init_supplies (st : session) (k : string) (v : value) :
  In (k, v) session_defaults ->
  st !! k = None -> exec init_session_state st !! k = Some v.
Proof.
  intros Hin Hk. unfold exec. rewrite init_session_state_run. simpl.
  rewrite !lookup_init_state, Hk.
  simpl in Hin.
  repeat (destruct Hin as [[= <- <-] | Hin]; [reflexivity|]).
  destruct Hin.
Qed.

Lemma init_represents (v : view) (st : session) :
  represents v st -> represents v (exec init_session_state st).
Proof.
  unfold represents. intros H.
  repeat match goal with
         | H : _ /\ _ |- _ => destruct H
         end.
  repeat split; by apply init_keeps.
Qed.

End Initialisation.

Section Simulation.

Lemma truthy_value_of_text (p : option string) :
  truthy (value_of_text p) = text_truthy p.
Proof. by destruct p. Qed.

Ltac rep_destruct H :=
  let Hp := fresh "Hprimary" in let Hm := fresh "Hmaster" in
  let Hi := fresh "Hinsights" in let Ht := fresh "Htranscriptions" in
  let Ha := fresh "Hapi" in let Hph := fresh "Hphase" in
  let Hag := fresh "Hagent" in let Hh := fresh "Hhistory" in
  let Hc := fresh "Hchat" in
  destruct H as (Hp & Hm & Hi & Ht & Ha & Hph & Hag & Hh & Hc).

Ltac rep_solve :=
  unfold represents; simpl;
  repeat split;
  repeat (rewrite lookup_insert_ne by discriminate);
  rewrite ?lookup_insert_eq; (assumption || reflexivity || congruence).

Ltac run_m :=
  unfold exec, append_attr, len; unfold bind, getattr, setattr, ret, raise, lift.

Ltac use_lookups :=
  repeat match goal with
         | H : ?st !! ?k = _ |- context [?st !! ?k] => rewrite H
         end.

Ltac sim_auto H' :=
  repeat (first
    [ exact H'
    | rep_solve
    | progress (simpl; use_lookups; rewrite ?truthy_value_of_text)
    | case_match; try discriminate ]).

Ltac sim_handler h :=
  let H := fresh "H" in let H' := fresh "H'" in
  intros H; pose proof H as H'; rep_destruct H;
  unfold h, view_handler; simpl clicked; run_m; sim_auto H'.

Lemma bind_runs_ok {A B} (m : M A) (k : A -> M B) st a v1 r v2 :
  runs m st (Ok a) v1 ->
  (forall st1, represents v1 st1 -> runs (k a) st1 r v2) ->
  runs (bind m k) st r v2.
Proof.
  unfold runs, bind. destruct (m st) as [r1 st1]. simpl.
  intros [-> Hv1] Hk. by apply Hk.
Qed.

Lemma bind_runs_raise {A B} (m : M A) (k : A -> M B) st e v1 :
  runs m st (Raise e) v1 -> runs (bind m k) st (Raise e) v1.
Proof.
  unfold runs, bind. destruct (m st) as [r1 st1]. simpl.
  intros [-> Hv]. by split.
Qed.

Lemma sidebar_runs (inp : run_input) (v : view) (st : session) :
  represents v st -> runs (sidebar inp) st (Ok tt) (view_sidebar inp v).
Proof.
  intros H. pose proof H as H'. rep_destruct H.
  unfold runs, sidebar, view_sidebar, setattr, ret.
  destruct (gemini_key inp); simpl; split; try reflexivity; sim_auto H'.
Qed.

Lemma append_transcriptions_runs (x : value) (v : view) (st : session) :
  represents v st ->
  runs (append_attr "transcriptions" x) st (Ok tt)
    (with_transcriptions (v_transcriptions v ++ [x]) v).
Proof.
  intros H. pose proof H as H'. rep_destruct H.
  unfold runs. run_m. use_lookups. simpl. split; [reflexivity|]. rep_solve.
Qed.

Lemma append_insights_runs (x : value) (v : view) (st : session) :
  represents v st ->
  runs (append_attr "call_insights" x) st (Ok tt)
    (with_insights (v_insights v ++ [x]) v).
Proof.
  intros H. pose proof H as H'. rep_destruct H.
  unfold runs. run_m. use_lookups. simpl. split; [reflexivity|]. rep_solve.
Qed.

Lemma getattr_primary_runs (v : view) (st : session) :
  represents v st ->
  runs (getattr "primary_prompt") st (Ok (value_of_text (v_primary v))) v.
Proof.
  intros H. pose proof H as H'. rep_destruct H.
  unfold runs, getattr. use_lookups. by split.
Qed.

(** The batch loop returns what [count_process_files] computes and leaves
    the contents that [view_process_files] computes; when formatting a
    transcript raises, the loop stops with what was stored so far. *)
Lemma process_files_runs (files : list audio_file) :
  forall (successful failed : nat) (v : view) (st : session),
  represents v st ->
  runs (process_files files successful failed) st
    (count_process_files files successful failed)
    (view_process_files files v).
Proof.
  induction files as [|f rest IH]; intros successful failed v st Hrep.
  - by split.
  - simpl process_files. simpl count_process_files. simpl view_process_files.
    destruct (response_truthy (transcription_result f)); [|by apply IH].
    destruct (format_transcript (transcription_result f)) as [formatted|e].
    + eapply bind_runs_ok; [by split|]. intros st0 H0.
      eapply bind_runs_ok; [by apply append_transcriptions_runs|].
      intros st1 H1.
      eapply bind_runs_ok; [by apply getattr_primary_runs|].
      intros st2 H2.
      destruct (text_truthy (insights f)).
      * eapply bind_runs_ok; [by apply append_insights_runs|].
        intros st3 H3. by apply IH.
      * by apply IH.
    + eapply bind_runs_raise. by split.
Qed.

Lemma save_agent_details_sim n c l g gk ok dk (v : view) (st : session) :
  represents v st ->
  represents (view_handler (mk_input gk ok dk (SaveAgentDetails n c l g)) v)
    (exec (save_agent_details n c l g) st).
Proof. sim_handler save_agent_details. Qed.

Lemma generate_primary_sim s t p gk ok dk (v : view) (st : session) :
  represents v st ->
  represents (view_handler (mk_input gk ok dk (GeneratePrimaryPrompt s t p)) v)
    (exec (generate_primary s t p) st).
Proof. sim_handler generate_primary. Qed.

Lemma proceed_to_phase3_sim gk ok dk (v : view) (st : session) :
  represents v st ->
  represents (view_handler (mk_input gk ok dk ProceedToPhase3) v)
    (exec proceed_to_phase3 st).
Proof. sim_handler proceed_to_phase3. Qed.

Lemma generate_master_sim m gk ok dk (v : view) (st : session) :
  represents v st ->
  represents (view_handler (mk_input gk ok dk (GenerateMasterPrompt m)) v)
    (exec (generate_master m) st).
Proof. sim_handler generate_master. Qed.

Lemma regenerate_master_sim gk ok dk (v : view) (st : session) :
  represents v st ->
  represents (view_handler (mk_input gk ok dk RegenerateMasterPrompt) v)
    (exec regenerate_master st).
Proof. sim_handler regenerate_master. Qed.

Lemma refine_prompt_sim f r now gk ok dk (v : view) (st : session) :
  represents v st ->
  represents (view_handler (mk_input gk ok dk (RefinePrompt f r now)) v)
    (exec (refine_prompt f r now) st).
Proof. sim_handler refine_prompt. Qed.

Lemma suggest_feedback_sim s gk ok dk (v : view) (st : session) :
  represents v st ->
  represents (view_handler (mk_input gk ok dk (SuggestFeedback s)) v)
    (exec (suggest_feedback s) st).
Proof. sim_handler suggest_feedback. Qed.

Lemma analyze_calls_sim fs m gk ok dk (v : view) (st : session) :
  represents v st ->
  represents (view_handler (mk_input gk ok dk (AnalyzeCalls fs m)) v)
    (exec (analyze_calls dk fs m) st).
Proof.
  intros H. pose proof H as H'. rep_destruct H.
  unfold analyze_calls, view_handler. simpl clicked. simpl deepgram_key.
  unfold exec, bind at 1, getattr at 1. use_lookups.
  rewrite truthy_value_of_text.
  destruct (text_truthy (v_primary v)); simpl; [|exact H'].
  destruct fs as [|f0 fs0]; [exact H'|].
  destruct dk; simpl; [|exact H'].
  unfold bind at 1, getattr at 1. use_lookups. simpl.
  destruct (v_api v); simpl; [|exact H'].
  unfold bind at 1.
  assert (Hfiles :
    (match m with
     | ProcessAllAtOnce => ret (f0 :: fs0)
     | ProcessOneByOne i =>
         match (f0 :: fs0) !! i with
         | Some f => ret [f]
         | None => raise IndexError
         end
     end) st = (files_to_process (f0 :: fs0) m, st)).
  { unfold files_to_process. destruct m as [|i]; [reflexivity|].
    by destruct ((f0 :: fs0) !! i). }
  rewrite Hfiles.
  destruct (files_to_process (f0 :: fs0) m) as [files|e]; [|exact H'].
  unfold bind.
  destruct (process_files_runs files 0%nat 0%nat v st H') as [Hr Hv].
  destruct (process_files files 0%nat 0%nat st) as [r st'].
  simpl in *. by destruct r.
Qed.

End Simulation.

Section Reset.

Lemma delete_present_run (keys : list string) : forall st : session,
  delete_present keys st
  = (Ok tt, fold_left (fun s k => delete k s) keys st).
Proof.
  induction keys as [|key rest IH]; intros st; [reflexivity|].
  simpl. unfold bind, hasattr, delattr, ret.
  destruct (st !! key) eqn:Hkey; simpl.
  - rewrite Hkey. apply IH.
  - rewrite IH. by rewrite (delete_id st key).
Qed.

Lemma sidebar_run (inp : run_input) (st : session) :
  sidebar inp st
  = (Ok tt, if gemini_key inp
            then <["api_configured" := VBool (gemini_ok inp)]> st else st).
Proof. unfold sidebar. by destruct (gemini_key inp). Qed.

(** The run that handles the reset button: no exception, and a state in
    which the seven listed attributes are absent and the phase is 1. *)
Lemma reset_run (gk ok dk : bool) (st : session) :
  main (mk_input gk ok dk ResetAllProgress) st
  = (Ok NoReport,
     <["current_phase" := VInt 1]>
       (fold_left (fun s k => delete k s) reset_keys
          (if gk then <["api_configured" := VBool ok]> st else st))).
Proof.
  unfold main, bind. rewrite sidebar_run. simpl.
  unfold reset_all_progress, bind. by rewrite delete_present_run.
Qed.

Lemma reset_lookup_deleted (gk ok dk : bool) (st : session) (k : string) :
  In k reset_keys ->
  exec (main (mk_input gk ok dk ResetAllProgress)) st !! k = None.
Proof.
  intros Hin. unfold exec. rewrite reset_run. simpl.
  repeat (destruct Hin as [<- | Hin];
          [ rewrite lookup_insert_ne by discriminate;
            repeat (rewrite lookup_delete_ne by discriminate);
            by rewrite lookup_delete_eq |]).
  destruct Hin.
Qed.

Lemma reset_lookup_kept (gk ok dk : bool) (st : session) (k : string) :
  ~ In k reset_keys -> k <> "current_phase" ->
  exec (main (mk_input gk ok dk ResetAllProgress)) st !! k
  = (if gk then <["api_configured" := VBool ok]> st else st) !! k.
Proof.
  intros Hnotin Hne. unfold exec. rewrite reset_run. simpl in *.
  rewrite lookup_insert_ne by congruence.
  repeat (rewrite lookup_delete_ne by (intros ?; tauto)).
  reflexivity.
Qed.

Lemma reset_step_lookup (gk ok dk : bool) (st : session) (k : string) (x : value) :
  In (k, x) session_defaults -> k <> "api_configured" ->
  step (mk_input gk ok dk ResetAllProgress) st !! k = Some x.
Proof.
  intros Hin Hne. unfold step. simpl in Hin.
  destruct Hin as [[= <- <-] | Hin];
    [apply init_supplies; [simpl; tauto | apply reset_lookup_deleted; simpl; tauto]|].
  destruct Hin as [[= <- <-] | Hin];
    [apply init_supplies; [simpl; tauto | apply reset_lookup_deleted; simpl; tauto]|].
  destruct Hin as [[= <- <-] | Hin];
    [apply init_supplies; [simpl; tauto | apply reset_lookup_deleted; simpl; tauto]|].
  destruct Hin as [[= <- <-] | Hin];
    [apply init_supplies; [simpl; tauto | apply reset_lookup_deleted; simpl; tauto]|].
  destruct Hin as [[= <- <-] | Hin]; [congruence|].
  destruct Hin as [[= <- <-] | Hin].
  { apply init_keeps. unfold exec. rewrite reset_run. simpl.
    by rewrite lookup_insert_eq. }
  destruct Hin as [[= <- <-] | Hin];
    [apply init_supplies; [simpl; tauto | apply reset_lookup_deleted; simpl; tauto]|].
  destruct Hin as [[= <- <-] | Hin];
    [apply init_supplies; [simpl; tauto | apply reset_lookup_deleted; simpl; tauto]|].
  destruct Hin as [[= <- <-] | Hin];
    [apply init_supplies; [simpl; tauto | apply reset_lookup_deleted; simpl; tauto]|].
  destruct Hin.
Qed.

Lemma fresh_session_lookup (k : string) (x : value) :
  In (k, x) session_defaults -> fresh_session !! k = Some x.
Proof.
  intros Hin. apply init_supplies; [assumption | apply lookup_empty].
Qed.

Lemma fresh_represents : represents fresh_view fresh_session.
Proof.
  unfold represents, fresh_view. simpl.
  repeat split; apply fresh_session_lookup; simpl; tauto.
Qed.

Lemma reset_sim (gk ok dk : bool) (v : view) (st : session) :
  represents v st ->
  represents (view_step (mk_input gk ok dk ResetAllProgress) v)
    (step (mk_input gk ok dk ResetAllProgress) st).
Proof.
  intros H.
  assert (Hapi : step (mk_input gk ok dk ResetAllProgress) st !! "api_configured"
                 = Some (VBool (if gk then ok else v_api v))).
  { unfold step. apply init_keeps.
    rewrite reset_lookup_kept; [|simpl; intuition discriminate | discriminate].
    destruct gk; [by rewrite lookup_insert_eq|].
    by destruct H as (_ & _ & _ & _ & Ha & _). }
  unfold view_step, view_handler, view_sidebar. simpl.
  unfold represents. simpl.
  repeat split;
    try (apply reset_step_lookup; [simpl; tauto | discriminate]).
  rewrite Hapi. by destruct gk.
Qed.

End Reset.

Section Reachability.

Lemma main_run (inp : run_input) (st : session) :
  main inp st
  = (match clicked inp with
     | NoButton => ret NoReport
     | ResetAllProgress => reset_all_progress
     | SaveAgentDetails n c l g => save_agent_details n c l g
     | GeneratePrimaryPrompt s t p => generate_primary s t p
     | AnalyzeCalls fs m => analyze_calls (deepgram_key inp) fs m
     | ProceedToPhase3 => proceed_to_phase3
     | GenerateMasterPrompt m => generate_master m
     | RegenerateMasterPrompt => regenerate_master
     | RefinePrompt f r t => refine_prompt f r t
     | SuggestFeedback s => suggest_feedback s
     end) (exec (sidebar inp) st).
Proof. unfold main, bind, exec. by rewrite sidebar_run. Qed.

(** Every run acts on the typed contents as [view_step] says. *)
Lemma step_sim (inp : run_input) (v : view) (st : session) :
  represents v st -> represents (view_step inp v) (step inp st).
Proof.
  intros H. destruct inp as [gk ok dk b].
  destruct b; try (by apply reset_sim).
  all: unfold step; apply init_represents.
  all: unfold exec at 1; rewrite main_run.
  all: pose proof (sidebar_runs (mk_input gk ok dk NoButton) v st H) as [_ Hside].
  all: change (snd (sidebar (mk_input gk ok dk NoButton) st))
         with (exec (sidebar (mk_input gk ok dk NoButton)) st) in Hside.
  all: unfold view_step; simpl clicked; simpl deepgram_key.
  - exact Hside.
  - by apply (save_agent_details_sim _ _ _ _ gk ok dk).
  - by apply (generate_primary_sim _ _ _ gk ok dk).
  - by apply (analyze_calls_sim _ _ gk ok dk).
  - by apply (proceed_to_phase3_sim gk ok dk).
  - by apply (generate_master_sim _ gk ok dk).
  - by apply (regenerate_master_sim gk ok dk).
  - by apply (refine_prompt_sim _ _ _ gk ok dk).
  - by apply (suggest_feedback_sim _ gk ok dk).
Qed.

Lemma view_process_files_frame (files : list audio_file) : forall v : view,
  let v' := view_process_files files v in
  v_primary v' = v_primary v /\ v_master v' = v_master v
  /\ v_phase v' = v_phase v /\ v_api v' = v_api v
  /\ v_history v' = v_history v
  /\ (exists more, v_insights v' = v_insights v ++ more)
  /\ (exists more, v_transcriptions v' = v_transcriptions v ++ more).
Proof.
  induction files as [|f rest IH]; intros v; simpl.
  - repeat split; exists []; by rewrite app_nil_r.
  - destruct (response_truthy (transcription_result f)); [|apply IH].
    destruct (format_transcript (transcription_result f)) as [formatted|e].
    + destruct (text_truthy (insights f)).
      * match goal with
        | |- context [view_process_files rest ?w] =>
            destruct (IH w) as (Hp & Hm & Hph & Ha & Hh & [mi Hi] & [mt Ht])
        end.
        simpl in *. rewrite Hp, Hm, Hph, Ha, Hh, Hi, Ht.
        repeat split; eexists; by rewrite <- app_assoc.
      * match goal with
        | |- context [view_process_files rest ?w] =>
            destruct (IH w) as (Hp & Hm & Hph & Ha & Hh & [mi Hi] & [mt Ht])
        end.
        simpl in *. rewrite Hp, Hm, Hph, Ha, Hh, Hi, Ht.
        repeat split; eexists; by rewrite <- ?app_assoc.
    + repeat split; exists []; by rewrite app_nil_r.
Qed.

Lemma app_not_nil {A} (l more : list A) : l <> [] -> l ++ more <> [].
Proof. destruct l; simpl; congruence. Qed.

Lemma phase_inv_fresh : phase_inv fresh_view.
Proof.
  unfold phase_inv, fresh_view. simpl.
  repeat split; try lia; try congruence; try discriminate.
Qed.

Lemma phase_inv_with_api (b : bool) (v : view) :
  phase_inv v -> phase_inv (with_api b v).
Proof. by unfold phase_inv. Qed.

Ltac phase_crush :=
  unfold phase_inv in *; simpl in *;
  repeat match goal with
         | H : negb _ = false |- _ => apply negb_false_iff in H
         | H : negb _ = true |- _ => apply negb_true_iff in H
         | H : _ /\ _ |- _ => destruct H
         end;
  repeat match goal with
         | H : text_truthy ?p = _ |- _ => rewrite H in *
         | H : v_insights ?v = _ |- _ => rewrite H in *
         end;
  repeat split; intros;
  try lia; try congruence; try discriminate; try tauto;
  try (apply app_not_nil; tauto);
  try (exfalso; intuition (lia || congruence));
  intuition (lia || congruence || discriminate).

(** The stored phase stays consistent with the artifacts in every run. *)
Lemma phase_inv_step (inp : run_input) (v : view) :
  phase_inv v -> phase_inv (view_step inp v).
Proof.
  intros Hinv. unfold view_step.
  assert (Hside : phase_inv (view_sidebar inp v)).
  { unfold view_sidebar. destruct (gemini_key inp); [|assumption].
    by apply phase_inv_with_api. }
  revert Hside. generalize (view_sidebar inp v). clear v Hinv.
  intros v Hinv. unfold view_handler.
  destruct (clicked inp) as [| |n c l g|s t p|fs m| |m| |f r now|s];
    try assumption.
  - apply phase_inv_with_api, phase_inv_fresh.
  - repeat case_match; assumption.
  - repeat case_match; try assumption; phase_crush.
  - repeat case_match; try assumption.
    match goal with
    | |- phase_inv (view_process_files ?files v) =>
        destruct (view_process_files_frame files v)
          as (Hp & Hm & Hph & Ha & Hh & [mi Hi] & _)
    end.
    unfold phase_inv. rewrite Hp, Hm, Hph, Hi. clear Hp Hm Hph Ha Hh Hi.
    phase_crush.
  - repeat case_match; try assumption; phase_crush.
  - repeat case_match; try assumption; phase_crush.
  - repeat case_match; try assumption; phase_crush.
  - repeat case_match; try assumption; phase_crush.
Qed.

(** Every reachable state holds all attributes, with consistent contents. *)
Lemma reachable_view (st : session) :
  reachable st -> exists v, represents v st /\ phase_inv v.
Proof.
  induction 1 as [|inp st Hreach (v & Hrep & Hinv)].
  - exists fresh_view. split; [apply fresh_represents | apply phase_inv_fresh].
  - exists (view_step inp v). split; [by apply step_sim | by apply phase_inv_step].
Qed.

Lemma run_all_reachable (inps : list run_input) : forall st : session,
  reachable st -> reachable (run_all inps st).
Proof.
  induction inps as [|inp rest IH]; intros st H; [assumption|].
  simpl. apply IH. by constructor.
Qed.

End Reachability.

(** ** The workflow claims *)

(** C5. The run that handles the reset button raises nothing, and in the
    state it leaves every read of the primary prompt, the master prompt, the
    insight list and the refinement list (and of the transcription list and
    the phase) returns what it returns in a fresh session, whatever the
    state held before; all of them are cleared by that single run. *)
Theorem reset_returns_to_initial_state (st : session) (gk ok dk : bool) :
  fst (main (mk_input gk ok dk ResetAllProgress) st) = Ok NoReport
  /\ primary_prompt_of (step (mk_input gk ok dk ResetAllProgress) st) = Some VNone
  /\ master_prompt_of (step (mk_input gk ok dk ResetAllProgress) st) = Some VNone
  /\ call_insights_of (step (mk_input gk ok dk ResetAllProgress) st)
     = Some (VList [])
  /\ refinement_history_of (step (mk_input gk ok dk ResetAllProgress) st)
     = Some (VList [])
  /\ transcriptions_of (step (mk_input gk ok dk ResetAllProgress) st)
     = Some (VList [])
  /\ current_phase_of (step (mk_input gk ok dk ResetAllProgress) st)
     = Some (VInt 1)
  /\ primary_prompt_of (step (mk_input gk ok dk ResetAllProgress) st)
     = primary_prompt_of fresh_session
  /\ master_prompt_of (step (mk_input gk ok dk ResetAllProgress) st)
     = master_prompt_of fresh_session
  /\ call_insights_of (step (mk_input gk ok dk ResetAllProgress) st)
     = call_insights_of fresh_session
  /\ refinement_history_of (step (mk_input gk ok dk ResetAllProgress) st)
     = refinement_history_of fresh_session.
Proof.
  split; [by rewrite reset_run|].
  unfold primary_prompt_of, master_prompt_of, call_insights_of,
    refinement_history_of, transcriptions_of, current_phase_of.
  repeat split;
    rewrite ?(fresh_session_lookup "primary_prompt" VNone),
      ?(fresh_session_lookup "master_prompt" VNone),
      ?(fresh_session_lookup "call_insights" (VList [])),
      ?(fresh_session_lookup "refinement_history" (VList []))
      by (simpl; tauto);
    (apply reset_step_lookup; [simpl; tauto | discriminate]).
Qed.

Lemma setup_reachable : reachable primary_state.
Proof. apply run_all_reachable. constructor. Qed.

Lemma analysed_reachable : reachable analysed_state.
Proof. constructor. apply setup_reachable. Qed.

Lemma master_reachable : reachable master_state.
Proof. constructor. apply analysed_reachable. Qed.

(** C2 fails: after a first call has been analysed there is an insight and
    no master prompt, and the stored phase is still 2, where the derived
    phase is 3. *)
Lemma phase_is_not_derived :
  reachable analysed_state
  /\ present (call_insights_of analysed_state) = true
  /\ present (master_prompt_of analysed_state) = false
  /\ current_phase_of analysed_state = Some (VInt 2)
  /\ current_phase_of analysed_state
     <> Some (VInt (derived_phase analysed_state)).
Proof.
  split; [apply analysed_reachable|].
  repeat split; try (vm_compute; reflexivity).
  intros H. vm_compute in H. discriminate H.
Qed.

(** Two more reachable states in which the stored phase differs from the
    derived one: phase 4 without a master prompt after a regeneration, and
    phase 3 with a master prompt after going back to the second tab. *)
Example phase_after_regenerate :
  current_phase_of (step (press RegenerateMasterPrompt) master_state)
  = Some (VInt 4)
  /\ master_prompt_of (step (press RegenerateMasterPrompt) master_state)
     = Some VNone.
Proof. split; vm_compute; reflexivity. Qed.

Example phase_after_proceed_with_master :
  current_phase_of (step (press ProceedToPhase3) master_state) = Some (VInt 3)
  /\ master_prompt_of (step (press ProceedToPhase3) master_state)
     = Some (VStr "MASTER").
Proof. split; vm_compute; reflexivity. Qed.

Section StoredPhase.

Lemma view_sidebar_frame (inp : run_input) (v : view) :
  v_primary (view_sidebar inp v) = v_primary v
  /\ v_master (view_sidebar inp v) = v_master v
  /\ v_insights (view_sidebar inp v) = v_insights v
  /\ v_transcriptions (view_sidebar inp v) = v_transcriptions v
  /\ v_phase (view_sidebar inp v) = v_phase v
  /\ v_history (view_sidebar inp v) = v_history v.
Proof. unfold view_sidebar. by destruct (gemini_key inp). Qed.

Lemma present_list (l : list value) :
  present (Some (VList l)) = true <-> l <> [].
Proof. destruct l; simpl; split; congruence. Qed.

(** C2, amended. The current phase is a stored value. In every reachable
    state it lies between 1 and 4, it is 1 exactly while no primary prompt
    exists, and it is 3 or 4 only when at least one insight exists.
    Recording a primary prompt sets it to 2; analysing calls leaves it
    unchanged; pressing the button to proceed to phase 3 while an insight
    exists sets it to 3; recording a master prompt sets it to 4. *)
Theorem stored_phase_rule (st : session) (inp : run_input) :
  reachable st ->
  exists n : Z,
    current_phase_of st = Some (VInt n) /\ 1 <= n <= 4
    /\ (n = 1 <-> present (primary_prompt_of st) = false)
    /\ (3 <= n -> present (call_insights_of st) = true)
    /\ (forall s t p, clicked inp = GeneratePrimaryPrompt s t p ->
        primary_prompt_of (step inp st) <> primary_prompt_of st ->
        primary_prompt_of (step inp st) = Some (value_of_text p)
        /\ current_phase_of (step inp st) = Some (VInt 2))
    /\ (forall fs m, clicked inp = AnalyzeCalls fs m ->
        current_phase_of (step inp st) = Some (VInt n))
    /\ (clicked inp = ProceedToPhase3 ->
        present (call_insights_of st) = true ->
        current_phase_of (step inp st) = Some (VInt 3))
    /\ (forall m, clicked inp = GenerateMasterPrompt m ->
        master_prompt_of (step inp st) <> master_prompt_of st ->
        master_prompt_of (step inp st) = Some (value_of_text m)
        /\ current_phase_of (step inp st) = Some (VInt 4)).
Proof.
  intros Hreach.
  destruct (reachable_view st Hreach) as (v & Hrep & Hinv).
  pose proof (step_sim inp v st Hrep) as Hstep.
  destruct Hrep as (Hp & Hm & Hi & _ & _ & Hph & _).
  destruct Hstep as (Hp' & Hm' & Hi' & _ & _ & Hph' & _).
  destruct (view_sidebar_frame inp v) as (Sp & Sm & Si & _ & Sph & _).
  unfold primary_prompt_of, master_prompt_of, call_insights_of, current_phase_of.
  rewrite Hp, Hm, Hi, Hph, Hp', Hm', Hph'.
  destruct Hinv as (Hrange & Hone & Hnone & Hthree & Hmast).
  exists (v_phase v). simpl present. rewrite truthy_value_of_text.
  split; [reflexivity|]. split; [assumption|]. split; [assumption|].
  split.
  { intros Hge. apply Hthree in Hge. by destruct (v_insights v). }
  unfold view_step, view_handler.
  split; [|split; [|split]].
  - intros s t p ->. rewrite Sp.
    repeat case_match; simpl; rewrite ?Sp, ?Sph; try congruence.
    by split.
  - intros fs m ->.
    repeat case_match; simpl; rewrite ?Sph; try reflexivity.
    match goal with
    | |- context [view_process_files ?files ?w] =>
        destruct (view_process_files_frame files w) as (_ & _ & -> & _)
    end.
    by rewrite Sph.
  - intros -> Hins. rewrite Sp, Si.
    assert (Hne : v_insights v <> []) by (by destruct (v_insights v)).
    assert (Hpt : text_truthy (v_primary v) = true).
    { destruct (text_truthy (v_primary v)) eqn:E; [reflexivity|].
      destruct (Hnone eq_refl). congruence. }
    rewrite Hpt. simpl. destruct (v_insights v); [congruence|]. reflexivity.
  - intros m ->. rewrite Sm.
    repeat case_match; simpl; rewrite ?Sm, ?Sph; try congruence.
    by split.
Qed.

End StoredPhase.

Lemma stored_phase_rule_witness :
  reachable analysed_state
  /\ exists n : Z,
    current_phase_of analysed_state = Some (VInt n) /\ 1 <= n <= 4
    /\ (n = 1 <-> present (primary_prompt_of analysed_state) = false)
    /\ (3 <= n -> present (call_insights_of analysed_state) = true)
    /\ (forall s t p,
        clicked (press ProceedToPhase3) = GeneratePrimaryPrompt s t p ->
        primary_prompt_of (step (press ProceedToPhase3) analysed_state)
        <> primary_prompt_of analysed_state ->
        primary_prompt_of (step (press ProceedToPhase3) analysed_state)
        = Some (value_of_text p)
        /\ current_phase_of (step (press ProceedToPhase3) analysed_state)
           = Some (VInt 2))
    /\ (forall fs m, clicked (press ProceedToPhase3) = AnalyzeCalls fs m ->
        current_phase_of (step (press ProceedToPhase3) analysed_state)
        = Some (VInt n))
    /\ (clicked (press ProceedToPhase3) = ProceedToPhase3 ->
        present (call_insights_of analysed_state) = true ->
        current_phase_of (step (press ProceedToPhase3) analysed_state)
        = Some (VInt 3))
    /\ (forall m, clicked (press ProceedToPhase3) = GenerateMasterPrompt m ->
        master_prompt_of (step (press ProceedToPhase3) analysed_state)
        <> master_prompt_of analysed_state ->
        master_prompt_of (step (press ProceedToPhase3) analysed_state)
        = Some (value_of_text m)
        /\ current_phase_of (step (press ProceedToPhase3) analysed_state)
           = Some (VInt 4)).
Proof.
  split; [apply analysed_reachable|].
  exact (stored_phase_rule analysed_state (press ProceedToPhase3)
           analysed_reachable).
Defined.

Section Refinement.







End Refinement.

(** A regeneration of the master prompt between two refinements replaces
    the prompt without a record: the second record starts from a prompt
    that the first one did not produce. *)
Example history_after_regeneration :
  refinement_history_of (run_all regenerated_inputs master_state)
  = Some (VList [refinement_record "be less pushy" (VStr "MASTER")
                   (Some "MASTER v2") 20;
                 refinement_record "add empathy" (VStr "MASTER again")
                   (Some "MASTER again v2") 30]).
Proof. vm_compute. reflexivity. Qed.




Section Batch.

Lemma count_success_prefix (done : list audio_file) :
  Forall file_succeeds done ->
  forall (rest : list audio_file) (successful failed : nat),
  count_process_files (done ++ rest) successful failed
  = count_process_files rest (length done + successful) failed.
Proof.
  induction 1 as [|f done (Ht & [formatted Hf] & Hi) _ IH];
    intros rest successful failed; [reflexivity|].
  simpl. rewrite Ht, Hf, Hi, IH. f_equal. lia.
Qed.

Lemma view_success_prefix (done : list audio_file) :
  Forall file_succeeds done ->
  forall (rest : list audio_file) (v : view),
  view_process_files (done ++ rest) v
  = view_process_files rest
      (with_insights (v_insights v ++ map stored_insight done)
         (with_transcriptions
            (v_transcriptions v ++ map stored_transcript done) v)).
Proof.
  induction 1 as [|f done (Ht & [formatted Hf] & Hi) _ IH]; intros rest v.
  - simpl. rewrite !app_nil_r. by destruct v.
  - simpl. rewrite Ht, Hf, Hi, IH. f_equal.
    unfold with_insights, with_transcriptions, stored_insight,
      stored_transcript, formatted_of. simpl.
    rewrite Hf, <- !app_assoc. reflexivity.
Qed.

Lemma count_success_all (done : list audio_file) (successful failed : nat) :
  Forall file_succeeds done ->
  count_process_files done successful failed
  = Ok ((length done + successful)%nat, failed).
Proof.
  intros H. rewrite <- (app_nil_r done) at 1.
  by rewrite count_success_prefix.
Qed.

Lemma view_success_all (done : list audio_file) (v : view) :
  Forall file_succeeds done ->
  view_process_files done v
  = with_insights (v_insights v ++ map stored_insight done)
      (with_transcriptions
         (v_transcriptions v ++ map stored_transcript done) v).
Proof.
  intros H. rewrite <- (app_nil_r done) at 1.
  by rewrite view_success_prefix.
Qed.

Lemma analyze_all_returns (fs : list audio_file) (v : view) (st : session) :
  represents v st ->
  text_truthy (v_primary v) = true -> v_api v = true -> fs <> [] ->
  fst (analyze_calls true fs ProcessAllAtOnce st)
  = match count_process_files fs 0 0 with
    | Ok counts => Ok (BatchReport (fst counts) (snd counts))
    | Raise e => Raise e
    end.
Proof.
  intros H Hp Ha Hne. pose proof H as H'.
  destruct H as (Hprimary & _ & _ & _ & Hapi & _).
  unfold analyze_calls. unfold bind at 1, getattr at 1.
  rewrite Hprimary, truthy_value_of_text, Hp. simpl.
  destruct fs as [|f0 fs0]; [congruence|].
  unfold bind at 1, getattr at 1. rewrite Hapi, Ha. simpl.
  unfold bind, ret.
  destruct (process_files_runs (f0 :: fs0) 0%nat 0%nat v st H') as [Hr _].
  destruct (process_files (f0 :: fs0) 0%nat 0%nat st) as [r st'].
  simpl in Hr. rewrite <- Hr. by destruct r.
Qed.

(** Between resets the transcription list only grows. *)
Lemma transcriptions_grow (inp : run_input) (v : view) :
  clicked inp <> ResetAllProgress ->
  exists more, v_transcriptions (view_step inp v) = v_transcriptions v ++ more.
Proof.
  intros Hnot. unfold view_step, view_handler.
  destruct (view_sidebar_frame inp v) as (_ & _ & _ & St & _).
  destruct (clicked inp); try congruence;
    repeat case_match; simpl; rewrite ?St;
    try (exists []; by rewrite app_nil_r).
  match goal with
  | |- context [view_process_files ?files ?w] =>
      destruct (view_process_files_frame files w) as (_ & _ & _ & _ & _ & _ & [more ->])
  end.
  rewrite St. by exists more.
Qed.

End Batch.

(** C6. In a batch processed at once in which the transcription of exactly
    one file fails and every step succeeds for all other files, the loop
    runs to the end: the report counts one failure and N-1 successes, and
    the insight list grows by the N-1 records of the other files, in the
    order in which the files were supplied. *)
Theorem batch_continues_past_failed_transcription
    (st : session) (before after : list audio_file) (failed_file : audio_file)
    (old_insights : list value) :
  reachable st ->
  present (primary_prompt_of st) = true ->
  call_insights_of st = Some (VList old_insights) ->
  response_truthy (transcription_result failed_file) = false ->
  Forall file_succeeds before ->
  Forall file_succeeds after ->
  fst (main (press (AnalyzeCalls (before ++ failed_file :: after)
                      ProcessAllAtOnce)) st)
  = Ok (BatchReport (length (before ++ failed_file :: after) - 1) 1)
  /\ call_insights_of
       (step (press (AnalyzeCalls (before ++ failed_file :: after)
                       ProcessAllAtOnce)) st)
     = Some (VList (old_insights ++ map stored_insight (before ++ after)))
  /\ length (map stored_insight (before ++ after))
     = (length (before ++ failed_file :: after) - 1)%nat
  /\ map (record_field "filename") (map stored_insight (before ++ after))
     = map (fun f => Some (VStr (name f))) (before ++ after).
Proof.
  intros Hreach Hprimary Hinsights Hfail Hbefore Hafter.
  destruct (reachable_view st Hreach) as (v & Hrep & _).
  set (files := before ++ failed_file :: after).
  set (inp := press (AnalyzeCalls files ProcessAllAtOnce)).
  assert (Hvp : text_truthy (v_primary v) = true).
  { destruct Hrep as (Hp & _). unfold primary_prompt_of in Hprimary.
    rewrite Hp in Hprimary. simpl in Hprimary.
    by rewrite truthy_value_of_text in Hprimary. }
  assert (Hvi : v_insights v = old_insights).
  { destruct Hrep as (_ & _ & Hi & _). unfold call_insights_of in Hinsights.
    rewrite Hi in Hinsights. congruence. }
  assert (Hcount : count_process_files files 0 0
                   = Ok ((length files - 1)%nat, 1%nat)).
  { unfold files. rewrite count_success_prefix by assumption.
    simpl. rewrite Hfail.
    rewrite count_success_all by assumption.
    f_equal. f_equal. rewrite length_app. simpl. lia. }
  assert (Hview : v_insights (view_process_files files (with_api true v))
                  = old_insights ++ map stored_insight (before ++ after)).
  { unfold files. rewrite view_success_prefix by assumption.
    simpl. rewrite Hfail.
    rewrite view_success_all by assumption. simpl.
    by rewrite Hvi, map_app, app_assoc. }
  split.
  { rewrite main_run. simpl clicked. simpl deepgram_key.
    rewrite (analyze_all_returns files (with_api true v)).
    - by rewrite Hcount.
    - destruct (sidebar_runs inp v st Hrep) as [_ Hside]. exact Hside.
    - exact Hvp.
    - reflexivity.
    - unfold files. by destruct before. }
  split.
  { pose proof (step_sim inp v st Hrep) as (_ & _ & Hi' & _).
    unfold call_insights_of. rewrite Hi'. f_equal. f_equal.
    unfold view_step, view_handler, view_sidebar. simpl.
    rewrite Hvp. simpl.
    destruct files eqn:Hfiles; [by destruct before|].
    exact Hview. }
  split.
  { unfold files. rewrite length_map, !length_app. simpl. lia. }
  rewrite map_map. reflexivity.
Qed.

Lemma example_call_succeeds : file_succeeds example_call.
Proof.
  split; [reflexivity|]. split; [|reflexivity].
  eexists. vm_compute. reflexivity.
Qed.

Lemma batch_continues_past_failed_transcription_witness :
  reachable primary_state
  /\ present (primary_prompt_of primary_state) = true
  /\ call_insights_of primary_state = Some (VList [])
  /\ response_truthy (transcription_result example_failed_call) = false
  /\ Forall file_succeeds [example_call]
  /\ Forall file_succeeds [example_call; example_call]
  /\ fst (main (press (AnalyzeCalls
                         ([example_call]
                          ++ example_failed_call :: [example_call; example_call])
                         ProcessAllAtOnce)) primary_state)
     = Ok (BatchReport
             (length ([example_call]
                      ++ example_failed_call :: [example_call; example_call]) - 1)
             1)
  /\ call_insights_of
       (step (press (AnalyzeCalls
                       ([example_call]
                        ++ example_failed_call :: [example_call; example_call])
                       ProcessAllAtOnce)) primary_state)
     = Some (VList ([] ++ map stored_insight
                            ([example_call] ++ [example_call; example_call])))
  /\ length (map stored_insight ([example_call] ++ [example_call; example_call]))
     = (length ([example_call]
                ++ example_failed_call :: [example_call; example_call]) - 1)%nat
  /\ map (record_field "filename")
       (map stored_insight ([example_call] ++ [example_call; example_call]))
     = map (fun f => Some (VStr (name f)))
         ([example_call] ++ [example_call; example_call]).
Proof.
  assert (H1 : present (primary_prompt_of primary_state) = true)
    by (vm_compute; reflexivity).
  assert (H2 : call_insights_of primary_state = Some (VList []))
    by (vm_compute; reflexivity).
  assert (H3 : Forall file_succeeds [example_call])
    by (repeat constructor; apply example_call_succeeds).
  assert (H4 : Forall file_succeeds [example_call; example_call])
    by (repeat constructor; apply example_call_succeeds).
  split; [apply setup_reachable|]. split; [exact H1|]. split; [exact H2|].
  split; [reflexivity|]. split; [exact H3|]. split; [exact H4|].
  exact (batch_continues_past_failed_transcription primary_state
           [example_call] [example_call; example_call] example_failed_call []
           setup_reachable H1 H2 eq_refl H3 H4).
Defined.

(** C9. The transcript of a file is stored as soon as it is formatted,
    before the analysis is attempted: in a batch in which the analysis of
    one file fails (and every step succeeds for the other files) that file
    is counted as failed and adds no insight, yet its transcript is in the
    transcription list, between those of the files around it; and the list
    keeps it in every later run that is not a reset. *)
Theorem transcript_kept_when_analysis_fails
    (st : session) (before after : list audio_file) (f : audio_file)
    (formatted : string) (old_transcripts old_insights : list value)
    (later : run_input) :
  reachable st ->
  present (primary_prompt_of st) = true ->
  transcriptions_of st = Some (VList old_transcripts) ->
  call_insights_of st = Some (VList old_insights) ->
  response_truthy (transcription_result f) = true ->
  format_transcript (transcription_result f) = Ok formatted ->
  text_truthy (insights f) = false ->
  Forall file_succeeds before ->
  Forall file_succeeds after ->
  clicked later <> ResetAllProgress ->
  fst (main (press (AnalyzeCalls (before ++ f :: after) ProcessAllAtOnce)) st)
  = Ok (BatchReport (length before + length after) 1)
  /\ transcriptions_of
       (step (press (AnalyzeCalls (before ++ f :: after) ProcessAllAtOnce)) st)
     = Some (VList (old_transcripts
                    ++ map stored_transcript before
                    ++ transcription_record f formatted
                       :: map stored_transcript after))
  /\ call_insights_of
       (step (press (AnalyzeCalls (before ++ f :: after) ProcessAllAtOnce)) st)
     = Some (VList (old_insights ++ map stored_insight (before ++ after)))
  /\ exists more,
       transcriptions_of
         (step later
            (step (press (AnalyzeCalls (before ++ f :: after) ProcessAllAtOnce))
               st))
       = Some (VList ((old_transcripts
                       ++ map stored_transcript before
                       ++ transcription_record f formatted
                          :: map stored_transcript after)
                      ++ more)).
Proof.
  intros Hreach Hprimary Htrans Hinsights Htruthy Hformat Hfail
    Hbefore Hafter Hlater.
  destruct (reachable_view st Hreach) as (v & Hrep & _).
  set (files := before ++ f :: after).
  set (inp := press (AnalyzeCalls files ProcessAllAtOnce)).
  assert (Hvp : text_truthy (v_primary v) = true).
  { destruct Hrep as (Hp & _). unfold primary_prompt_of in Hprimary.
    rewrite Hp in Hprimary. simpl in Hprimary.
    by rewrite truthy_value_of_text in Hprimary. }
  assert (Hvt : v_transcriptions v = old_transcripts).
  { destruct Hrep as (_ & _ & _ & Ht & _). unfold transcriptions_of in Htrans.
    rewrite Ht in Htrans. congruence. }
  assert (Hvi : v_insights v = old_insights).
  { destruct Hrep as (_ & _ & Hi & _). unfold call_insights_of in Hinsights.
    rewrite Hi in Hinsights. congruence. }
  assert (Hcount : count_process_files files 0 0
                   = Ok ((length before + length after)%nat, 1%nat)).
  { unfold files. rewrite count_success_prefix by assumption.
    simpl. rewrite Htruthy, Hformat, Hfail.
    rewrite count_success_all by assumption.
    f_equal. f_equal. lia. }
  assert (Hstep : view_step inp v
                  = view_process_files files (with_api true v)).
  { unfold view_step, view_handler, view_sidebar. simpl.
    rewrite Hvp. simpl. unfold files. by destruct before. }
  assert (Hview :
    v_transcriptions (view_process_files files (with_api true v))
    = old_transcripts ++ map stored_transcript before
      ++ transcription_record f formatted :: map stored_transcript after
    /\ v_insights (view_process_files files (with_api true v))
       = old_insights ++ map stored_insight (before ++ after)).
  { unfold files. rewrite view_success_prefix by assumption.
    simpl. rewrite Htruthy, Hformat, Hfail.
    rewrite view_success_all by assumption. simpl.
    rewrite Hvt, Hvi, map_app, <- !app_assoc. by split. }
  destruct Hview as [Hview_t Hview_i].
  pose proof (step_sim inp v st Hrep) as Hsim.
  split.
  { rewrite main_run. simpl clicked. simpl deepgram_key.
    rewrite (analyze_all_returns files (with_api true v)).
    - by rewrite Hcount.
    - destruct (sidebar_runs inp v st Hrep) as [_ Hside]. exact Hside.
    - exact Hvp.
    - reflexivity.
    - unfold files. by destruct before. }
  split.
  { destruct Hsim as (_ & _ & _ & Ht' & _).
    unfold transcriptions_of. by rewrite Ht', Hstep, Hview_t. }
  split.
  { destruct Hsim as (_ & _ & Hi' & _).
    unfold call_insights_of. by rewrite Hi', Hstep, Hview_i. }
  destruct (transcriptions_grow later (view_step inp v) Hlater) as [more Hmore].
  exists more.
  pose proof (step_sim later _ _ Hsim) as (_ & _ & _ & Ht'' & _).
  unfold transcriptions_of. by rewrite Ht'', Hmore, Hstep, Hview_t.
Qed.

Lemma transcript_kept_when_analysis_fails_witness :
  reachable primary_state
  /\ present (primary_prompt_of primary_state) = true
  /\ transcriptions_of primary_state = Some (VList [])
  /\ call_insights_of primary_state = Some (VList [])
  /\ response_truthy (transcription_result example_unanalysed_call) = true
  /\ format_transcript (transcription_result example_unanalysed_call)
     = Ok (formatted_of example_unanalysed_call)
  /\ text_truthy (insights example_unanalysed_call) = false
  /\ Forall file_succeeds [example_call]
  /\ Forall file_succeeds [example_call]
  /\ clicked (press ProceedToPhase3) <> ResetAllProgress
  /\ fst (main (press (AnalyzeCalls
                         ([example_call]
                          ++ example_unanalysed_call :: [example_call])
                         ProcessAllAtOnce)) primary_state)
     = Ok (BatchReport (length [example_call] + length [example_call]) 1)
  /\ transcriptions_of
       (step (press (AnalyzeCalls
                       ([example_call]
                        ++ example_unanalysed_call :: [example_call])
                       ProcessAllAtOnce)) primary_state)
     = Some (VList ([] ++ map stored_transcript [example_call]
                    ++ transcription_record example_unanalysed_call
                         (formatted_of example_unanalysed_call)
                       :: map stored_transcript [example_call]))
  /\ call_insights_of
       (step (press (AnalyzeCalls
                       ([example_call]
                        ++ example_unanalysed_call :: [example_call])
                       ProcessAllAtOnce)) primary_state)
     = Some (VList ([] ++ map stored_insight ([example_call] ++ [example_call])))
  /\ exists more,
       transcriptions_of
         (step (press ProceedToPhase3)
            (step (press (AnalyzeCalls
                            ([example_call]
                             ++ example_unanalysed_call :: [example_call])
                            ProcessAllAtOnce)) primary_state))
       = Some (VList (([] ++ map stored_transcript [example_call]
                       ++ transcription_record example_unanalysed_call
                            (formatted_of example_unanalysed_call)
                          :: map stored_transcript [example_call])
                      ++ more)).
Proof.
  assert (H1 : present (primary_prompt_of primary_state) = true)
    by (vm_compute; reflexivity).
  assert (H2 : transcriptions_of primary_state = Some (VList []))
    by (vm_compute; reflexivity).
  assert (H3 : call_insights_of primary_state = Some (VList []))
    by (vm_compute; reflexivity).
  assert (H4 : format_transcript (transcription_result example_unanalysed_call)
               = Ok (formatted_of example_unanalysed_call))
    by (vm_compute; reflexivity).
  assert (H5 : Forall file_succeeds [example_call])
    by (repeat constructor; apply example_call_succeeds).
  assert (H6 : clicked (press ProceedToPhase3) <> ResetAllProgress)
    by discriminate.
  split; [apply setup_reachable|]. split; [exact H1|]. split; [exact H2|].
  split; [exact H3|]. split; [reflexivity|]. split; [exact H4|].
  split; [reflexivity|]. split; [exact H5|]. split; [exact H5|].
  split; [exact H6|].
  exact (transcript_kept_when_analysis_fails primary_state
           [example_call] [example_call] example_unanalysed_call
           (formatted_of example_unanalysed_call) [] [] (press ProceedToPhase3)
           setup_reachable H1 H2 H3 eq_refl H4 eq_refl H5 H5 H6).
Defined.

(** ** Further properties of the segmenter *)

Section Rendering.

Lemma length_append (a b : string) :
  String.length (a +:+ b) = (String.length a + String.length b)%nat.
Proof.
  induction a as [|x a IH]; [reflexivity|].
  change (S (String.length (a +:+ b)) = S (String.length a + String.length b)).
  by rewrite IH.
Qed.

Lemma renders_with_spec (f : Z -> string) (digits bound : nat) (n : Z) :
  renders_with f digits bound = true ->
  0 <= n < Z.of_nat bound ->
  String.length (f n) = digits.
Proof.
  unfold renders_with. rewrite forallb_forall. intros Hall Hn.
  specialize (Hall (Z.to_nat n)).
  rewrite Z2Nat.id in Hall by lia.
  apply Nat.eqb_eq, Hall, in_seq. lia.
Qed.

Lemma fmt_02d_length (n : Z) :
  0 <= n < 60 -> String.length (fmt_02d n) = 2%nat.
Proof.
  intros Hn. apply (renders_with_spec fmt_02d 2 60); [|lia].
  vm_compute. reflexivity.
Qed.

Lemma hour_length (h : Z) :
  0 <= h < 24 ->
  String.length (pretty h) = if h <? 10 then 1%nat else 2%nat.
Proof.
  intros Hh. destruct (h <? 10) eqn:Hlt.
  - apply Z.ltb_lt in Hlt.
    apply (renders_with_spec pretty 1 10); [|lia]. vm_compute. reflexivity.
  - apply Z.ltb_ge in Hlt.
    replace h with ((h - 10) + 10) by lia.
    apply (renders_with_spec (fun k => pretty (k + 10)) 2 14); [|lia].
    vm_compute. reflexivity.
Qed.

Lemma seconds_to_hms_unpadded (t : Q) :
  seconds_to_hms t
  = if Z.abs (int_of_float t `div` 86400) >? max_days
    then Raise OverflowError
    else Ok ("[" +:+ timedelta_str
                       (mk_timedelta (int_of_float t `div` 86400)
                          (int_of_float t `mod` 86400) 0) +:+ "]").
Proof.
  unfold seconds_to_hms, timedelta_of_seconds. cbv zeta.
  destruct (Z.abs (int_of_float t `div` 86400) >? max_days); [reflexivity|].
  simpl rbind. by rewrite timedelta_str_three_parts.
Qed.

End Rendering.

(** X1. [seconds_to_hms] raises [OverflowError] exactly when the day count
    of the duration exceeds 999999999 in absolute value; otherwise it
    returns the text of the [timedelta] between square brackets. The branch
    that prepends two zeros is never taken, whatever the duration. *)
Theorem seconds_to_hms_never_pads (t : Q) :
  seconds_to_hms t
  = if Z.abs (int_of_float t `div` 86400) >? max_days
    then Raise OverflowError
    else Ok ("[" +:+ timedelta_str
                       (mk_timedelta (int_of_float t `div` 86400)
                          (int_of_float t `mod` 86400) 0) +:+ "]").
Proof.
  unfold seconds_to_hms, timedelta_of_seconds. cbv zeta.
  destruct (Z.abs (int_of_float t `div` 86400) >? max_days); [reflexivity|].
  simpl rbind. by rewrite timedelta_str_three_parts.
Qed.

(** X2. Within the first day the rendering is [H:MM:SS] between brackets,
    nine characters, for durations below ten hours, and [HH:MM:SS], ten
    characters, from ten hours on: the hour field has two digits only when
    the hour itself has. *)
Theorem seconds_to_hms_width (t : Q) :
  0 <= int_of_float t < 86400 ->
  exists s : string,
    seconds_to_hms t = Ok s
    /\ s = "[" +:+ pretty (int_of_float t `div` 3600) +:+ ":"
           +:+ fmt_02d ((int_of_float t `div` 60) `mod` 60) +:+ ":"
           +:+ fmt_02d (int_of_float t `mod` 60) +:+ "]"
    /\ String.length s = if int_of_float t <? 36000 then 9%nat else 10%nat.
Proof.
  intros Hn. set (n := int_of_float t) in *.
  assert (Hd : n `div` 86400 = 0) by (apply Z.div_small; lia).
  assert (Hm : n `mod` 86400 = n) by (apply Z.mod_small; lia).
  assert (Hh : (n `div` 60) `div` 60 = n `div` 3600).
  { rewrite Z.div_div by lia. reflexivity. }
  eexists. split; [|split; [reflexivity|]].
  - rewrite seconds_to_hms_unpadded. fold n. rewrite Hd, Hm.
    change (Z.abs 0 >? max_days) with false. cbv iota. f_equal.
    unfold timedelta_str. cbv zeta. simpl td_days. simpl td_seconds.
    change (0 =? 0) with true. cbv iota. rewrite Hh.
    by rewrite !append_assoc.
  - rewrite !length_append.
    rewrite !fmt_02d_length by (try apply Z.mod_pos_bound; lia).
    rewrite hour_length.
    + assert (Heq : (n `div` 3600 <? 10) = (n <? 36000)).
      { destruct (Z.ltb_spec n 36000).
        - apply Z.ltb_lt. apply Z.div_lt_upper_bound; lia.
        - apply Z.ltb_ge. apply Z.div_le_lower_bound; lia. }
      rewrite Heq. by destruct (n <? 36000).
    + split; [apply Z.div_pos; lia | apply Z.div_lt_upper_bound; lia].
Qed.

Lemma seconds_to_hms_width_witness :
  0 <= int_of_float (45296 # 1) < 86400
  /\ exists s : string,
    seconds_to_hms (45296 # 1) = Ok s
    /\ s = "[" +:+ pretty (int_of_float (45296 # 1) `div` 3600) +:+ ":"
           +:+ fmt_02d ((int_of_float (45296 # 1) `div` 60) `mod` 60) +:+ ":"
           +:+ fmt_02d (int_of_float (45296 # 1) `mod` 60) +:+ "]"
    /\ String.length s
       = if int_of_float (45296 # 1) <? 36000 then 9%nat else 10%nat.
Proof.
  assert (H : 0 <= int_of_float (45296 # 1) < 86400)
    by (change (0 <= 45296 < 86400); lia).
  split; [exact H | exact (seconds_to_hms_width (45296 # 1) H)].
Defined.

Section Composition.

Lemma last_speaker_cons (id : Z) (w : Word) (ws : list Word) :
  last_speaker id (w :: ws) = last_speaker (speaker w) ws.
Proof.
  unfold last_speaker. destruct ws as [|w' ws]; [reflexivity|].
  change (last (w :: w' :: ws)) with (last (w' :: ws)).
  destruct (last (w' :: ws)) eqn:Hlast; [reflexivity|].
  by apply last_None in Hlast.
Qed.

(** A word of another speaker than the last one starts turns of its own. *)
Lemma absorb_app (ws1 : list Word) :
  forall (cur : turn) (w2 : Word) (ws2 : list Word),
  last_speaker (turn_speaker cur) ws1 <> speaker w2 ->
  absorb cur (ws1 ++ w2 :: ws2)
  = absorb cur ws1 ++ absorb (turn_of_word w2) ws2.
Proof.
  induction ws1 as [|w ws1 IH]; intros cur w2 ws2 Hne.
  - simpl. rewrite bool_decide_eq_false_2; [reflexivity|].
    unfold last_speaker in Hne. simpl in Hne. congruence.
  - rewrite last_speaker_cons in Hne.
    change ((w :: ws1) ++ w2 :: ws2) with (w :: (ws1 ++ w2 :: ws2)).
    simpl absorb. case_bool_decide as Hsp.
    + apply IH. simpl. by rewrite <- Hsp.
    + rewrite IH by assumption. reflexivity.
Qed.

End Composition.

(** X3. Transcripts compose at a change of speaker: when the last word of
    one word sequence and the first word of the next have different
    speakers, the lines of the concatenation are the lines of the first
    sequence followed by the lines of the second. *)
Theorem format_words_app
    (ws1 ws2 : list Word) (last_word next_word : Word) :
  last ws1 = Some last_word ->
  head ws2 = Some next_word ->
  speaker last_word <> speaker next_word ->
  Forall (fun w => timestamp_ok (start w)) ws1 ->
  Forall (fun w => timestamp_ok (start w)) ws2 ->
  exists lines1 lines2 : list string,
    format_words ws1 = Ok lines1
    /\ format_words ws2 = Ok lines2
    /\ format_words (ws1 ++ ws2) = Ok (lines1 ++ lines2).
Proof.
  intros Hlast Hhead Hne Hok1 Hok2.
  exists (map render_turn (turns_of ws1)), (map render_turn (turns_of ws2)).
  split; [by apply format_words_turns|]. split; [by apply format_words_turns|].
  rewrite format_words_turns by (by apply Forall_app).
  f_equal. rewrite <- map_app. f_equal.
  destruct ws2 as [|w2 rest2]; [discriminate|]. injection Hhead as ->.
  destruct ws1 as [|w1 rest1]; [discriminate|].
  change ((w1 :: rest1) ++ next_word :: rest2)
    with (w1 :: (rest1 ++ next_word :: rest2)).
  unfold turns_of. apply absorb_app.
  change (turn_speaker (turn_of_word w1)) with (speaker w1).
  rewrite <- (last_speaker_cons 0 w1 rest1).
  unfold last_speaker. by rewrite Hlast.
Qed.

Lemma format_words_app_witness :
  last [mk_word "hi" 0 0; mk_word "there" (4 # 10) 0]
  = Some (mk_word "there" (4 # 10) 0)
  /\ head [mk_word "hello" 1 1] = Some (mk_word "hello" 1 1)
  /\ speaker (mk_word "there" (4 # 10) 0) <> speaker (mk_word "hello" 1 1)
  /\ Forall (fun w => timestamp_ok (start w))
       [mk_word "hi" 0 0; mk_word "there" (4 # 10) 0]
  /\ Forall (fun w => timestamp_ok (start w)) [mk_word "hello" 1 1]
  /\ exists lines1 lines2 : list string,
    format_words [mk_word "hi" 0 0; mk_word "there" (4 # 10) 0] = Ok lines1
    /\ format_words [mk_word "hello" 1 1] = Ok lines2
    /\ format_words ([mk_word "hi" 0 0; mk_word "there" (4 # 10) 0]
                     ++ [mk_word "hello" 1 1])
       = Ok (lines1 ++ lines2).
Proof.
  assert (H1 : speaker (mk_word "there" (4 # 10) 0) <> speaker (mk_word "hello" 1 1))
    by (simpl; lia).
  assert (H2 : Forall (fun w => timestamp_ok (start w))
                 [mk_word "hi" 0 0; mk_word "there" (4 # 10) 0])
    by (repeat constructor; intros H; vm_compute in H; discriminate H).
  assert (H3 : Forall (fun w => timestamp_ok (start w)) [mk_word "hello" 1 1])
    by (repeat constructor; intros H; vm_compute in H; discriminate H).
  split; [reflexivity|]. split; [reflexivity|]. split; [exact H1|].
  split; [exact H2|]. split; [exact H3|].
  exact (format_words_app [mk_word "hi" 0 0; mk_word "there" (4 # 10) 0]
           [mk_word "hello" 1 1] (mk_word "there" (4 # 10) 0)
           (mk_word "hello" 1 1) eq_refl eq_refl H1 H2 H3).
Defined.

Section Summary.

Lemma str_len_append (a b : string) :
  str_len (a +:+ b) = (str_len a + str_len b)%nat.
Proof.
  induction a as [|x a IH]; [reflexivity|].
  change (String x a +:+ b) with (String x (a +:+ b)). simpl.
  rewrite IH. by destruct (continuation x).
Qed.

Lemma str_take_len (s : string) : forall n : nat,
  str_len (str_take n s) = Nat.min n (str_len s).
Proof.
  induction s as [|x s IH]; intros n; simpl.
  - by rewrite Nat.min_0_r.
  - destruct (continuation x) eqn:Hx.
    + simpl. by rewrite Hx, IH.
    + destruct n as [|m]; [reflexivity|]. simpl. by rewrite Hx, IH.
Qed.

Lemma str_take_all (s : string) : forall n : nat,
  (str_len s <= n)%nat -> str_take n s = s.
Proof.
  induction s as [|x s IH]; intros n Hn; [reflexivity|].
  simpl in *. destruct (continuation x).
  - by rewrite IH.
  - destruct n as [|m]; [lia|]. rewrite IH by lia. reflexivity.
Qed.

(** The part kept by [s[:n]] is a prefix of [s]. *)
Lemma str_take_prefix (s : string) : forall n : nat,
  exists rest : string, s = str_take n s +:+ rest.
Proof.
  induction s as [|x s IH]; intros n; [by exists EmptyString|].
  simpl. destruct (continuation x).
  - destruct (IH n) as [rest Hrest]. exists rest.
    change (String x (str_take n s) +:+ rest)
      with (String x (str_take n s +:+ rest)).
    by rewrite <- Hrest.
  - destruct n as [|m]; [by exists (String x s)|].
    destruct (IH m) as [rest Hrest]. exists rest.
    change (String x (str_take m s) +:+ rest)
      with (String x (str_take m s +:+ rest)).
    by rewrite <- Hrest.
Qed.

End Summary.

(** X4. The summary stored with a refinement keeps the whole feedback when
    it has at most a hundred code points, and otherwise its first hundred
    code points followed by three dots; it never has more than 128 code
    points. *)
Theorem refinement_summary_bounded (user_feedback : string) :
  refinement_summary user_feedback
  = "Updated prompt based on: "
    +:+ (if (str_len user_feedback <=? 100)%nat then user_feedback
         else str_take 100 user_feedback +:+ "...")
  /\ (exists rest : string,
        user_feedback = str_take 100 user_feedback +:+ rest)
  /\ str_len (refinement_summary user_feedback)
     = (25 + Nat.min 100 (str_len user_feedback)
        + (if (str_len user_feedback <=? 100)%nat then 0 else 3))%nat
  /\ (str_len (refinement_summary user_feedback) <= 128)%nat.
Proof.
  assert (Hlen : str_len (refinement_summary user_feedback)
     = (25 + Nat.min 100 (str_len user_feedback)
        + (if (str_len user_feedback <=? 100)%nat then 0 else 3))%nat).
  { unfold refinement_summary. rewrite !str_len_append, str_take_len.
    change (str_len "Updated prompt based on: ") with 25%nat.
    destruct (Nat.leb_spec (str_len user_feedback) 100) as [Hle|Hgt].
    - rewrite (proj2 (Nat.ltb_ge 100 _)) by lia. simpl. lia.
    - rewrite (proj2 (Nat.ltb_lt 100 _)) by lia.
      change (str_len "...") with 3%nat. lia. }
  split; [|split; [apply str_take_prefix | split; [exact Hlen|]]].
  - unfold refinement_summary.
    destruct (Nat.leb_spec (str_len user_feedback) 100) as [Hle|Hgt].
    + rewrite (proj2 (Nat.ltb_ge 100 _)) by lia.
      rewrite str_take_all by assumption. by rewrite append_empty_r.
    + by rewrite (proj2 (Nat.ltb_lt 100 _)) by lia.
  - rewrite Hlen.
    destruct (str_len user_feedback <=? 100)%nat; lia.
Qed.

(** A feedback of 57 Devanagari letters takes 171 bytes and is kept
    whole. *)
Example hindi_feedback_kept_whole :
  String.length example_hindi_feedback = 171%nat
  /\ str_len example_hindi_feedback = 57%nat
  /\ refinement_summary example_hindi_feedback
     = "Updated prompt based on: " +:+ example_hindi_feedback.
Proof. vm_compute. by repeat split. Qed.

(** White space outside ASCII is stripped like a space: a feedback of
    no-break spaces is blank, and around a letter they are removed. *)
Example no_break_space_is_blank :
  strip (no_break_space +:+ " " +:+ no_break_space) = EmptyString
  /\ strip (no_break_space +:+ devanagari_na +:+ no_break_space)
     = devanagari_na.
Proof. split; vm_compute; reflexivity. Qed.

(** ** Further properties of the session state *)

Section Records.

Lemma view_process_files_agent (files : list audio_file) : forall v : view,
  v_agent (view_process_files files v) = v_agent v.
Proof.
  induction files as [|f rest IH]; intros v; [reflexivity|].
  simpl. repeat case_match; try reflexivity; by rewrite IH.
Qed.

Lemma same_call_records (f : audio_file) (formatted : string) :
  same_call (insight_record f formatted) (transcription_record f formatted).
Proof. by split. Qed.

Lemma matching_more (insights transcripts more : list value) :
  Forall (fun r => Exists (same_call r) transcripts) insights ->
  Forall (fun r => Exists (same_call r) (transcripts ++ more)) insights.
Proof.
  intros H. eapply Forall_impl; [exact H|].
  intros r Hex. apply Exists_app. by left.
Qed.

(** The batch loop keeps the stored records well formed, every insight
    matched by a transcription record. *)
Lemma view_process_files_records (files : list audio_file) : forall v : view,
  Forall insight_wf (v_insights v) ->
  Forall transcript_wf (v_transcriptions v) ->
  Forall (fun r => Exists (same_call r) (v_transcriptions v)) (v_insights v) ->
  (length (v_insights v) <= length (v_transcriptions v))%nat ->
  let v' := view_process_files files v in
  Forall insight_wf (v_insights v')
  /\ Forall transcript_wf (v_transcriptions v')
  /\ Forall (fun r => Exists (same_call r) (v_transcriptions v')) (v_insights v')
  /\ (length (v_insights v') <= length (v_transcriptions v'))%nat.
Proof.
  induction files as [|f rest IH]; intros v Hi Ht Hm Hc; [by simpl|].
  simpl.
  destruct (response_truthy (transcription_result f)); [|by apply IH].
  destruct (format_transcript (transcription_result f)) as [formatted|e];
    [|by simpl].
  assert (Ht' : Forall transcript_wf
                  (v_transcriptions v ++ [transcription_record f formatted])).
  { apply Forall_app. split; [assumption|].
    constructor; [|constructor]. by eexists _, _, _. }
  destruct (text_truthy (insights f)) eqn:Hins.
  - apply IH; simpl.
    + apply Forall_app. split; [assumption|].
      constructor; [|constructor].
      unfold insight_record.
      destruct (insights f) as [ins|]; [|discriminate].
      by eexists _, ins, _, _.
    + exact Ht'.
    + apply Forall_app. split; [by apply matching_more|].
      constructor; [|constructor].
      apply Exists_app. right. constructor. apply same_call_records.
    + rewrite !length_app. simpl. lia.
  - apply IH; simpl.
    + assumption.
    + exact Ht'.
    + by apply matching_more.
    + rewrite length_app. simpl. lia.
Qed.

Lemma records_inv_fresh : records_inv fresh_view.
Proof.
  constructor; simpl; try (by left); try constructor; try congruence.
Qed.

Lemma records_inv_with_api (b : bool) (v : view) :
  records_inv v -> records_inv (with_api b v).
Proof. intros []. by constructor. Qed.

Lemma records_inv_with_phase (n : Z) (v : view) :
  records_inv v -> records_inv (with_phase n v).
Proof. intros []. by constructor. Qed.

(** Every run keeps the stored records well formed. *)
Lemma records_inv_step (inp : run_input) (v : view) :
  phase_inv v -> records_inv v -> records_inv (view_step inp v).
Proof.
  intros Hphase Hrec. unfold view_step.
  assert (Hside : phase_inv (view_sidebar inp v)
                  /\ records_inv (view_sidebar inp v)).
  { unfold view_sidebar. destruct (gemini_key inp); [|by split].
    split; [by apply phase_inv_with_api | by apply records_inv_with_api]. }
  revert Hside. generalize (view_sidebar inp v). clear v Hphase Hrec.
  intros v [Hphase Hrec]. unfold view_handler.
  destruct (clicked inp) as [| |n c l g|s t p|fs m| |m| |f r now|s];
    try assumption.
  - apply records_inv_with_api, records_inv_fresh.
  - destruct (text_truthy (v_primary v)) eqn:Hp; [assumption|].
    destruct (str_truthy n && str_truthy c && str_truthy l && str_truthy g)
      eqn:Hall; [|assumption].
    apply andb_true_iff in Hall as [Hall Hg].
    apply andb_true_iff in Hall as [Hall Hl].
    apply andb_true_iff in Hall as [Hn Hc].
    destruct Hrec. constructor; simpl; try assumption.
    + right. by exists n, c, l, g.
    + congruence.
  - destruct (text_truthy (v_primary v)) eqn:Hp; [assumption|].
    destruct (v_agent v) as [|a d] eqn:Hagent; [assumption|]. simpl.
    repeat case_match; try assumption.
    destruct Hrec. constructor; simpl; try assumption.
    + by right.
    + congruence.
    + congruence.
  - destruct (text_truthy (v_primary v)) eqn:Hp; [|assumption]. simpl.
    repeat case_match; try assumption.
    match goal with
    | |- records_inv (view_process_files ?files v) =>
        destruct (view_process_files_frame files v)
          as (Fp & Fm & _ & _ & Fh & [mi Fi] & [mt Ft]);
        pose proof (view_process_files_agent files v) as Fa;
        destruct Hrec;
        destruct (view_process_files_records files v)
          as (Ri & Rt & Rm & Rc); try assumption
    end.
    constructor; rewrite ?Fp, ?Fm, ?Fh, ?Fa; try assumption.
    + rewrite Fi. intros Hh. by apply app_not_nil, ri_history_insights0.
    + intros _. exact Hp.
  - repeat case_match; try assumption. by apply records_inv_with_phase.
  - repeat case_match; try assumption.
    apply records_inv_with_phase.
    destruct Hrec. constructor; simpl; try assumption. by right.
  - repeat case_match; try assumption.
    destruct Hrec. constructor; simpl; try assumption. by left.
  - destruct (text_truthy (v_master v)) eqn:Hm; [|assumption]. simpl.
    destruct (str_truthy (strip f)) eqn:Hf; [|assumption]. simpl.
    destruct (v_api v); [|assumption]. simpl.
    destruct (text_truthy r) eqn:Hr; [|assumption].
    destruct Hrec. constructor; simpl; try assumption.
    + by right.
    + apply Forall_app. split; [assumption|].
      constructor; [|constructor].
      destruct (v_master v) as [o|]; [|discriminate].
      destruct r as [new|]; [|discriminate].
      by exists f, o, new, now.
    + intros _. destruct Hphase as (_ & _ & _ & _ & Hmast). by apply Hmast.
Qed.

(** Every reachable state has a typed content that satisfies both
    invariants. *)
Lemma reachable_records (st : session) :
  reachable st ->
  exists v, represents v st /\ phase_inv v /\ records_inv v.
Proof.
  induction 1 as [|inp st Hreach (v & Hrep & Hphase & Hrec)].
  - exists fresh_view.
    split; [apply fresh_represents|].
    split; [apply phase_inv_fresh | apply records_inv_fresh].
  - exists (view_step inp v).
    split; [by apply step_sim|].
    split; [by apply phase_inv_step | by apply records_inv_step].
Qed.

End Records.

Section Reads.

Lemma present_text (o : option string) :
  present (Some (value_of_text o)) = text_truthy o.
Proof. by destruct o. Qed.

Lemma present_items (l : list value) :
  present (Some (VList l)) = true <-> l <> [].
Proof. destruct l; simpl; split; congruence. Qed.

Lemma present_dict (d : list (string * value)) :
  present (Some (VDict d)) = true <-> d <> [].
Proof. destruct d; simpl; split; congruence. Qed.

Lemma text_ok_not_empty (o : option string) :
  text_ok o -> Some (value_of_text o) <> Some (VStr EmptyString).
Proof.
  intros [-> | Ht]; [discriminate|].
  destruct o as [s|]; [|discriminate].
  destruct s; [discriminate|]. simpl. congruence.
Qed.

End Reads.

(** X5. In every reachable state the artifacts depend on those of the
    earlier phases: a master prompt or a refinement exists only together
    with at least one insight, an insight or a transcript only together
    with a primary prompt, and a primary prompt only together with saved
    agent details. A stored primary or master prompt is never the empty
    string. *)
Theorem artifacts_depend_on_earlier_phases (st : session) :
  reachable st ->
  (present (master_prompt_of st) = true ->
   present (call_insights_of st) = true)
  /\ (present (refinement_history_of st) = true ->
      present (call_insights_of st) = true)
  /\ (present (call_insights_of st) = true ->
      present (primary_prompt_of st) = true)
  /\ (present (transcriptions_of st) = true ->
      present (primary_prompt_of st) = true)
  /\ (present (primary_prompt_of st) = true ->
      present (st !! "agent_details") = true)
  /\ primary_prompt_of st <> Some (VStr EmptyString)
  /\ master_prompt_of st <> Some (VStr EmptyString).
Proof.
  intros Hreach.
  destruct (reachable_records st Hreach) as (v & Hrep & Hphase & Hrec).
  destruct Hrep as (Hp & Hm & Hi & Ht & _ & _ & Hag & Hh & _).
  destruct Hphase as (_ & _ & Hnone & _ & Hmast).
  destruct Hrec.
  unfold master_prompt_of, call_insights_of, refinement_history_of,
    primary_prompt_of, transcriptions_of.
  rewrite Hp, Hm, Hi, Ht, Hag, Hh, !present_text.
  rewrite !present_items, present_dict.
  repeat split; try assumption; try (by apply text_ok_not_empty).
  intros Hne. destruct (text_truthy (v_primary v)); [reflexivity|].
  destruct (Hnone eq_refl). congruence.
Qed.

Lemma artifacts_depend_on_earlier_phases_witness :
  reachable master_state
  /\ (present (master_prompt_of master_state) = true ->
      present (call_insights_of master_state) = true)
  /\ (present (refinement_history_of master_state) = true ->
      present (call_insights_of master_state) = true)
  /\ (present (call_insights_of master_state) = true ->
      present (primary_prompt_of master_state) = true)
  /\ (present (transcriptions_of master_state) = true ->
      present (primary_prompt_of master_state) = true)
  /\ (present (primary_prompt_of master_state) = true ->
      present (master_state !! "agent_details") = true)
  /\ primary_prompt_of master_state <> Some (VStr EmptyString)
  /\ master_prompt_of master_state <> Some (VStr EmptyString).
Proof.
  split; [apply master_reachable|].
  exact (artifacts_depend_on_earlier_phases master_state master_reachable).
Defined.

(** X6. In every reachable state every insight record is matched by a
    transcription record with the same file name and the same transcript,
    and there are never more insights than transcripts. *)
Theorem every_insight_has_its_transcript (st : session) :
  reachable st ->
  exists insights transcripts : list value,
    call_insights_of st = Some (VList insights)
    /\ transcriptions_of st = Some (VList transcripts)
    /\ (length insights <= length transcripts)%nat
    /\ Forall (fun r => Exists (same_call r) transcripts) insights.
Proof.
  intros Hreach.
  destruct (reachable_records st Hreach) as (v & Hrep & _ & Hrec).
  destruct Hrep as (_ & _ & Hi & Ht & _). destruct Hrec.
  by exists (v_insights v), (v_transcriptions v).
Qed.

Lemma every_insight_has_its_transcript_witness :
  reachable analysed_state
  /\ exists insights transcripts : list value,
    call_insights_of analysed_state = Some (VList insights)
    /\ transcriptions_of analysed_state = Some (VList transcripts)
    /\ (length insights <= length transcripts)%nat
    /\ Forall (fun r => Exists (same_call r) transcripts) insights.
Proof.
  split; [apply analysed_reachable|].
  exact (every_insight_has_its_transcript analysed_state analysed_reachable).
Defined.

Section Readers.

Lemma all_insights_wf (calls : list value) :
  Forall insight_wf calls ->
  exists texts : list string,
    all_insights calls = Ok (map VStr texts)
    /\ length texts = length calls
    /\ Forall (fun s => str_truthy s = true) texts.
Proof.
  induction 1 as [|call rest (fn & ins & tr & ts & -> & Hins) _
                    (texts & Hall & Hlen & Htexts)].
  - by exists [].
  - exists (ins :: texts). simpl. rewrite Hall. simpl.
    split; [reflexivity|]. split; [by rewrite Hlen | by constructor].
Qed.

Lemma strings_of_strs (texts : list string) :
  strings_of (map VStr texts) = Ok texts.
Proof.
  induction texts as [|s texts IH]; [reflexivity|].
  simpl. by rewrite IH.
Qed.

End Readers.

(** X7. In every reachable state each insight record holds the four keys
    that its readers subscript, with a non-empty insight text: collecting
    the insights before the master prompt is generated raises neither
    [KeyError] nor [TypeError], yields one non-empty text per analysed
    call, and joining them succeeds. *)
Theorem insights_can_always_be_combined (st : session) :
  reachable st ->
  exists (calls : list value) (texts : list string),
    call_insights_of st = Some (VList calls)
    /\ Forall insight_wf calls
    /\ all_insights calls = Ok (map VStr texts)
    /\ length texts = length calls
    /\ Forall (fun s => str_truthy s = true) texts
    /\ (let? collected := all_insights calls in combined_insights collected)
       = Ok (join insights_separator texts).
Proof.
  intros Hreach.
  destruct (reachable_records st Hreach) as (v & Hrep & _ & Hrec).
  destruct Hrep as (_ & _ & Hi & _). destruct Hrec.
  destruct (all_insights_wf (v_insights v) ri_insights0)
    as (texts & Hall & Hlen & Htexts).
  exists (v_insights v), texts.
  split; [exact Hi|]. split; [assumption|]. split; [exact Hall|].
  split; [exact Hlen|]. split; [exact Htexts|].
  rewrite Hall. simpl. unfold combined_insights.
  by rewrite strings_of_strs.
Qed.

Lemma insights_can_always_be_combined_witness :
  reachable analysed_state
  /\ exists (calls : list value) (texts : list string),
    call_insights_of analysed_state = Some (VList calls)
    /\ Forall insight_wf calls
    /\ all_insights calls = Ok (map VStr texts)
    /\ length texts = length calls
    /\ Forall (fun s => str_truthy s = true) texts
    /\ (let? collected := all_insights calls in combined_insights collected)
       = Ok (join insights_separator texts).
Proof.
  split; [apply analysed_reachable|].
  exact (insights_can_always_be_combined analysed_state analysed_reachable).
Defined.

(** X8. In every reachable state every refinement record holds a non-blank
    feedback, a non-empty old prompt, a non-empty new prompt and the
    summary of its feedback, and every transcription record holds a file
    name, a transcript and a time. *)
Theorem stored_records_are_well_formed (st : session) :
  reachable st ->
  exists history transcripts : list value,
    refinement_history_of st = Some (VList history)
    /\ Forall refinement_wf history
    /\ transcriptions_of st = Some (VList transcripts)
    /\ Forall transcript_wf transcripts.
Proof.
  intros Hreach.
  destruct (reachable_records st Hreach) as (v & Hrep & _ & Hrec).
  destruct Hrep as (_ & _ & _ & Ht & _ & _ & _ & Hh & _). destruct Hrec.
  by exists (v_history v), (v_transcriptions v).
Qed.

Lemma stored_records_are_well_formed_witness :
  reachable refined_state
  /\ exists history transcripts : list value,
    refinement_history_of refined_state = Some (VList history)
    /\ Forall refinement_wf history
    /\ transcriptions_of refined_state = Some (VList transcripts)
    /\ Forall transcript_wf transcripts.
Proof.
  assert (H : reachable refined_state)
    by (constructor; apply master_reachable).
  split; [exact H | exact (stored_records_are_well_formed refined_state H)].
Defined.

(** X9. In every reachable state the agent details are either empty or
    hold a non-empty name, company, language and category; once a primary
    prompt exists they are not empty, so the look-ups with a default that
    the generation helpers make return the saved values, never the
    defaults. *)
Theorem agent_details_all_or_nothing (st : session) :
  reachable st ->
  exists d : list (string * value),
    st !! "agent_details" = Some (VDict d)
    /\ agent_wf d
    /\ (present (primary_prompt_of st) = true ->
        exists n c l g : string,
          d = agent_dict n c l g
          /\ dict_get_default "name" (VStr "Agent") d = VStr n
          /\ dict_get_default "company" (VStr "Company") d = VStr c
          /\ dict_get_default "language" (VStr "Hinglish") d = VStr l
          /\ dict_get_default "category" (VStr "General") d = VStr g
          /\ str_truthy n = true /\ str_truthy c = true
          /\ str_truthy l = true /\ str_truthy g = true).
Proof.
  intros Hreach.
  destruct (reachable_records st Hreach) as (v & Hrep & _ & Hrec).
  destruct Hrep as (Hp & _ & _ & _ & _ & _ & Hag & _). destruct Hrec.
  exists (v_agent v). split; [exact Hag|]. split; [assumption|].
  unfold primary_prompt_of. rewrite Hp, present_text. intros Hprimary.
  destruct ri_agent0 as [Hnil | (n & c & l & g & Hd & Hn & Hc & Hl & Hg)].
  - by destruct (ri_agent_primary0 Hprimary).
  - exists n, c, l, g. rewrite Hd. by repeat split.
Qed.

Lemma agent_details_all_or_nothing_witness :
  reachable primary_state
  /\ exists d : list (string * value),
    primary_state !! "agent_details" = Some (VDict d)
    /\ agent_wf d
    /\ (present (primary_prompt_of primary_state) = true ->
        exists n c l g : string,
          d = agent_dict n c l g
          /\ dict_get_default "name" (VStr "Agent") d = VStr n
          /\ dict_get_default "company" (VStr "Company") d = VStr c
          /\ dict_get_default "language" (VStr "Hinglish") d = VStr l
          /\ dict_get_default "category" (VStr "General") d = VStr g
          /\ str_truthy n = true /\ str_truthy c = true
          /\ str_truthy l = true /\ str_truthy g = true).
Proof.
  split; [apply setup_reachable|].
  exact (agent_details_all_or_nothing primary_state setup_reachable).
Defined.

Section Frames.

Lemma view_handler_api (inp : run_input) (v : view) :
  v_api (view_handler inp v) = v_api v.
Proof.
  unfold view_handler.
  destruct (clicked inp); repeat case_match; try reflexivity.
  match goal with
  | |- context [view_process_files ?files ?w] =>
      by destruct (view_process_files_frame files w) as (_ & _ & _ & -> & _)
  end.
Qed.

Lemma view_step_api (inp : run_input) (v : view) :
  v_api (view_step inp v) = if gemini_key inp then gemini_ok inp else v_api v.
Proof.
  unfold view_step. rewrite view_handler_api. unfold view_sidebar.
  by destruct (gemini_key inp).
Qed.

(** What a run other than a reset leaves in place. *)
Lemma view_step_between_resets (inp : run_input) (v : view) :
  clicked inp <> ResetAllProgress ->
  phase_inv v ->
  (exists more, v_insights (view_step inp v) = v_insights v ++ more)
  /\ (exists more, v_history (view_step inp v) = v_history v ++ more
                   /\ (length more <= 1)%nat)
  /\ (text_truthy (v_primary v) = true ->
      v_primary (view_step inp v) = v_primary v
      /\ v_agent (view_step inp v) = v_agent v)
  /\ (2 <= v_phase v -> 2 <= v_phase (view_step inp v))
  /\ (3 <= v_phase v -> 3 <= v_phase (view_step inp v)).
Proof.
  intros Hnot Hinv. unfold view_step.
  destruct (view_sidebar_frame inp v) as (Sp & Sm & Si & St & Sph & Sh).
  assert (Sa : v_agent (view_sidebar inp v) = v_agent v).
  { unfold view_sidebar. by destruct (gemini_key inp). }
  rewrite <- Sp, <- Si, <- Sph, <- Sh, <- Sa.
  assert (Hside : phase_inv (view_sidebar inp v)).
  { unfold view_sidebar. destruct (gemini_key inp); [|assumption].
    by apply phase_inv_with_api. }
  revert Hside. generalize (view_sidebar inp v).
  clear v Hinv Sp Sm Si St Sph Sh Sa.
  intros v (Hrange & Hone & Hnone & Hthree & Hmast).
  unfold view_handler.
  destruct (clicked inp) as [| |n c l g|s t p|fs m| |m| |f r now|s];
    try congruence.
  all: repeat case_match; simpl.
  all: try match goal with
       | |- context [view_process_files ?files ?w] =>
           destruct (view_process_files_frame files w)
             as (Fp & Fm & Fph & _ & Fh & Fi & _);
           pose proof (view_process_files_agent files w) as Fa;
           rewrite Fp, Fph, Fh, Fa
       end.
  all: repeat split; intros;
    try (exists []; rewrite app_nil_r; (reflexivity || (split; [reflexivity | simpl; lia])));
    try assumption; try lia; try congruence.
  all: try (eexists; split; [reflexivity | simpl; lia]).
  all: try (exists []; rewrite ?app_nil_r; congruence).
  all: try (assert (v_phase v = 1) by (by apply Hone); lia).
Qed.

End Frames.

(** X10. Between resets the insight list and the refinement history only
    grow: a run that is not a reset leaves every stored insight and every
    stored refinement record in place and in order, and adds at most one
    refinement record. *)
Theorem records_are_append_only (st : session) (inp : run_input) :
  reachable st ->
  clicked inp <> ResetAllProgress ->
  exists insights more_insights history more_history : list value,
    call_insights_of st = Some (VList insights)
    /\ call_insights_of (step inp st) = Some (VList (insights ++ more_insights))
    /\ refinement_history_of st = Some (VList history)
    /\ refinement_history_of (step inp st)
       = Some (VList (history ++ more_history))
    /\ (length more_history <= 1)%nat.
Proof.
  intros Hreach Hnot.
  destruct (reachable_view st Hreach) as (v & Hrep & Hinv).
  pose proof (step_sim inp v st Hrep) as (_ & _ & Hi' & _ & _ & _ & _ & Hh' & _).
  destruct Hrep as (_ & _ & Hi & _ & _ & _ & _ & Hh & _).
  destruct (view_step_between_resets inp v Hnot Hinv)
    as ([mi Hmi] & (mh & Hmh & Hlen) & _).
  exists (v_insights v), mi, (v_history v), mh.
  unfold call_insights_of, refinement_history_of.
  rewrite Hi, Hi', Hh, Hh', Hmi, Hmh. by repeat split.
Qed.

Lemma records_are_append_only_witness :
  reachable master_state
  /\ clicked (press (RefinePrompt "be less pushy" (Some "MASTER v2") 20))
     <> ResetAllProgress
  /\ exists insights more_insights history more_history : list value,
    call_insights_of master_state = Some (VList insights)
    /\ call_insights_of
         (step (press (RefinePrompt "be less pushy" (Some "MASTER v2") 20))
            master_state)
       = Some (VList (insights ++ more_insights))
    /\ refinement_history_of master_state = Some (VList history)
    /\ refinement_history_of
         (step (press (RefinePrompt "be less pushy" (Some "MASTER v2") 20))
            master_state)
       = Some (VList (history ++ more_history))
    /\ (length more_history <= 1)%nat.
Proof.
  assert (H : clicked (press (RefinePrompt "be less pushy" (Some "MASTER v2") 20))
              <> ResetAllProgress) by discriminate.
  split; [apply master_reachable|]. split; [exact H|].
  exact (records_are_append_only master_state _ master_reachable H).
Defined.

(** X11. Once a primary prompt exists it is write-once: no run other than
    a reset changes the primary prompt or the agent details. *)
Theorem primary_prompt_is_write_once (st : session) (inp : run_input) :
  reachable st ->
  present (primary_prompt_of st) = true ->
  clicked inp <> ResetAllProgress ->
  primary_prompt_of (step inp st) = primary_prompt_of st
  /\ step inp st !! "agent_details" = st !! "agent_details".
Proof.
  intros Hreach Hprimary Hnot.
  destruct (reachable_view st Hreach) as (v & Hrep & Hinv).
  pose proof (step_sim inp v st Hrep) as (Hp' & _ & _ & _ & _ & _ & Hag' & _).
  destruct Hrep as (Hp & _ & _ & _ & _ & _ & Hag & _).
  unfold primary_prompt_of in *. rewrite Hp, present_text in Hprimary.
  destruct (view_step_between_resets inp v Hnot Hinv)
    as (_ & _ & Hfrozen & _).
  destruct (Hfrozen Hprimary) as [Fp Fa].
  by rewrite Hp, Hp', Hag, Hag', Fp, Fa.
Qed.

Lemma primary_prompt_is_write_once_witness :
  reachable primary_state
  /\ present (primary_prompt_of primary_state) = true
  /\ clicked (press (GeneratePrimaryPrompt "script 2" "template 2"
                       (Some "PRIMARY 2")))
     <> ResetAllProgress
  /\ primary_prompt_of
       (step (press (GeneratePrimaryPrompt "script 2" "template 2"
                       (Some "PRIMARY 2"))) primary_state)
     = primary_prompt_of primary_state
  /\ step (press (GeneratePrimaryPrompt "script 2" "template 2"
                    (Some "PRIMARY 2"))) primary_state !! "agent_details"
     = primary_state !! "agent_details".
Proof.
  assert (H1 : present (primary_prompt_of primary_state) = true)
    by (vm_compute; reflexivity).
  assert (H2 : clicked (press (GeneratePrimaryPrompt "script 2" "template 2"
                                 (Some "PRIMARY 2")))
               <> ResetAllProgress) by discriminate.
  split; [apply setup_reachable|]. split; [exact H1|]. split; [exact H2|].
  exact (primary_prompt_is_write_once primary_state _ setup_reachable H1 H2).
Defined.

(** X12. The flag that says the generative model is configured is set by
    the sidebar only: after a run with a key it tells whether
    [configure_gemini] succeeded in that run; after a run without a key it
    keeps its previous value, whatever button was pressed. In particular a
    reset does not clear it. *)
Theorem api_flag_follows_the_sidebar (st : session) (inp : run_input) :
  reachable st ->
  step inp st !! "api_configured"
  = if gemini_key inp then Some (VBool (gemini_ok inp))
    else st !! "api_configured".
Proof.
  intros Hreach.
  destruct (reachable_view st Hreach) as (v & Hrep & _).
  pose proof (step_sim inp v st Hrep) as (_ & _ & _ & _ & Ha' & _).
  destruct Hrep as (_ & _ & _ & _ & Ha & _).
  rewrite Ha', Ha, view_step_api. by destruct (gemini_key inp).
Qed.

Lemma api_flag_follows_the_sidebar_witness :
  reachable master_state
  /\ step (mk_input false false false ResetAllProgress) master_state
       !! "api_configured"
     = if gemini_key (mk_input false false false ResetAllProgress)
       then Some (VBool (gemini_ok (mk_input false false false ResetAllProgress)))
       else master_state !! "api_configured".
Proof.
  split; [apply master_reachable|].
  exact (api_flag_follows_the_sidebar master_state
           (mk_input false false false ResetAllProgress) master_reachable).
Defined.

(** X13. Between resets the stored phase never falls back below 2, and
    once it has reached 3 it never falls back below 3. *)
Theorem phase_does_not_fall_back (st : session) (inp : run_input) :
  reachable st ->
  clicked inp <> ResetAllProgress ->
  exists n n' : Z,
    current_phase_of st = Some (VInt n)
    /\ current_phase_of (step inp st) = Some (VInt n')
    /\ (2 <= n -> 2 <= n')
    /\ (3 <= n -> 3 <= n').
Proof.
  intros Hreach Hnot.
  destruct (reachable_view st Hreach) as (v & Hrep & Hinv).
  pose proof (step_sim inp v st Hrep) as (_ & _ & _ & _ & _ & Hph' & _).
  destruct Hrep as (_ & _ & _ & _ & _ & Hph & _).
  destruct (view_step_between_resets inp v Hnot Hinv)
    as (_ & _ & _ & H2 & H3).
  by exists (v_phase v), (v_phase (view_step inp v)).
Qed.

Lemma phase_does_not_fall_back_witness :
  reachable master_state
  /\ clicked (press ProceedToPhase3) <> ResetAllProgress
  /\ exists n n' : Z,
    current_phase_of master_state = Some (VInt n)
    /\ current_phase_of (step (press ProceedToPhase3) master_state)
       = Some (VInt n')
    /\ (2 <= n -> 2 <= n')
    /\ (3 <= n -> 3 <= n').
Proof.
  assert (H : clicked (press ProceedToPhase3) <> ResetAllProgress)
    by discriminate.
  split; [apply master_reachable|]. split; [exact H|].
  exact (phase_does_not_fall_back master_state _ master_reachable H).
Defined.

(** X14. A single-shot action whose model call fails, or returns an empty
    text, changes nothing: generating the primary prompt, generating the
    master prompt and refining leave the session state exactly as it was,
    whatever it was. *)
Theorem failed_generation_changes_nothing
    (st : session) (script_content template_content user_feedback : string)
    (answer : option string) (now : Z) :
  text_truthy answer = false ->
  exec (generate_primary script_content template_content answer) st = st
  /\ exec (generate_master answer) st = st
  /\ exec (refine_prompt user_feedback answer now) st = st.
Proof.
  intros Hans.
  unfold exec, generate_primary, generate_master, refine_prompt, len.
  unfold bind, getattr, ret, raise. rewrite Hans.
  repeat split; repeat (case_match; simpl in *; simplify_eq); reflexivity.
Qed.

Lemma failed_generation_changes_nothing_witness :
  text_truthy None = false
  /\ exec (generate_primary "script" "template" None) master_state = master_state
  /\ exec (generate_master None) master_state = master_state
  /\ exec (refine_prompt "be less pushy" None 20) master_state = master_state.
Proof.
  split; [reflexivity|].
  exact (failed_generation_changes_nothing master_state "script" "template"
           "be less pushy" None 20 eq_refl).
Defined.

(** X15. Rejected input changes nothing: a blank script or template, a
    blank feedback, or an agent form with an empty field leave the session
    state exactly as it was. *)
Theorem rejected_input_changes_nothing
    (st : session) (script_content template_content user_feedback : string)
    (agent_name company_name agent_language prompt_category : string)
    (answer : option string) (now : Z) :
  str_truthy (strip script_content) && str_truthy (strip template_content)
  = false ->
  str_truthy (strip user_feedback) = false ->
  str_truthy agent_name && str_truthy company_name
  && str_truthy agent_language && str_truthy prompt_category = false ->
  exec (generate_primary script_content template_content answer) st = st
  /\ exec (refine_prompt user_feedback answer now) st = st
  /\ exec (save_agent_details agent_name company_name agent_language
             prompt_category) st = st.
Proof.
  intros Hblank Hfeedback Hagent.
  unfold exec, generate_primary, refine_prompt, save_agent_details.
  unfold bind, getattr, ret, raise. rewrite Hfeedback, Hagent.
  apply andb_false_iff in Hblank.
  repeat split; repeat (case_match; simpl in *; simplify_eq);
    try reflexivity.
  repeat match goal with
         | Hneg : negb _ = false |- _ => apply negb_false_iff in Hneg
         end.
  destruct Hblank; congruence.
Qed.

Lemma rejected_input_changes_nothing_witness :
  str_truthy (strip "   ") && str_truthy (strip "template") = false
  /\ str_truthy (strip " ") = false
  /\ str_truthy "Riya" && str_truthy EmptyString
     && str_truthy "English" && str_truthy "Survey & Feedback" = false
  /\ exec (generate_primary "   " "template" (Some "PRIMARY")) fresh_session
     = fresh_session
  /\ exec (refine_prompt " " (Some "MASTER v2") 20) fresh_session = fresh_session
  /\ exec (save_agent_details "Riya" EmptyString "English" "Survey & Feedback")
       fresh_session
     = fresh_session.
Proof.
  split; [reflexivity|]. split; [reflexivity|]. split; [reflexivity|].
  exact (rejected_input_changes_nothing fresh_session "   " "template" " "
           "Riya" EmptyString "English" "Survey & Feedback" (Some "PRIMARY") 20
           eq_refl eq_refl eq_refl).
Defined.

Section Boxes.

Lemma display_workflow_progress_run (v : view) (st : session) :
  represents v st ->
  display_workflow_progress st = (Ok (view_boxes v), st).
Proof.
  intros (Hp & Hm & Hi & _ & _ & Hph & _).
  unfold display_workflow_progress, view_boxes, len.
  unfold bind, getattr, ret, raise.
  destruct (text_truthy (v_primary v)) eqn:Hpt,
    (text_truthy (v_master v)) eqn:Hmt, (v_insights v) as [|call calls];
    repeat (progress (rewrite ?Hp, ?Hm, ?Hi, ?Hph, ?truthy_value_of_text,
                        ?Hpt, ?Hmt; simpl));
    reflexivity.
Qed.

End Boxes.

(** X16. In every reachable state [display_workflow_progress] raises
    nothing and draws consistent boxes: the first box is completed or
    highlighted, a later box is completed only if the earlier ones are, the
    fourth box is never completed, and at most one box is highlighted. *)
Theorem workflow_boxes_are_consistent (st : session) :
  reachable st ->
  exists col1 col2 col3 col4 : step_box,
    display_workflow_progress st = (Ok (col1, col2, col3, col4), st)
    /\ (col1 = Completed \/ col1 = CurrentStep)
    /\ (col3 = Completed -> col2 = Completed)
    /\ (col2 = Completed -> col1 = Completed)
    /\ col4 <> Completed
    /\ (highlighted col1 + highlighted col2 + highlighted col3
        + highlighted col4 <= 1)%nat.
Proof.
  intros Hreach.
  destruct (reachable_view st Hreach) as (v & Hrep & Hinv).
  rewrite (display_workflow_progress_run v st Hrep).
  destruct Hinv as (Hrange & Hone & Hnone & Hthree & Hmast).
  unfold view_boxes, step_class, equals_int. cbv zeta.
  eexists _, _, _, _. split; [reflexivity|].
  destruct (text_truthy (v_primary v)) eqn:Hp.
  - destruct (text_truthy (v_master v)) eqn:Hm.
    + destruct (v_insights v); [by destruct (Hmast eq_refl)|].
      repeat split; try tauto; try (by destruct (v_phase v =? 4)).
      destruct (v_phase v =? 4); simpl; lia.
    + destruct (v_insights v).
      * repeat split; try tauto; try discriminate.
        destruct (v_phase v =? 2); simpl; lia.
      * repeat split; try tauto; try discriminate.
        destruct (v_phase v =? 3); simpl; lia.
  - destruct (Hnone eq_refl) as [-> ->].
    assert (Hph : v_phase v = 1) by (by apply Hone).
    rewrite Hph. simpl. repeat split; try tauto; try discriminate. lia.
Qed.

Lemma workflow_boxes_are_consistent_witness :
  reachable analysed_state
  /\ exists col1 col2 col3 col4 : step_box,
    display_workflow_progress analysed_state
    = (Ok (col1, col2, col3, col4), analysed_state)
    /\ (col1 = Completed \/ col1 = CurrentStep)
    /\ (col3 = Completed -> col2 = Completed)
    /\ (col2 = Completed -> col1 = Completed)
    /\ col4 <> Completed
    /\ (highlighted col1 + highlighted col2 + highlighted col3
        + highlighted col4 <= 1)%nat.
Proof.
  split; [apply analysed_reachable|].
  exact (workflow_boxes_are_consistent analysed_state analysed_reachable).
Defined.

Section Accounting.

Lemma count_process_files_ok (files : list audio_file) :
  forall (successful failed successful' failed' : nat) (v : view),
  count_process_files files successful failed = Ok (successful', failed') ->
  successful' = (successful + length (List.filter analysed files))%nat
  /\ (successful' + failed' = successful + failed + length files)%nat
  /\ exists new_insights new_transcripts,
       view_process_files files v
       = with_insights (v_insights v ++ new_insights)
           (with_transcriptions (v_transcriptions v ++ new_transcripts) v)
       /\ length new_insights = length (List.filter analysed files)
       /\ length new_transcripts = length (List.filter transcribed files).
Proof.
  induction files as [|f rest IH]; intros s k s' k' v Hcount.
  - simpl in Hcount. injection Hcount as <- <-. simpl.
    split; [lia|]. split; [lia|]. exists [], [].
    rewrite !app_nil_r. by destruct v.
  - simpl in Hcount. simpl view_process_files.
    simpl List.filter.
    change (analysed f)
      with (response_truthy (transcription_result f)
            && text_truthy (insights f)).
    change (transcribed f) with (response_truthy (transcription_result f)).
    destruct (response_truthy (transcription_result f)) eqn:Ht; simpl.
    + destruct (format_transcript (transcription_result f)) as [formatted|e];
        [|discriminate].
      destruct (text_truthy (insights f)) eqn:Hi; simpl.
      * destruct (IH _ _ _ _
                    (with_insights
                       (v_insights v ++ [insight_record f formatted])
                       (with_transcriptions
                          (v_transcriptions v
                           ++ [transcription_record f formatted]) v)) Hcount)
          as (-> & Hsum & ni & nt & -> & Hni & Hnt).
        split; [lia|]. split; [lia|].
        exists (insight_record f formatted :: ni),
               (transcription_record f formatted :: nt).
        simpl. rewrite <- !app_assoc. simpl. rewrite Hni, Hnt.
        split; [by destruct v | by split].
      * destruct (IH _ _ _ _
                    (with_transcriptions
                       (v_transcriptions v
                        ++ [transcription_record f formatted]) v) Hcount)
          as (-> & Hsum & ni & nt & -> & Hni & Hnt).
        split; [lia|]. split; [lia|].
        exists ni, (transcription_record f formatted :: nt).
        simpl. rewrite <- !app_assoc. simpl. rewrite Hni, Hnt.
        split; [by destruct v | by split].
    + destruct (IH _ _ _ _ v Hcount) as (-> & Hsum & ni & nt & -> & Hni & Hnt).
      split; [lia|]. split; [lia|]. by exists ni, nt.
Qed.

Lemma analyze_calls_report (dk : bool) (fs : list audio_file)
    (m : process_mode) (v : view) (st : session) (successful failed : nat) :
  represents v st ->
  fst (analyze_calls dk fs m st) = Ok (BatchReport successful failed) ->
  text_truthy (v_primary v) = true /\ dk = true /\ v_api v = true
  /\ fs <> []
  /\ exists files, files_to_process fs m = Ok files
       /\ count_process_files files 0 0 = Ok (successful, failed).
Proof.
  intros H. pose proof H as H'.
  destruct H as (Hprimary & _ & _ & _ & Hapi & _).
  unfold analyze_calls. unfold bind at 1, getattr at 1.
  rewrite Hprimary, truthy_value_of_text.
  destruct (text_truthy (v_primary v)); simpl; [|discriminate].
  destruct fs as [|f0 fs0]; [discriminate|].
  destruct dk; simpl; [|discriminate].
  unfold bind at 1, getattr at 1. rewrite Hapi. simpl.
  destruct (v_api v); simpl; [|discriminate].
  assert (Hloop : forall files,
    fst (bind (process_files files 0 0)
           (fun counts => ret (BatchReport (fst counts) (snd counts))) st)
    = Ok (BatchReport successful failed) ->
    count_process_files files 0 0 = Ok (successful, failed)).
  { intros files. unfold bind, ret.
    destruct (process_files_runs files 0%nat 0%nat v st H') as [Hr _].
    destruct (process_files files 0%nat 0%nat st) as [r st'].
    simpl in Hr. rewrite <- Hr. destruct r as [[s k]|e]; simpl; [|discriminate].
    congruence. }
  destruct m as [|i]; simpl.
  - intros Hrun. repeat split; try congruence.
    exists (f0 :: fs0). split; [reflexivity|]. by apply Hloop.
  - destruct ((f0 :: fs0) !! i) as [f|] eqn:Hi.
    + intros Hrun. repeat split; try congruence.
      exists [f]. split; [reflexivity|]. by apply Hloop.
    + unfold bind, raise. simpl. discriminate.
Qed.

End Accounting.

(** X17. When formatting the transcript of a file raises (the transcription
    result has no channel, no alternative, or a timestamp out of range),
    the run of the analysis button ends with that exception: the records
    of the files before it stay stored, and nothing is stored for that file
    or for the files after it. *)
Theorem batch_stops_at_format_exception
    (st : session) (before after : list audio_file) (bad : audio_file)
    (e : Py.exn) (old_insights old_transcripts : list value) :
  reachable st ->
  present (primary_prompt_of st) = true ->
  call_insights_of st = Some (VList old_insights) ->
  transcriptions_of st = Some (VList old_transcripts) ->
  response_truthy (transcription_result bad) = true ->
  format_transcript (transcription_result bad) = Raise e ->
  Forall file_succeeds before ->
  fst (main (press (AnalyzeCalls (before ++ bad :: after) ProcessAllAtOnce)) st)
  = Raise e
  /\ call_insights_of
       (step (press (AnalyzeCalls (before ++ bad :: after) ProcessAllAtOnce)) st)
     = Some (VList (old_insights ++ map stored_insight before))
  /\ transcriptions_of
       (step (press (AnalyzeCalls (before ++ bad :: after) ProcessAllAtOnce)) st)
     = Some (VList (old_transcripts ++ map stored_transcript before)).
Proof.
  intros Hreach Hprimary Hinsights Htrans Htruthy Hfmt Hbefore.
  destruct (reachable_view st Hreach) as (v & Hrep & _).
  set (files := before ++ bad :: after).
  set (inp := press (AnalyzeCalls files ProcessAllAtOnce)).
  assert (Hvp : text_truthy (v_primary v) = true).
  { destruct Hrep as (Hp & _). unfold primary_prompt_of in Hprimary.
    rewrite Hp in Hprimary. simpl in Hprimary.
    by rewrite truthy_value_of_text in Hprimary. }
  assert (Hvi : v_insights v = old_insights).
  { destruct Hrep as (_ & _ & Hi & _). unfold call_insights_of in Hinsights.
    rewrite Hi in Hinsights. congruence. }
  assert (Hvt : v_transcriptions v = old_transcripts).
  { destruct Hrep as (_ & _ & _ & Ht & _). unfold transcriptions_of in Htrans.
    rewrite Ht in Htrans. congruence. }
  assert (Hcount : count_process_files files 0 0 = Raise e).
  { unfold files. rewrite count_success_prefix by assumption.
    simpl. by rewrite Htruthy, Hfmt. }
  assert (Hview : view_process_files files (with_api true v)
                  = with_insights (old_insights ++ map stored_insight before)
                      (with_transcriptions
                         (old_transcripts ++ map stored_transcript before)
                         (with_api true v))).
  { unfold files. rewrite view_success_prefix by assumption.
    simpl. rewrite Htruthy, Hfmt. simpl. by rewrite Hvi, Hvt. }
  assert (Hstep : view_step inp v = view_process_files files (with_api true v)).
  { unfold view_step, view_handler, view_sidebar. simpl.
    rewrite Hvp. simpl. destruct files eqn:Hfiles; [by destruct before|].
    reflexivity. }
  split.
  { rewrite main_run. simpl clicked. simpl deepgram_key.
    rewrite (analyze_all_returns files (with_api true v)).
    - by rewrite Hcount.
    - destruct (sidebar_runs inp v st Hrep) as [_ Hside]. exact Hside.
    - exact Hvp.
    - reflexivity.
    - unfold files. by destruct before. }
  pose proof (step_sim inp v st Hrep) as (_ & _ & Hi' & Ht' & _).
  rewrite Hstep, Hview in Hi', Ht'.
  split; [exact Hi' | exact Ht'].
Qed.

Lemma batch_stops_at_format_exception_witness :
  reachable primary_state
  /\ present (primary_prompt_of primary_state) = true
  /\ call_insights_of primary_state = Some (VList [])
  /\ transcriptions_of primary_state = Some (VList [])
  /\ response_truthy (transcription_result example_malformed_call) = true
  /\ format_transcript (transcription_result example_malformed_call)
     = Raise Py.IndexError
  /\ Forall file_succeeds [example_call]
  /\ fst (main (press (AnalyzeCalls
                         ([example_call] ++ example_malformed_call :: [example_call])
                         ProcessAllAtOnce)) primary_state)
     = Raise Py.IndexError
  /\ call_insights_of
       (step (press (AnalyzeCalls
                       ([example_call] ++ example_malformed_call :: [example_call])
                       ProcessAllAtOnce)) primary_state)
     = Some (VList ([] ++ map stored_insight [example_call]))
  /\ transcriptions_of
       (step (press (AnalyzeCalls
                       ([example_call] ++ example_malformed_call :: [example_call])
                       ProcessAllAtOnce)) primary_state)
     = Some (VList ([] ++ map stored_transcript [example_call])).
Proof.
  assert (H1 : present (primary_prompt_of primary_state) = true)
    by (vm_compute; reflexivity).
  assert (H2 : call_insights_of primary_state = Some (VList []))
    by (vm_compute; reflexivity).
  assert (H3 : transcriptions_of primary_state = Some (VList []))
    by (vm_compute; reflexivity).
  assert (H4 : response_truthy (transcription_result example_malformed_call)
               = true) by reflexivity.
  assert (H5 : format_transcript (transcription_result example_malformed_call)
               = Raise Py.IndexError) by reflexivity.
  assert (H6 : Forall file_succeeds [example_call])
    by (repeat constructor; apply example_call_succeeds).
  split; [apply setup_reachable|].
  split; [exact H1|]. split; [exact H2|]. split; [exact H3|].
  split; [exact H4|]. split; [exact H5|]. split; [exact H6|].
  exact (batch_stops_at_format_exception primary_state [example_call]
           [example_call] example_malformed_call Py.IndexError [] []
           setup_reachable H1 H2 H3 H4 H5 H6).
Defined.


(** X18. Whenever a press of the analysis button ends with its report, the
    two counters add up to the number of processed files; the successes are
    the files whose transcription and analysis both answered, and the
    insight list grew by exactly that many records; the transcription list
    grew by one record for every file whose transcription answered. *)
Theorem batch_report_accounts_for_every_file
    (st : session) (gk ok dk : bool) (uploaded_audios : list audio_file)
    (mode : process_mode) (successful failed : nat)
    (old_insights old_transcripts : list value) :
  reachable st ->
  call_insights_of st = Some (VList old_insights) ->
  transcriptions_of st = Some (VList old_transcripts) ->
  fst (main (mk_input gk ok dk (AnalyzeCalls uploaded_audios mode)) st)
  = Ok (BatchReport successful failed) ->
  exists (files : list audio_file) (new_insights new_transcripts : list value),
    files_to_process uploaded_audios mode = Ok files
    /\ (successful + failed = length files)%nat
    /\ successful = length (List.filter analysed files)
    /\ call_insights_of
         (step (mk_input gk ok dk (AnalyzeCalls uploaded_audios mode)) st)
       = Some (VList (old_insights ++ new_insights))
    /\ length new_insights = successful
    /\ transcriptions_of
         (step (mk_input gk ok dk (AnalyzeCalls uploaded_audios mode)) st)
       = Some (VList (old_transcripts ++ new_transcripts))
    /\ length new_transcripts = length (List.filter transcribed files).
Proof.
  intros Hreach Hinsights Htrans Hrun.
  destruct (reachable_view st Hreach) as (v & Hrep & _).
  set (inp := mk_input gk ok dk (AnalyzeCalls uploaded_audios mode)).
  assert (Hvi : v_insights v = old_insights).
  { destruct Hrep as (_ & _ & Hi & _). unfold call_insights_of in Hinsights.
    rewrite Hi in Hinsights. congruence. }
  assert (Hvt : v_transcriptions v = old_transcripts).
  { destruct Hrep as (_ & _ & _ & Ht & _). unfold transcriptions_of in Htrans.
    rewrite Ht in Htrans. congruence. }
  destruct (sidebar_runs inp v st Hrep) as [_ Hside].
  destruct (view_sidebar_frame inp v) as (_ & _ & Si & St & _).
  rewrite main_run in Hrun. simpl clicked in Hrun. simpl deepgram_key in Hrun.
  destruct (analyze_calls_report dk uploaded_audios mode (view_sidebar inp v)
              _ successful failed Hside Hrun)
    as (Hp & -> & Ha & Hne & files & Hfiles & Hcount).
  destruct (count_process_files_ok files 0 0 successful failed
              (view_sidebar inp v) Hcount)
    as (Hs & Hsum & ni & nt & Hview & Hni & Hnt).
  exists files, ni, nt.
  assert (Hstep : view_step inp v = view_process_files files (view_sidebar inp v)).
  { unfold view_step, view_handler. simpl clicked. simpl deepgram_key.
    rewrite Hp, Ha, Hfiles. simpl. by destruct uploaded_audios. }
  pose proof (step_sim inp v st Hrep) as (_ & _ & Hi' & Ht' & _).
  rewrite Hstep, Hview in Hi', Ht'. simpl in Hi', Ht'.
  rewrite Si, Hvi in Hi'. rewrite St, Hvt in Ht'.
  split; [exact Hfiles|]. split; [lia|]. split; [lia|].
  split; [exact Hi'|]. split; [lia|]. split; [exact Ht' | exact Hnt].
Qed.

Lemma batch_report_accounts_for_every_file_witness :
  reachable primary_state
  /\ call_insights_of primary_state = Some (VList [])
  /\ transcriptions_of primary_state = Some (VList [])
  /\ fst (main (mk_input true true true
                  (AnalyzeCalls [example_call; example_failed_call;
                                 example_unanalysed_call] ProcessAllAtOnce))
            primary_state)
     = Ok (BatchReport 1 2)
  /\ exists (files : list audio_file) (new_insights new_transcripts : list value),
    files_to_process [example_call; example_failed_call; example_unanalysed_call]
      ProcessAllAtOnce = Ok files
    /\ (1 + 2 = length files)%nat
    /\ 1%nat = length (List.filter analysed files)
    /\ call_insights_of
         (step (mk_input true true true
                  (AnalyzeCalls [example_call; example_failed_call;
                                 example_unanalysed_call] ProcessAllAtOnce))
            primary_state)
       = Some (VList ([] ++ new_insights))
    /\ length new_insights = 1%nat
    /\ transcriptions_of
         (step (mk_input true true true
                  (AnalyzeCalls [example_call; example_failed_call;
                                 example_unanalysed_call] ProcessAllAtOnce))
            primary_state)
       = Some (VList ([] ++ new_transcripts))
    /\ length new_transcripts = length (List.filter transcribed files).
Proof.
  assert (H1 : call_insights_of primary_state = Some (VList []))
    by (vm_compute; reflexivity).
  assert (H2 : transcriptions_of primary_state = Some (VList []))
    by (vm_compute; reflexivity).
  assert (H3 : fst (main (mk_input true true true
                  (AnalyzeCalls [example_call; example_failed_call;
                                 example_unanalysed_call] ProcessAllAtOnce))
            primary_state)
     = Ok (BatchReport 1 2)) by (vm_compute; reflexivity).
  split; [apply setup_reachable|].
  split; [exact H1|]. split; [exact H2|]. split; [exact H3|].
  exact (batch_report_accounts_for_every_file primary_state true true true
           [example_call; example_failed_call; example_unanalysed_call]
           ProcessAllAtOnce 1 2 [] [] setup_reachable H1 H2 H3).
Defined.

Section Form.

Lemma list_index_In (s : string) (options : list string) :
  In s options ->
  exists i : nat, list_index (VStr s) options = Some i /\ options !! i = Some s.
Proof.
  induction options as [|o rest IH]; intros Hin; [by destruct Hin|].
  simpl. destruct (String.eqb s o) eqn:Heq.
  - apply String.eqb_eq in Heq. subst o. by exists 0%nat.
  - destruct Hin as [-> | Hin]; [by rewrite String.eqb_refl in Heq|].
    destruct (IH Hin) as (i & -> & Hi). by exists (S i).
Qed.

Lemma save_agent_details_report (n c l g : string) (v : view) (st : session) :
  represents v st ->
  fst (save_agent_details n c l g st) = Ok SuccessShown ->
  text_truthy (v_primary v) = false
  /\ str_truthy n && str_truthy c && str_truthy l && str_truthy g = true.
Proof.
  intros (Hp & _). unfold save_agent_details, bind, getattr, ret.
  rewrite Hp, truthy_value_of_text.
  destruct (text_truthy (v_primary v)); simpl; [discriminate|].
  destruct (str_truthy n && str_truthy c && str_truthy l && str_truthy g);
    simpl; [by split | discriminate].
Qed.

End Form.

(** X19. After a successful save of the agent form, the form of the next
    run shows what was saved: the text inputs are filled with the saved
    name and company, and the index computed for each select box is found
    without a [ValueError] and points at the saved language and category. *)
Theorem saved_agent_form_is_shown_again
    (st : session) (gk ok dk : bool)
    (agent_name company_name agent_language prompt_category : string) :
  reachable st ->
  In agent_language language_options ->
  In prompt_category category_options ->
  fst (main (mk_input gk ok dk
               (SaveAgentDetails agent_name company_name agent_language
                  prompt_category)) st)
  = Ok SuccessShown ->
  exists (d : list (string * value)) (i j : nat),
    step (mk_input gk ok dk
            (SaveAgentDetails agent_name company_name agent_language
               prompt_category)) st !! "agent_details"
    = Some (VDict d)
    /\ present (primary_prompt_of
                  (step (mk_input gk ok dk
                           (SaveAgentDetails agent_name company_name
                              agent_language prompt_category)) st)) = false
    /\ dict_get_default "name" (VStr EmptyString) d = VStr agent_name
    /\ dict_get_default "company" (VStr EmptyString) d = VStr company_name
    /\ selectbox_index language_options "language" "Hinglish" d = Some i
    /\ language_options !! i = Some agent_language
    /\ selectbox_index category_options "category" "Lead Qualification" d
       = Some j
    /\ category_options !! j = Some prompt_category.
Proof.
  intros Hreach Hlang Hcat Hrun.
  destruct (reachable_view st Hreach) as (v & Hrep & _).
  set (inp := mk_input gk ok dk
                (SaveAgentDetails agent_name company_name agent_language
                   prompt_category)) in *.
  destruct (sidebar_runs inp v st Hrep) as [_ Hside].
  destruct (view_sidebar_frame inp v) as (Sp & _).
  rewrite main_run in Hrun. simpl clicked in Hrun.
  destruct (save_agent_details_report _ _ _ _ _ _ Hside Hrun) as [Hp Hall].
  assert (Hstep : view_step inp v
                  = with_agent (agent_dict agent_name company_name
                                  agent_language prompt_category)
                      (view_sidebar inp v)).
  { unfold view_step, view_handler. simpl clicked. by rewrite Hp, Hall. }
  pose proof (step_sim inp v st Hrep) as (Hp' & _ & _ & _ & _ & _ & Hag' & _).
  rewrite Hstep in Hp', Hag'. simpl in Hp', Hag'.
  apply andb_true_iff in Hall as [Hall Hg].
  apply andb_true_iff in Hall as [Hall Hl].
  destruct (list_index_In _ _ Hlang) as (i & Hi & Hli).
  destruct (list_index_In _ _ Hcat) as (j & Hj & Hlj).
  exists (agent_dict agent_name company_name agent_language prompt_category),
         i, j.
  split; [exact Hag'|].
  split.
  { unfold primary_prompt_of. rewrite Hp', present_text. exact Hp. }
  split; [reflexivity|]. split; [reflexivity|].
  unfold selectbox_index, agent_dict, dict_get_default. simpl.
  rewrite Hl, Hg. simpl. by repeat split.
Qed.

Lemma saved_agent_form_is_shown_again_witness :
  reachable fresh_session
  /\ In "Tamil" language_options
  /\ In "Survey & Feedback" category_options
  /\ fst (main (mk_input true true true
                  (SaveAgentDetails "Riya" "Acme" "Tamil" "Survey & Feedback"))
            fresh_session)
     = Ok SuccessShown
  /\ exists (d : list (string * value)) (i j : nat),
    step (mk_input true true true
            (SaveAgentDetails "Riya" "Acme" "Tamil" "Survey & Feedback"))
      fresh_session !! "agent_details"
    = Some (VDict d)
    /\ present (primary_prompt_of
                  (step (mk_input true true true
                           (SaveAgentDetails "Riya" "Acme" "Tamil"
                              "Survey & Feedback")) fresh_session)) = false
    /\ dict_get_default "name" (VStr EmptyString) d = VStr "Riya"
    /\ dict_get_default "company" (VStr EmptyString) d = VStr "Acme"
    /\ selectbox_index language_options "language" "Hinglish" d = Some i
    /\ language_options !! i = Some "Tamil"
    /\ selectbox_index category_options "category" "Lead Qualification" d
       = Some j
    /\ category_options !! j = Some "Survey & Feedback".
Proof.
  assert (H1 : In "Tamil" language_options) by (simpl; tauto).
  assert (H2 : In "Survey & Feedback" category_options) by (simpl; tauto).
  assert (H3 : fst (main (mk_input true true true
                  (SaveAgentDetails "Riya" "Acme" "Tamil" "Survey & Feedback"))
            fresh_session)
     = Ok SuccessShown) by (vm_compute; reflexivity).
  split; [apply reachable_fresh|].
  split; [exact H1|]. split; [exact H2|]. split; [exact H3|].
  exact (saved_agent_form_is_shown_again fresh_session true true true
           "Riya" "Acme" "Tamil" "Survey & Feedback" reachable_fresh H1 H2 H3).
Defined.

Section Numbering.

Context {A : Type}.

Lemma enumerate_snoc (l : list A) : forall (start : Z) (x : A),
  enumerate start (l ++ [x])
  = enumerate start l ++ [(start + Z.of_nat (length l), x)].
Proof.
  induction l as [|y l IH]; intros start x; simpl.
  - by rewrite Z.add_0_r.
  - rewrite IH. f_equal. f_equal. f_equal. f_equal. lia.
Qed.

Lemma enumerate_shift (n : Z) (l : list A) : forall start : Z,
  map (fun p => (n + 1 - fst p + 1, snd p)) (enumerate (start + 1) l)
  = map (fun p => (n - fst p + 1, snd p)) (enumerate start l).
Proof.
  induction l as [|y l IH]; intros start; simpl; [reflexivity|].
  rewrite IH. do 2 f_equal. lia.
Qed.

End Numbering.

(** X20. The two listings of the refinement history number the refinements
    alike: the list of the fifth tab, which shows the newest first and
    computes each number from the length of the history, is the reverse of
    the chronological numbering used by the sixth tab and its timeline. *)
Theorem refinement_numbers_agree (history : list value) :
  refinement_numbers_newest_first history
  = reverse (refinement_numbers history).
Proof.
  unfold refinement_numbers_newest_first, refinement_numbers.
  induction history as [|r history IH] using rev_ind; [reflexivity|].
  rewrite reverse_snoc, enumerate_snoc, reverse_snoc, length_app. simpl.
  f_equal; [f_equal; lia|].
  rewrite <- IH.
  replace (Z.of_nat (length history + 1)) with (Z.of_nat (length history) + 1)
    by lia.
  apply (enumerate_shift (Z.of_nat (length history)) (reverse history) 1).
Qed.
